(** * MCPStack: the pipeline builder and its configuration

    A shallow embedding of [MCPStack/core/config.py] (StackConfig),
    [MCPStack/core/tool/base.py] (BaseTool), [MCPStack/core/utils/exceptions.py]
    and [MCPStack/stack.py] (MCPStackCore), with the lifecycle properties of the
    builder proved over it.

    Python objects that are mutated in place or shared by reference (pipelines,
    configurations, serving runtimes) live in stores indexed by location;
    dictionaries looked up by key are [gmap]s, dictionaries that are iterated
    are lists of items in insertion order; a string is a sequence of
    characters, each a code point below 256; a method that may raise returns
    a [result] together with the store it leaves behind. *)

From Stdlib Require Import ZArith Ascii.
From stdpp Require Import gmap strings list fin_maps pretty.

Set Warnings "-register-all".

(** ** Exceptions ([core/utils/exceptions.py]) *)

(** The subclasses of [MCPStackError] that the modelled code raises. *)
Inductive exn_class :=
  | MCPStackBuildError
  | MCPStackConfigError
  | MCPStackInitializationError
  | MCPStackPresetError
  | MCPStackValidationError.

(** A raised exception: an [MCPStackError] of some subclass with its [message]
    and [details], or any other Python [Exception] (FileNotFoundError,
    AttributeError, whatever a tool hook, a backend or the serving runtime
    raises), kept as its class name and its text. Only instances of
    [Exception] are modelled: these are what [except Exception] catches. *)
Inductive exn :=
  | MCPStackError (cls : exn_class) (message : string) (details : option string)
  | PyException (cls : string) (text : string).

Definition nl : string := String (Ascii.ascii_of_nat 10) EmptyString.

(** [MCPStackError.__str__] (and [str(e)] of another exception). *)
Definition exn_str (e : exn) : string :=
  match e with
  | MCPStackError _ message details =>
      let base_msg := "MCPStack Error: " +:+ message in
      match details with
      | Some d => if String.eqb d "" then base_msg
                  else base_msg +:+ nl +:+ "Details: " +:+ d
      | None => base_msg
      end
  | PyException _ text => text
  end.

Inductive result (A : Type) :=
  | Ok (a : A)
  | Raise (e : exn).
Arguments Ok {A} a.
Arguments Raise {A} e.

Definition is_ok {A} (r : result A) : bool :=
  match r with Ok _ => true | Raise _ => false end.

(** ** Python values passed as [Any] *)

(** [get_env_var]'s [default] is declared [Optional[Any]]: the callers pass
    [None], strings and (the Claude generator, for MCPSTACK_ARGS) a list of
    strings. *)
Inductive PyVal :=
  | PyNone
  | PyStr (s : string)
  | PyBool (b : bool)
  | PyInt (z : Z)
  | PyList (l : list string).

(** Python truthiness, as [value or ""] and [if value] test it. *)
Definition truthy (v : PyVal) : bool :=
  match v with
  | PyNone => false
  | PyStr s => negb (String.eqb s "")
  | PyBool b => b
  | PyInt z => negb (z =? 0)%Z
  | PyList l => match l with [] => false | _ => true end
  end.

Definition py_or (v d : PyVal) : PyVal := if truthy v then v else d.

Definition is_None (v : PyVal) : bool :=
  match v with PyNone => true | _ => false end.

Definition of_optional (o : option string) : PyVal :=
  match o with Some s => PyStr s | None => PyNone end.

(** ** Tools ([core/tool/base.py]) *)

(** JSON data, as [to_dict] produces it and [json.dump]/[json.load] carry it. *)
Inductive json :=
  | JNull
  | JBool (b : bool)
  | JNum (z : Z)
  | JStr (s : string)
  | JArr (l : list json)
  | JObj (fields : list (string * json)).

(** A backend resource owned by a tool. Each hook is [None] when the backend
    has no such attribute ([hasattr] is false), [Some None] when calling it
    returns, [Some (Some e)] when calling it raises [e]. *)
Record Backend := {
  backend_initialize : option (option exn);
  backend_teardown : option (option exn);
}.

(** A tool instance. [required_env_vars] and [backends] are the attributes
    [BaseTool.__init__] sets ([None]: the attribute is missing, which
    [getattr(tool, ..., {})] and [hasattr(tool, "backends")] provide for); both
    are dictionaries iterated in insertion order. The protected hooks
    [_initialize], [_teardown] and [_post_load] are given by their outcome
    ([None]: returns, [Some e]: raises [e]). *)
Record BaseTool := {
  class_name : string;
  required_env_vars : option (list (string * option string));
  backends : option (list (string * Backend));
  actions : list string;
  to_dict : json;
  _initialize : option exn;
  _teardown : option exn;
  _post_load : option exn;
}.

(** ** StackConfig ([core/config.py]) *)

(** The attributes the modelled methods read or write. The path attributes
    that [_set_paths] derives are read by none of them and are left out. *)
Record StackConfig := {
  log_level : string;
  env_vars : gmap string string;
}.

Definition MissingEnvVar (key : string) : exn :=
  MCPStackError MCPStackConfigError ("Missing required env var: " +:+ key) None.

(** [os.getenv(key, default)] over the process environment [environ]. *)
Definition os_getenv (environ : gmap string string) (key : string) (default : PyVal) : PyVal :=
  match environ !! key with
  | Some v => PyStr v
  | None => default
  end.

(** [StackConfig.get_env_var]. *)
Definition get_env_var (self : StackConfig) (environ : gmap string string)
    (key : string) (default : PyVal) (raise_if_missing : bool) : result PyVal :=
  let value :=
    match env_vars self !! key with
    | Some v => PyStr v
    | None => os_getenv environ key default
    end in
  if is_None value && raise_if_missing then Raise (MissingEnvVar key)
  else Ok (py_or value (PyStr "")).

(** [getattr(tool, "required_env_vars", {}).items()]. *)
Definition required_items (tool : BaseTool) : list (string * option string) :=
  match required_env_vars tool with
  | Some d => d
  | None => []
  end.

(** The inner loop of [validate_for_tools]: one [try ... except Exception]
    per declared variable, appending to [errors]. *)
Fixpoint validate_tool (self : StackConfig) (environ : gmap string string)
    (tool : BaseTool) (items : list (string * option string))
    (errors : list string) : list string :=
  match items with
  | [] => errors
  | (req_key, req_default) :: items' =>
      let errors' :=
        match get_env_var self environ req_key (of_optional req_default)
                (is_None (of_optional req_default)) with
        | Ok _ => errors
        | Raise e => errors ++ [class_name tool +:+ ": " +:+ exn_str e]
        end in
      validate_tool self environ tool items' errors'
  end.

(** The outer loop of [validate_for_tools]. *)
Fixpoint validate_tools (self : StackConfig) (environ : gmap string string)
    (tools : list BaseTool) (errors : list string) : list string :=
  match tools with
  | [] => errors
  | tool :: tools' =>
      validate_tools self environ tools'
        (validate_tool self environ tool (required_items tool) errors)
  end.

(** [StackConfig.validate_for_tools]. *)
Definition validate_for_tools (self : StackConfig) (environ : gmap string string)
    (tools : list BaseTool) : result unit :=
  let errors := validate_tools self environ tools [] in
  match errors with
  | [] => Ok tt
  | _ => Raise (MCPStackError MCPStackConfigError (String.concat nl errors) None)
  end.

Definition EnvConflict (prefixed_key old value : string) : exn :=
  MCPStackError MCPStackConfigError
    ("Env conflict: " +:+ prefixed_key +:+ " (" +:+ old +:+ " vs " +:+ value +:+ ")") None.

Definition prefixed (prefix key : string) : string :=
  if String.eqb prefix "" then key else prefix +:+ key.

Arguments prefixed : simpl never.

Definition set_env_vars (self : StackConfig) (e : gmap string string) : StackConfig :=
  {| log_level := log_level self; env_vars := e |}.

(** [StackConfig.merge_env]: the loop over [new_env.items()]. The configuration
    is updated in place entry by entry, so the configuration left behind is
    returned also when the loop raises. *)
Fixpoint merge_env (self : StackConfig) (new_env : list (string * string))
    (prefix : string) : result unit * StackConfig :=
  match new_env with
  | [] => (Ok tt, self)
  | (key, value) :: rest =>
      let prefixed_key := prefixed prefix key in
      match env_vars self !! prefixed_key with
      | Some old =>
          if String.eqb old value
          then merge_env (set_env_vars self (<[prefixed_key := value]> (env_vars self))) rest prefix
          else (Raise (EnvConflict prefixed_key old value), self)
      | None =>
          merge_env (set_env_vars self (<[prefixed_key := value]> (env_vars self))) rest prefix
      end
  end.

(** A key that is in neither the override map nor the process environment. *)
Definition unresolved (self : StackConfig) (environ : gmap string string)
    (key : string) : bool :=
  match env_vars self !! key, environ !! key with
  | None, None => true
  | _, _ => false
  end.

(** What the specification says validation reports: the variables that the
    tools declare in their [required_env_vars] with no default and that
    resolve nowhere, as (tool class, variable) pairs in declaration order, and
    the line of the message for each. A tool without the attribute declares
    nothing. *)
Definition missing_of_tool (self : StackConfig) (environ : gmap string string)
    (tool : BaseTool) : list (string * string) :=
  match required_env_vars tool with
  | Some declared =>
      omap (fun '(k, d) =>
              match d with
              | None => if unresolved self environ k then Some (class_name tool, k) else None
              | Some _ => None
              end) declared
  | None => []
  end.

Definition missing_vars (self : StackConfig) (environ : gmap string string)
    (tools : list BaseTool) : list (string * string) :=
  tools ≫= missing_of_tool self environ.

Definition missing_line (m : string * string) : string :=
  m.1 +:+ ": MCPStack Error: Missing required env var: " +:+ m.2.

(** ** The store *)

(** A location: the index of an object in its store. *)
Abbreviation loc := nat (only parsing).

(** The serving runtime (FastMCP), as far as the builder uses it: its name and
    the callables registered with it, oldest first. *)
Record FastMCP := {
  mcp_name : string;
  registered : list string;
}.

(** The attributes of an [MCPStackCore] instance. [config] and [mcp] are
    references: [with_tool] and its siblings hand the receiver's objects to the
    new pipeline. ([_mcp_config_generators] is the registry itself.) *)
Record MCPStackCore := {
  config : loc;
  tools : list BaseTool;
  mcp : option loc;
  _built : bool;
}.

(** The persisted pipeline document. [None] stands for a key that is absent
    where [load] reads it with [dict.get] and a default. *)
Record ToolDoc := {
  type : string;
  params : json;
}.

Record ConfigDoc := {
  doc_log_level : option string;
  doc_env_vars : option (gmap string string);
}.

Record PipelineDoc := {
  doc_config : ConfigDoc;
  doc_tools : option (list ToolDoc);
}.

(** What a run leaves behind outside the objects: the calls made on hooks,
    backends and the serving runtime, in order. A tool is named by its class,
    a backend by its key in [backends]. *)
Inductive Event :=
  | EvBackendInitialize (tool backend : string)
  | EvInitialize (tool : string)
  | EvPostLoad (tool : string)
  | EvServe (runtime : loc)
  | EvBackendTeardown (tool backend : string).

(** The process: [os.environ], the files that hold pipeline documents
    ([json.dump] and [json.load] are taken as inverse on documents, so a file
    holds the document itself), the three object stores and the trace. *)
Record World := {
  environ : gmap string string;
  files : gmap string PipelineDoc;
  configs : list StackConfig;
  runtimes : list FastMCP;
  stacks : list MCPStackCore;
  trace : list Event;
}.

Definition set_environ (e : gmap string string) (w : World) : World :=
  {| environ := e; files := files w; configs := configs w;
     runtimes := runtimes w; stacks := stacks w; trace := trace w |}.

Definition set_files (f : gmap string PipelineDoc) (w : World) : World :=
  {| environ := environ w; files := f; configs := configs w;
     runtimes := runtimes w; stacks := stacks w; trace := trace w |}.

Definition set_configs (c : list StackConfig) (w : World) : World :=
  {| environ := environ w; files := files w; configs := c;
     runtimes := runtimes w; stacks := stacks w; trace := trace w |}.

Definition set_runtimes (r : list FastMCP) (w : World) : World :=
  {| environ := environ w; files := files w; configs := configs w;
     runtimes := r; stacks := stacks w; trace := trace w |}.

Definition set_stacks (s : list MCPStackCore) (w : World) : World :=
  {| environ := environ w; files := files w; configs := configs w;
     runtimes := runtimes w; stacks := s; trace := trace w |}.

Definition set_trace (t : list Event) (w : World) : World :=
  {| environ := environ w; files := files w; configs := configs w;
     runtimes := runtimes w; stacks := stacks w; trace := t |}.

(** ** Computations that may raise and that update the store *)

Definition M (A : Type) : Type := World -> result A * World.

Definition ret {A} (a : A) : M A := fun w => (Ok a, w).

Definition bind {A B} (m : M A) (k : A -> M B) : M B :=
  fun w =>
    match m w with
    | (Ok a, w') => k a w'
    | (Raise e, w') => (Raise e, w')
    end.

Definition raise {A} (e : exn) : M A := fun w => (Raise e, w).

Notation "'let!' x ':=' c1 'in' c2" := (bind c1 (fun x => c2))
  (at level 10, x name, c1 at level 100, c2 at level 200).
Notation "c1 ;;; c2" := (bind c1 (fun _ => c2))
  (at level 100, c2 at level 200, right associativity).

(** [try: body finally: cleanup]: the cleanup runs whatever the body did; the
    body's outcome stands unless the cleanup itself raises. *)
Definition try_finally {A} (body : M A) (cleanup : M unit) : M A :=
  fun w =>
    let '(r, w1) := body w in
    match cleanup w1 with
    | (Ok _, w2) => (r, w2)
    | (Raise e, w2) => (Raise e, w2)
    end.

(** [try: body except Exception: pass]. *)
Definition try_pass (body : M unit) : M unit :=
  fun w =>
    match body w with
    | (Ok _, w') => (Ok tt, w')
    | (Raise _, w') => (Ok tt, w')
    end.

(** [for x in l: body(x)]. *)
Fixpoint for_each {A} (l : list A) (body : A -> M unit) : M unit :=
  match l with
  | [] => ret tt
  | x :: l' => body x ;;; for_each l' body
  end.

Definition lift {A} (r : result A) : M A := fun w => (r, w).

(** [c in s] for a character [c]. *)
Fixpoint contains (c : ascii) (s : string) : bool :=
  match s with
  | EmptyString => false
  | String c' s' => Ascii.eqb c c' || contains c s'
  end.

(** [os.environ[key] = value] on a POSIX machine, as CPython 3.11 has it: both
    strings are turned into C strings, which raises ValueError when either
    holds a NUL character; [os.putenv] then refuses a name that holds '=',
    and [setenv] fails on the empty name. [None] when the entry is set. *)
Definition putenv_error (key value : string) : option exn :=
  if contains "000" key || contains "000" value
  then Some (PyException "ValueError" "embedded null byte")
  else if contains "=" key
  then Some (PyException "ValueError" "illegal environment variable name")
  else if String.eqb key ""
  then Some (PyException "OSError" "[Errno 22] Invalid argument")
  else None.

Definition environ_setitem (key value : string) : M unit :=
  fun w =>
    match putenv_error key value with
    | Some e => (Raise e, w)
    | None => (Ok tt, set_environ (<[key := value]> (environ w)) w)
    end.

(** [for k, v in items: os.environ[k] = v]: the entries before the first one
    that is refused stay set. *)
Definition export_env (items : list (string * string)) : M unit :=
  for_each items (fun kv => environ_setitem kv.1 kv.2).

(** Every entry of the mapping can be set in [os.environ]. *)
Definition exportable (env : gmap string string) : bool :=
  forallb (fun kv => bool_decide (putenv_error kv.1 kv.2 = None)) (map_to_list env).

(** Calling a hook whose outcome is given. *)
Definition outcome (o : option exn) : M unit :=
  match o with
  | None => ret tt
  | Some e => raise e
  end.

Definition emit (ev : Event) : M unit :=
  fun w => (Ok tt, set_trace (trace w ++ [ev]) w).

(** Reading through a reference. A Python reference always names a live
    object; the error branch is the model's, for a location that was never
    allocated. *)
Definition Dangling : exn := PyException "ReferenceError" "no such object".

Definition get_stack (self : loc) : M MCPStackCore :=
  fun w => match stacks w !! self with
           | Some s => (Ok s, w)
           | None => (Raise Dangling, w)
           end.

Definition get_config (c : loc) : M StackConfig :=
  fun w => match configs w !! c with
           | Some cfg => (Ok cfg, w)
           | None => (Raise Dangling, w)
           end.

Definition get_runtime (m : loc) : M FastMCP :=
  fun w => match runtimes w !! m with
           | Some r => (Ok r, w)
           | None => (Raise Dangling, w)
           end.

Definition update_stack (self : loc) (f : MCPStackCore -> MCPStackCore) : M unit :=
  let! s := get_stack self in
  fun w => (Ok tt, set_stacks (<[self := f s]> (stacks w)) w).

Definition set_tools (l : list BaseTool) (s : MCPStackCore) : MCPStackCore :=
  {| config := config s; tools := l; mcp := mcp s; _built := _built s |}.

Definition set_mcp (m : option loc) (s : MCPStackCore) : MCPStackCore :=
  {| config := config s; tools := tools s; mcp := m; _built := _built s |}.

Definition set_built (b : bool) (s : MCPStackCore) : MCPStackCore :=
  {| config := config s; tools := tools s; mcp := mcp s; _built := b |}.

(** A new object goes to the end of its store. *)
Definition new_stack (s : MCPStackCore) : M loc :=
  fun w => (Ok (length (stacks w)), set_stacks (stacks w ++ [s]) w).

Definition new_config (c : StackConfig) : M loc :=
  fun w => (Ok (length (configs w)), set_configs (configs w ++ [c]) w).

Definition new_runtime (r : FastMCP) : M loc :=
  fun w => (Ok (length (runtimes w)), set_runtimes (runtimes w ++ [r]) w).

(** ** Registries and collaborators *)

(** A registered tool class, as [load] uses it: its [from_dict]. *)
Record ToolClass := {
  from_dict : json -> result BaseTool;
}.

(** A registered preset class: [create(config=..., **kwargs)] returns a
    pipeline. *)
Record Preset := {
  create : option loc -> list (string * PyVal) -> M loc;
}.

(** The keyword arguments of [with_preset]: [kw_config] is [None] when no
    [config] keyword was passed, else the value passed (a configuration or
    Python's [None]). *)
Record preset_kwargs := {
  kw_config : option (option loc);
  kw_rest : list (string * PyVal);
}.

(** The keyword arguments [build] hands to the generator. *)
Record build_kwargs := {
  command : option string;
  args : option (list string);
  cwd : option string;
  module_name : option string;
  pipeline_config_path : option string;
  save_path : option string;
}.

(** A registered configuration generator: [generate(stack, **kwargs)]. *)
Record Generator := {
  generate : loc -> build_kwargs -> M json;
}.

(** [re.sub(r"(?<!^)(?=[A-Z])", "_", name).lower()] on an ASCII class name:
    an underscore before every capital that is not the first character, then
    lower case. *)
Definition is_upper (c : ascii) : bool :=
  (65 <=? nat_of_ascii c)%nat && (nat_of_ascii c <=? 90)%nat.

Definition lower (c : ascii) : ascii :=
  if is_upper c then ascii_of_nat (nat_of_ascii c + 32) else c.

Fixpoint snake_rest (s : string) : string :=
  match s with
  | EmptyString => EmptyString
  | String c s' =>
      if is_upper c then String "_"%char (String (lower c) (snake_rest s'))
      else String c (snake_rest s')
  end.

Definition to_snake_case (name : string) : string :=
  match name with
  | EmptyString => EmptyString
  | String c s' => String (lower c) (snake_rest s')
  end.

Section MCPStack.

(** [core/utils/logging.setup_logging] is not part of the sources: [Some d]
    when it raises an exception whose text is [d], [None] when it accepts the
    level. *)
Variable setup_logging : string -> option string.

(** [thefuzz.process.extractOne(query, choices)]: the best match and its
    score, [None] when there is no choice. *)
Variable extractOne : string -> list string -> option (string * Z).

(** The blocking serve call [FastMCP.run()]: [None] when it returns, [Some e]
    when it raises [e]. *)
Variable mcp_run : FastMCP -> option exn.

(** The three process-wide registries ([tools/registry.py],
    [core/preset/registry.py], [core/mcp_config_generator/registry.py]). *)
Variable ALL_TOOLS : gmap string ToolClass.
Variable ALL_PRESETS : gmap string Preset.
Variable ALL_MCP_CONFIG_GENERATORS : gmap string Generator.

(** [StackConfig.__init__]: [_set_paths] only reads; [_apply_config] sets up
    logging and copies the overrides into [os.environ], entry by entry: an
    entry that [os.environ] refuses ends the constructor with the entries
    before it set. The overrides are a map, which does not record the order
    of insertion: the entries are taken in the order of the map. *)
Definition StackConfig_init (log_level : string)
    (env_vars : option (gmap string string)) : M loc :=
  let env_vars := match env_vars with Some e => e | None => ∅ end in
  match setup_logging log_level with
  | Some d => raise (MCPStackError MCPStackConfigError "Invalid log level" (Some d))
  | None =>
      export_env (map_to_list env_vars) ;;;
      new_config {| log_level := log_level; env_vars := env_vars |}
  end.

(** [StackConfig.to_dict] and [StackConfig.from_dict]. *)
Definition config_to_dict (self : StackConfig) : ConfigDoc :=
  {| doc_log_level := Some (log_level self); doc_env_vars := Some (env_vars self) |}.

Definition config_from_dict (data : ConfigDoc) : M loc :=
  StackConfig_init
    (match doc_log_level data with Some l => l | None => "INFO" end)
    (Some (match doc_env_vars data with Some e => e | None => ∅ end)).

(** [MCPStackCore.__init__]: [config or StackConfig()]. *)
Definition MCPStackCore_init (config : option loc) (mcp : option loc) : M loc :=
  let! c := match config with
            | Some c => ret c
            | None => StackConfig_init "INFO" None
            end in
  new_stack {| config := c; tools := []; mcp := mcp; _built := false |}.

Definition with_config (self : loc) (config : loc) : M loc :=
  let! s := get_stack self in
  let! new := MCPStackCore_init (Some config) (mcp s) in
  update_stack new (set_tools (tools s)) ;;;
  ret new.

Definition with_tool (self : loc) (tool : BaseTool) : M loc :=
  let! s := get_stack self in
  let! new := MCPStackCore_init (Some (config s)) (mcp s) in
  update_stack new (set_tools (tools s ++ [tool])) ;;;
  ret new.

Definition with_tools (self : loc) (tools' : list BaseTool) : M loc :=
  let! s := get_stack self in
  let! new := MCPStackCore_init (Some (config s)) (mcp s) in
  update_stack new (set_tools (tools s ++ tools')) ;;;
  ret new.

(** The suggestion both lookups append to their message. *)
Definition suggestion (name : string) (available : list string) : string :=
  match extractOne name available with
  | Some (best, score) =>
      if (80 <=? score)%Z then " Did you mean '" +:+ best +:+ "'?" else ""
  | None => ""
  end.

(** [list(d.keys())]. The order is the map's, not the order of insertion; the
    list is read by [extractOne] only. *)
Definition keys {V} (d : gmap string V) : list string := (map_to_list d).*1.

Definition UnknownPreset (preset_name : string) : exn :=
  MCPStackError MCPStackPresetError
    ("Unknown preset: " +:+ preset_name +:+ "." +:+ suggestion preset_name (keys ALL_PRESETS))
    None.

(** [kwargs.pop("config", self.config)] and [preset_stack.mcp or self.mcp]. *)
Definition config_arg (kwargs : preset_kwargs) (s : MCPStackCore) : option loc :=
  match kw_config kwargs with
  | Some c => c
  | None => Some (config s)
  end.

Definition mcp_or (a b : option loc) : option loc :=
  match a with Some m => Some m | None => b end.

Definition with_preset (self : loc) (preset_name : string) (kwargs : preset_kwargs) : M loc :=
  match ALL_PRESETS !! preset_name with
  | None => raise (UnknownPreset preset_name)
  | Some preset_class =>
      let! s := get_stack self in
      let config' := config_arg kwargs s in
      let! preset_stack := create preset_class config' (kw_rest kwargs) in
      let! s := get_stack self in
      let! ps := get_stack preset_stack in
      let merged_tools := tools s ++ tools ps in
      let! new := MCPStackCore_init (Some (config ps)) (mcp_or (mcp ps) (mcp s)) in
      update_stack new (set_tools merged_tools) ;;;
      ret new
  end.

(** [ExamplePreset.create] ([core/preset/presets/example_preset.py]); the
    tool it adds, [HelloWorld()], is taken as given. *)
Definition ExamplePreset (HelloWorld : BaseTool) : Preset :=
  {| create := fun config _ =>
       let! c := match config with
                 | Some c => ret c
                 | None => StackConfig_init "INFO" None
                 end in
       let! stack := MCPStackCore_init (Some c) None in
       with_tool stack HelloWorld |}.

(** [BaseTool.initialize]: every backend that has an [initialize], then the
    tool's own hook. *)
Definition initialize (tool : BaseTool) : M unit :=
  match backends tool with
  | None => raise (PyException "AttributeError" "backends")
  | Some bs =>
      for_each bs (fun nb =>
        match backend_initialize nb.2 with
        | None => ret tt
        | Some o => emit (EvBackendInitialize (class_name tool) nb.1) ;;; outcome o
        end) ;;;
      emit (EvInitialize (class_name tool)) ;;;
      outcome (_initialize tool)
  end.

(** [BaseTool.post_load]. *)
Definition post_load (tool : BaseTool) : M unit :=
  emit (EvPostLoad (class_name tool)) ;;;
  outcome (_post_load tool) ;;;
  initialize tool.

Definition EmptyPipeline : exn :=
  MCPStackError MCPStackValidationError "At least one tool must be added." None.

Definition _validate (self : loc) : M unit :=
  let! s := get_stack self in
  match tools s with
  | [] => raise EmptyPipeline
  | _ =>
      let! cfg := get_config (config s) in
      fun w => (validate_for_tools cfg (environ w) (tools s), w)
  end.

Definition _initialize_mcp (self : loc) : M unit :=
  let! s := get_stack self in
  match mcp s with
  | Some _ => ret tt
  | None =>
      let! m := new_runtime {| mcp_name := "mcpstack"; registered := [] |} in
      update_stack self (set_mcp (Some m))
  end.

Definition _initialize_tools (self : loc) : M unit :=
  let! s := get_stack self in
  for_each (tools s) initialize.

(** [self.mcp.tool()(action)]. *)
Definition register (m : loc) (action : string) : M unit :=
  let! r := get_runtime m in
  fun w => (Ok tt,
            set_runtimes (<[m := {| mcp_name := mcp_name r;
                                    registered := registered r ++ [action] |}]> (runtimes w)) w).

Definition _register_actions (self : loc) : M unit :=
  let! s := get_stack self in
  for_each (tools s ≫= actions) (fun action =>
    let! s := get_stack self in
    match mcp s with
    | None => raise (PyException "AttributeError" "'NoneType' object has no attribute 'tool'")
    | Some m => register m action
    end).

Definition UnknownConfigType (type : string) : exn :=
  MCPStackError MCPStackValidationError
    ("Unknown config type: " +:+ type +:+ "." +:+ suggestion type (keys ALL_MCP_CONFIG_GENERATORS))
    None.

Definition _generate_config (self : loc) (type : string) (kwargs : build_kwargs) : M json :=
  match ALL_MCP_CONFIG_GENERATORS !! type with
  | None => raise (UnknownConfigType type)
  | Some generator_class => generate generator_class self kwargs
  end.

Definition build (self : loc) (type : string) (kwargs : build_kwargs) : M json :=
  _validate self ;;;
  _initialize_mcp self ;;;
  _initialize_tools self ;;;
  _register_actions self ;;;
  update_stack self (set_built true) ;;;
  _generate_config self type kwargs.

Definition _teardown_tools (self : loc) : M unit :=
  let! s := get_stack self in
  for_each (tools s) (fun tool =>
    match backends tool with
    | None => ret tt
    | Some bs =>
        for_each bs (fun nb =>
          try_pass
            match backend_teardown nb.2 with
            | None => ret tt
            | Some o => emit (EvBackendTeardown (class_name tool) nb.1) ;;; outcome o
            end)
    end).

Definition serve (m : loc) : M unit :=
  let! r := get_runtime m in
  emit (EvServe m) ;;;
  outcome (mcp_run r).

Definition run (self : loc) : M unit :=
  let! s := get_stack self in
  if negb (_built s)
  then raise (MCPStackError MCPStackBuildError "Call .build() before .run()" None)
  else
    match mcp s with
    | None => raise (MCPStackError MCPStackInitializationError "MCP not initialized" None)
    | Some m => try_finally (serve m) (_teardown_tools self)
    end.

Definition tool_doc (tool : BaseTool) : ToolDoc :=
  {| type := to_snake_case (class_name tool); params := to_dict tool |}.

(** [MCPStackCore.save]; every path can be written. *)
Definition save (self : loc) (path : string) : M unit :=
  let! s := get_stack self in
  if negb (_built s)
  then raise (MCPStackError MCPStackBuildError "Call .build() before .save()" None)
  else
    let! cfg := get_config (config s) in
    let data := {| doc_config := config_to_dict cfg;
                   doc_tools := Some (tool_doc <$> tools s) |} in
    fun w => (Ok tt, set_files (<[path := data]> (files w)) w).

Definition _post_load_stack (self : loc) : M unit :=
  let! s := get_stack self in
  for_each (tools s) post_load ;;;
  let! s := get_stack self in
  match mcp s with
  | Some _ => _register_actions self
  | None => ret tt
  end ;;;
  update_stack self (set_built true).

(** The loop of [load] over the document's tools. *)
Fixpoint load_tools (instance : loc) (tools_data : list ToolDoc) : M loc :=
  match tools_data with
  | [] => ret instance
  | tool_data :: rest =>
      let tool_type := type tool_data in
      match ALL_TOOLS !! tool_type with
      | None => raise (MCPStackError MCPStackValidationError
                         ("Unknown tool type: " +:+ tool_type) None)
      | Some tool_cls =>
          let! tool := lift (from_dict tool_cls (params tool_data)) in
          let! instance := with_tool instance tool in
          load_tools instance rest
      end
  end.

Definition load (path : string) : M loc :=
  let! data := (fun w => match files w !! path with
                         | Some d => (Ok d, w)
                         | None => (Raise (PyException "FileNotFoundError"
                                             ("Config not found: " +:+ path)), w)
                         end) in
  let! config := config_from_dict (doc_config data) in
  let! instance := MCPStackCore_init (Some config) None in
  let! instance := load_tools instance
                     (match doc_tools data with Some l => l | None => [] end) in
  _post_load_stack instance ;;;
  update_stack instance (set_built true) ;;;
  ret instance.

(** The steps of [build] that come before the flag is set. *)
Definition build_steps (self : loc) : M unit :=
  _validate self ;;;
  _initialize_mcp self ;;;
  _initialize_tools self ;;;
  _register_actions self.

(** The calls made on the backends of one tool: one per backend that has the
    hook, in order. *)
Definition backend_teardown_events (tool : BaseTool) (bs : list (string * Backend)) : list Event :=
  omap (fun nb : string * Backend =>
          match backend_teardown nb.2 with
          | Some _ => Some (EvBackendTeardown (class_name tool) nb.1)
          | None => None
          end) bs.

Definition backend_initialize_events (tool : BaseTool) (bs : list (string * Backend)) : list Event :=
  omap (fun nb : string * Backend =>
          match backend_initialize nb.2 with
          | Some _ => Some (EvBackendInitialize (class_name tool) nb.1)
          | None => None
          end) bs.

(** The teardown calls [_teardown_tools] makes for a tool sequence. *)
Definition teardown_events (tools : list BaseTool) : list Event :=
  tools ≫= fun tool =>
    match backends tool with
    | None => []
    | Some bs => backend_teardown_events tool bs
    end.

(** The calls [initialize] makes on a tool whose hooks all return. *)
Definition initialize_events (tool : BaseTool) : list Event :=
  match backends tool with
  | None => []
  | Some bs => backend_initialize_events tool bs ++ [EvInitialize (class_name tool)]
  end.

Definition backend_initialize_ok (nb : string * Backend) : bool :=
  match backend_initialize nb.2 with
  | Some (Some _) => false
  | _ => true
  end.

(** [post_load] returns: the tool has its [backends], and neither hook nor
    any backend's [initialize] raises. *)
Definition post_load_ok (tool : BaseTool) : bool :=
  match _post_load tool, backends tool, _initialize tool with
  | None, Some bs, None => forallb backend_initialize_ok bs
  | _, _, _ => false
  end.

(** The calls [_post_load] of a pipeline makes on tools whose hooks return. *)
Definition post_load_events (tools : list BaseTool) : list Event :=
  tools ≫= fun tool => EvPostLoad (class_name tool) :: initialize_events tool.

(** The tool contract and the registry invariant that [load] relies on, for a
    saved tool [t]: its identifier is registered, the registered class's
    [from_dict] turns [t]'s parameters into a tool [t'] of the same class with
    the same parameters, and [t']'s [post_load] returns. *)
Definition reloads (t t' : BaseTool) : Prop :=
  ∃ cls, ALL_TOOLS !! to_snake_case (class_name t) = Some cls ∧
         from_dict cls (to_dict t) = Ok t' ∧
         class_name t' = class_name t ∧
         to_dict t' = to_dict t ∧
         post_load_ok t' = true.

(** The pipeline at [self] with its flag cleared, all else as it is. *)
Definition unbuilt (self : loc) (w : World) : World :=
  set_stacks (alter (set_built false) self (stacks w)) w.

(** ** Notions the properties are stated with *)

(** The pipelines, configurations, files and environment are as before: only
    the trace or the runtimes' registrations may have changed. *)
Definition keeps_objects (w w' : World) : Prop :=
  stacks w' = stacks w ∧ configs w' = configs w ∧
  files w' = files w ∧ environ w' = environ w.

Definition quiet {A} (m : M A) : Prop :=
  ∀ w r w', m w = (r, w') → keeps_objects w w'.

Definition result_of (o : option exn) : result unit :=
  match o with
  | None => Ok tt
  | Some e => Raise e
  end.

(** A computation that does the same, with the same outcome, whether or not
    the flag of the pipeline at [self] is set. *)
Definition flag_blind {A} (self : loc) (m : M A) : Prop :=
  ∀ w, m (unbuilt self w) = ((m w).1, unbuilt self (m w).2).

(** ** The rest of the builder, the tool hooks and the server entry point *)

(** The keyword arguments of [build()] called with none. *)
Definition build_defaults : build_kwargs :=
  {| command := None; args := None; cwd := None; module_name := None;
     pipeline_config_path := None; save_path := None |}.

(** [BaseTool.teardown]: the tool's own hook first, then every backend that
    has a [teardown], each in its own [try ... except Exception]. *)
Definition teardown (tool : BaseTool) : M unit :=
  outcome (_teardown tool) ;;;
  match backends tool with
  | None => raise (PyException "AttributeError" "backends")
  | Some bs =>
      for_each bs (fun nb =>
        try_pass
          match backend_teardown nb.2 with
          | None => ret tt
          | Some o => emit (EvBackendTeardown (class_name tool) nb.1) ;;; outcome o
          end)
  end.

(** [os.getenv(key)] and [os.getenv(key, default)] with a string default. *)
Definition getenv (key : string) : M (option string) :=
  fun w => (Ok (environ w !! key), w).

Definition getenv_default (key default : string) : M string :=
  fun w => (Ok (match environ w !! key with Some v => v | None => default end), w).

Definition ConfigPathNotSet : exn :=
  MCPStackError MCPStackValidationError
    "MCPSTACK_CONFIG_PATH env var not set. Build a pipeline and set it." None.

(** [core/server.py main]. Here [setup_logging] is called bare: what it
    raises goes up as it is (its class is not known, it is kept as
    Exception). *)
Definition main : M unit :=
  let! level := getenv_default "MCPSTACK_LOG_LEVEL" "INFO" in
  match setup_logging level with
  | Some d => raise (PyException "Exception" d)
  | None =>
      let! config_path := getenv "MCPSTACK_CONFIG_PATH" in
      match config_path with
      | None => raise ConfigPathNotSet
      | Some p =>
          if String.eqb p "" then raise ConfigPathNotSet
          else
            let! stack := load p in
            build stack "fastmcp" build_defaults ;;;
            run stack
      end
  end.

(** What [initialize] does to one tool, read off its backends and hook: the
    outcome and the calls made, up to and including the first one that
    raises. *)
Fixpoint backends_initialize_run (tool : BaseTool) (bs : list (string * Backend)) :
    result unit * list Event :=
  match bs with
  | [] => (Ok tt, [])
  | nb :: bs' =>
      match backend_initialize nb.2 with
      | None => backends_initialize_run tool bs'
      | Some None =>
          let '(r, evs) := backends_initialize_run tool bs' in
          (r, EvBackendInitialize (class_name tool) nb.1 :: evs)
      | Some (Some e) => (Raise e, [EvBackendInitialize (class_name tool) nb.1])
      end
  end.

Definition initialize_run (tool : BaseTool) : result unit * list Event :=
  match backends tool with
  | None => (Raise (PyException "AttributeError" "backends"), [])
  | Some bs =>
      match backends_initialize_run tool bs with
      | (Ok _, evs) =>
          (match _initialize tool with None => Ok tt | Some e => Raise e end,
           evs ++ [EvInitialize (class_name tool)])
      | (Raise e, evs) => (Raise e, evs)
      end
  end.

(** [initialize] returns: the tool has its [backends], and neither the hook
    nor any backend's [initialize] raises. *)
Definition initialize_ok (tool : BaseTool) : bool :=
  match backends tool, _initialize tool with
  | Some bs, None => forallb backend_initialize_ok bs
  | _, _ => false
  end.

(** A document entry that the registry turns into the tool [t]. *)
Definition rebuilds (d : ToolDoc) (t : BaseTool) : Prop :=
  ∃ cls, ALL_TOOLS !! type d = Some cls ∧ from_dict cls (params d) = Ok t.

(** [self.config.merge_env(...)] through a reference: the configuration
    object is updated in place, for every pipeline that holds it, and what the
    loop has set stays set when it raises. *)
Definition merge_env_at (c : loc) (new_env : list (string * string)) (prefix : string) : M unit :=
  let! cfg := get_config c in
  fun w => let '(r, cfg') := merge_env cfg new_env prefix in
           (r, set_configs (<[c := cfg']> (configs w)) w).

(** ** The command line ([cli.py]) *)

(** [str.isspace] on a character, [str.strip()] and [str.split(sep)] for a
    separator of one character. A character is a code point below 256; of
    these Python counts as white space 9 to 13, 28 to 32, 133 (next line) and
    160 (no-break space). *)
Definition is_space (c : ascii) : bool :=
  let n := nat_of_ascii c in
  ((9 <=? n)%nat && (n <=? 13)%nat) || ((28 <=? n)%nat && (n <=? 32)%nat) ||
  (n =? 133)%nat || (n =? 160)%nat.

Fixpoint lstrip (s : string) : string :=
  match s with
  | EmptyString => EmptyString
  | String c s' => if is_space c then lstrip s' else s
  end.

Fixpoint rstrip (s : string) : string :=
  match s with
  | EmptyString => EmptyString
  | String c s' =>
      match rstrip s' with
      | EmptyString => if is_space c then EmptyString else String c EmptyString
      | r => String c r
      end
  end.

Definition strip (s : string) : string := rstrip (lstrip s).

Fixpoint split (sep : ascii) (s : string) : list string :=
  match s with
  | EmptyString => [EmptyString]
  | String c s' =>
      if Ascii.eqb c sep then EmptyString :: split sep s'
      else match split sep s' with
           | h :: t => String c h :: t
           | [] => [String c EmptyString]
           end
  end.

(** [a or b] on two optional strings. *)
Definition or_else (a b : option string) : option string :=
  if truthy (of_optional a) then a else b.

(** [raise typer.Exit(code=1)]. *)
Definition Exit1 : exn := PyException "Exit" "1".

(** [try: body except Exception as e: ... raise typer.Exit(code=1) from e]. *)
Definition exit_on_error {A} (body : M A) : M A :=
  fun w =>
    match body w with
    | (Ok a, w') => (Ok a, w')
    | (Raise _, w') => (Raise Exit1, w')
    end.

Definition BothPaths : exn :=
  PyException "ValueError" "Cannot specify both --pipeline and --config-path.".

(** The loop of the [run] and [build] commands over the preset names. *)
Fixpoint apply_presets (stack : loc) (preset_list : list string) : M loc :=
  match preset_list with
  | [] => ret stack
  | preset :: rest =>
      match ALL_PRESETS !! preset with
      | None => raise (UnknownPreset preset)
      | Some _ =>
          let! stack := with_preset stack preset {| kw_config := None; kw_rest := [] |} in
          apply_presets stack rest
      end
  end.

(** The options of the [run] and [build] commands. *)
Record cli_options := {
  opt_pipeline : option string;
  opt_presets : option string;
  opt_config_type : string;
  opt_config_path : option string;
  opt_output : option string;
  opt_command : option string;
  opt_args : option string;
  opt_cwd : option string;
  opt_module_name : option string;
}.

(** What [--tool-config] holds, as the [pipeline] command reads it. *)
Record ToolConfig := {
  tc_env_vars : option (list (string * string));
  tc_tool_params : option json;
}.

Section CLI.

(** [os.path.abspath]. *)
Variable abspath : string -> string.

(** [[p.strip() for p in presets.split(",")] if presets else []]. *)
Definition preset_list (o : cli_options) : list string :=
  if truthy (of_optional (opt_presets o))
  then strip <$> split "," (default "" (opt_presets o)) else [].

(** The pipeline the two commands work on: the one loaded from [--pipeline],
    or a new one on [config] extended by the presets in turn. *)
Definition cli_stack (o : cli_options) (config : loc) : M loc :=
  if truthy (of_optional (opt_pipeline o)) then load (default "" (opt_pipeline o))
  else
    let! stack := MCPStackCore_init (Some config) None in
    apply_presets stack (preset_list o).

Definition cli_config_path (o : cli_options) : string :=
  abspath (default "mcpstack_pipeline.json" (or_else (opt_config_path o)
                                               (or_else (opt_pipeline o)
                                                  (Some "mcpstack_pipeline.json")))).

Definition cli_args_list (o : cli_options) : option (list string) :=
  if truthy (of_optional (opt_args o)) then Some (split "," (default "" (opt_args o))) else None.

(** [StackCLI.build]. *)
Definition cli_build (o : cli_options) : M unit :=
  exit_on_error
    (if truthy (of_optional (opt_pipeline o)) && truthy (of_optional (opt_config_path o))
     then raise BothPaths
     else
       let! env := (fun w => (Ok (environ w), w)) in
       let! config := StackConfig_init "INFO" (Some env) in
       let _config_path := cli_config_path o in
       let! stack := cli_stack o config in
       let _save_path := if truthy (of_optional (opt_output o))
                         then Some (abspath (default "" (opt_output o))) else None in
       build stack (opt_config_type o)
         {| command := opt_command o; args := cli_args_list o; cwd := opt_cwd o;
            module_name := opt_module_name o;
            pipeline_config_path := Some _config_path; save_path := _save_path |} ;;;
       save stack _config_path).

(** [StackCLI.run]: no artifact path is passed on, and the server is started
    once the pipeline is saved. *)
Definition cli_run (o : cli_options) : M unit :=
  exit_on_error
    (if truthy (of_optional (opt_pipeline o)) && truthy (of_optional (opt_config_path o))
     then raise BothPaths
     else
       let! env := (fun w => (Ok (environ w), w)) in
       let! config := StackConfig_init "INFO" (Some env) in
       let _config_path := cli_config_path o in
       let! stack := cli_stack o config in
       build stack (opt_config_type o)
         {| command := opt_command o; args := cli_args_list o; cwd := opt_cwd o;
            module_name := opt_module_name o;
            pipeline_config_path := Some _config_path; save_path := None |} ;;;
       save stack _config_path ;;;
       run stack).

(** [StackCLI.pipeline]. [tool_dict] is the dictionary read from
    [--tool-config] ([Raise] when the file cannot be read as one), and the
    default dictionary when the option is not given. An unknown tool ends the
    command before the [try]. *)
Definition cli_pipeline (tool_name : string) (to_pipeline new_pipeline : option string)
    (tool_dict : result ToolConfig) : M unit :=
  match ALL_TOOLS !! tool_name with
  | None => raise Exit1
  | Some tool_cls =>
      exit_on_error
        (let! tool_dict := lift tool_dict in
         let pipeline_path := or_else to_pipeline new_pipeline in
         let! stack := (fun w =>
                          if truthy (of_optional to_pipeline) &&
                             bool_decide (is_Some (files w !! default "" to_pipeline))
                          then load (default "" to_pipeline) w
                          else MCPStackCore_init None None w) in
         let! s := get_stack stack in
         merge_env_at (config s) (default [] (tc_env_vars tool_dict)) "" ;;;
         let! tool := lift (from_dict tool_cls (default (JObj []) (tc_tool_params tool_dict))) in
         let! stack := with_tool stack tool in
         build stack "fastmcp" build_defaults ;;;
         match pipeline_path with
         | Some p => save stack p
         | None => raise (PyException "BeartypeCallHintParamViolation" "path")
         end)
  end.

End CLI.

End MCPStack.

(** * Host configurations ([core/mcp_config_generator], [core/docker]) *)

(** ** Python dictionaries held as JSON objects *)

Fixpoint dict_get (k : string) (d : list (string * json)) : option json :=
  match d with
  | [] => None
  | (k', v) :: d' => if String.eqb k k' then Some v else dict_get k d'
  end.

(** [d[k] = v]: in place when the key is there, at the end when it is not. *)
Fixpoint dict_set (k : string) (v : json) (d : list (string * json)) : list (string * json) :=
  match d with
  | [] => [(k, v)]
  | (k', v') :: d' =>
      if String.eqb k k' then (k, v) :: d' else (k', v') :: dict_set k v d'
  end.

(** [d.update(other)]. *)
Definition dict_update (d other : list (string * json)) : list (string * json) :=
  fold_left (fun acc kv => dict_set kv.1 kv.2 acc) other d.

(** ** The machine the generators run on *)

(** The exceptions of reading a file with [json.load] that are neither a
    JSONDecodeError nor an OSError: the bytes are no text in the encoding of
    the locale, or the JSON text is nested deeper than the interpreter
    recurses. *)
Inductive read_failure :=
  | UnicodeDecodeError
  | RecursionError.

Definition read_failure_name (f : read_failure) : string :=
  match f with
  | UnicodeDecodeError => "UnicodeDecodeError"
  | RecursionError => "RecursionError"
  end.

(** What a file holds, as [open] and [json.load] find it: JSON text, other
    text (a JSONDecodeError), something on which reading fails otherwise
    (with the message of the exception), or nothing that can be read (an
    OSError on [open]). *)
Inductive FileContent :=
  | JsonText (j : json)
  | NotJson
  | Fails (f : read_failure) (reason : string)
  | Unreadable.

(** The files by path, the directories that exist, the paths that cannot be
    opened for writing (each with the text of the OSError), the home
    directory ([Path.home()]), the working directory ([os.getcwd()]) and the
    executables on PATH ([shutil.which]). *)
Record Host := {
  host_files : gmap string FileContent;
  host_dirs : gset string;
  host_locked : gmap string string;
  host_home : string;
  host_cwd : string;
  host_which : string -> option string;
}.

Definition set_host_files (f : gmap string FileContent) (h : Host) : Host :=
  {| host_files := f; host_dirs := host_dirs h; host_locked := host_locked h;
     host_home := host_home h; host_cwd := host_cwd h; host_which := host_which h |}.

(** [with open(path, "w") as f: json.dump(j, f, indent=2)]; a directory
    cannot be opened for writing. *)
Definition write_json (path : string) (j : json) (h : Host) : result unit * Host :=
  match host_locked h !! path with
  | Some text => (Raise (PyException "OSError" text), h)
  | None =>
      if bool_decide (path ∈ host_dirs h)
      then (Raise (PyException "OSError" ("[Errno 21] Is a directory: '" +:+ path +:+ "'")), h)
      else (Ok tt, set_host_files (<[path := JsonText j]> (host_files h)) h)
  end.

(** [Path.exists()]: there is a file or a directory. *)
Definition path_exists (h : Host) (p : string) : bool :=
  bool_decide (is_Some (host_files h !! p)) || bool_decide (p ∈ host_dirs h).

(** ** Paths ([pathlib.PurePosixPath]) *)

(** A path as [pathlib] holds it on a POSIX machine: the root (empty, one
    slash or two) and the components, none of them empty or a single dot. *)
Record Path := {
  path_root : string;
  path_parts : list string;
}.

Fixpoint lstrip_sep (s : string) : string :=
  match s with
  | String c s' => if Ascii.eqb c "/" then lstrip_sep s' else s
  | EmptyString => EmptyString
  end.

(** [splitroot]: exactly two leading slashes are kept as the root, any other
    number of them is one slash. *)
Definition splitroot (part : string) : string * string :=
  let stripped := lstrip_sep part in
  let n := String.length part - String.length stripped in
  if (n =? 0)%nat then ("", part)
  else if (n =? 2)%nat then ("//", stripped)
  else ("/", stripped).

Definition not_dot (x : string) : bool :=
  negb (String.eqb x "") && negb (String.eqb x ".").

(** [Path(s)]. *)
Definition parse_path (s : string) : Path :=
  let '(root, rel) := splitroot s in
  {| path_root := root; path_parts := List.filter not_dot (split "/" rel) |}.

(** [p / name]: a name that has a root replaces [p]. *)
Definition Path_div (p : Path) (name : string) : Path :=
  let q := parse_path name in
  if String.eqb (path_root q) "" 
  then {| path_root := path_root p; path_parts := path_parts p ++ path_parts q |}
  else q.

(** [str(p)]. *)
Definition Path_str (p : Path) : string :=
  match path_root p, path_parts p with
  | EmptyString, [] => "."
  | root, parts => root +:+ String.concat "/" parts
  end.

(** [p.parent]. *)
Definition Path_parent (p : Path) : Path :=
  {| path_root := path_root p; path_parts := removelast (path_parts p) |}.

(** [str(Path(v) / "bin" / "python")]. *)
Definition venv_python (v : string) : string :=
  Path_str (Path_div (Path_div (parse_path v) "bin") "python").

(** [_get_claude_config_path], the same in both generators: the first of
    three configuration files whose parent exists. [host_home] is what
    [os.path.expanduser] gives for the home directory. *)
Definition claude_config_paths (home : Path) : list Path :=
  [Path_div (Path_div (Path_div (Path_div home "Library") "Application Support") "Claude")
     "claude_desktop_config.json";
   Path_div (Path_div (Path_div (Path_div home "AppData") "Roaming") "Claude")
     "claude_desktop_config.json";
   Path_div (Path_div (Path_div home ".config") "Claude") "claude_desktop_config.json"].

Definition _get_claude_config_path (h : Host) : option string :=
  match List.filter (fun p => path_exists h (Path_str (Path_parent p)))
          (claude_config_paths (parse_path (host_home h))) with
  | p :: _ => Some (Path_str p)
  | [] => None
  end.

(** ** The configuration dictionaries *)

(** One entry of [mcpServers]; the Docker entries have no [cwd] key. *)
Record ServerEntry := {
  se_command : string;
  se_args : list string;
  se_cwd : option string;
  se_env : gmap string string;
}.

(** The dictionary [{"mcpServers": {name: entry}}] a generator returns. *)
Record HostConfig := {
  hc_server_name : string;
  hc_entry : ServerEntry;
}.

(** [json.dump] of these dictionaries. The keys of the [env] object come in
    the order of the map, not of insertion. *)
Definition env_json (env : gmap string string) : json :=
  JObj (prod_map id JStr <$> map_to_list env).

Definition entry_json (e : ServerEntry) : json :=
  JObj ([("command", JStr (se_command e)); ("args", JArr (JStr <$> se_args e))] ++
        match se_cwd e with Some d => [("cwd", JStr d)] | None => [] end ++
        [("env", env_json (se_env e))]).

Definition servers_json (c : HostConfig) : list (string * json) :=
  [(hc_server_name c, entry_json (hc_entry c))].

Definition config_json (c : HostConfig) : json :=
  JObj [("mcpServers", JObj (servers_json c))].

(** [env["MCPSTACK_CONFIG_PATH"] = pipeline_config_path], on the copy of the
    overrides that the entry holds. *)
Definition set_config_path (p : string) (c : HostConfig) : HostConfig :=
  {| hc_server_name := hc_server_name c;
     hc_entry := {| se_command := se_command (hc_entry c); se_args := se_args (hc_entry c);
                    se_cwd := se_cwd (hc_entry c);
                    se_env := <["MCPSTACK_CONFIG_PATH" := p]> (se_env (hc_entry c)) |} |}.

(** The name of the Python type that [json.load] gives a value. *)
Definition type_name (j : json) : string :=
  match j with
  | JNull => "NoneType"
  | JBool _ => "bool"
  | JNum _ => "int"
  | JStr _ => "str"
  | JArr _ => "list"
  | JObj _ => "dict"
  end.

Definition NoAttribute (j : json) (attribute : string) : exn :=
  PyException "AttributeError"
    ("'" +:+ type_name j +:+ "' object has no attribute '" +:+ attribute +:+ "'").

(** [existing.setdefault("mcpServers", {})] followed by
    [existing["mcpServers"].update(servers)]; an AttributeError when either
    value is not a dictionary. *)
Definition merge_servers (existing : json) (servers : list (string * json)) : result json :=
  match existing with
  | JObj fields =>
      let fields := match dict_get "mcpServers" fields with
                    | Some _ => fields
                    | None => fields ++ [("mcpServers", JObj [])]
                    end in
      match dict_get "mcpServers" fields with
      | Some (JObj old) => Ok (JObj (dict_set "mcpServers" (JObj (dict_update old servers)) fields))
      | Some other => Raise (NoAttribute other "update")
      | None => Raise (NoAttribute JNull "update")
      end
  | _ => Raise (NoAttribute existing "setdefault")
  end.

Definition ValidationError (message : string) : exn :=
  MCPStackError MCPStackValidationError message None.

(** ** Regular expressions, as far as the image-name pattern needs them *)

Inductive regex :=
  | Void
  | Eps
  | Class (p : ascii -> bool)
  | Seq (r1 r2 : regex)
  | Alt (r1 r2 : regex)
  | Star (r : regex).

Fixpoint nullable (r : regex) : bool :=
  match r with
  | Void => false
  | Eps => true
  | Class _ => false
  | Seq r1 r2 => nullable r1 && nullable r2
  | Alt r1 r2 => nullable r1 || nullable r2
  | Star _ => true
  end.

(** The derivative of [r] by the character [c]. *)
Fixpoint deriv (c : ascii) (r : regex) : regex :=
  match r with
  | Void => Void
  | Eps => Void
  | Class p => if p c then Eps else Void
  | Seq r1 r2 =>
      if nullable r1 then Alt (Seq (deriv c r1) r2) (deriv c r2) else Seq (deriv c r1) r2
  | Alt r1 r2 => Alt (deriv c r1) (deriv c r2)
  | Star r' => Seq (deriv c r') (Star r')
  end.

(** The whole of [s] matches [r]. *)
Fixpoint matches (r : regex) (s : string) : bool :=
  match s with
  | EmptyString => nullable r
  | String c s' => matches (deriv c r) s'
  end.

(** [s] without its last character when that is a line feed. *)
Fixpoint chop_newline (s : string) : option string :=
  match s with
  | EmptyString => None
  | String c EmptyString => if Ascii.eqb c "010"%char then Some EmptyString else None
  | String c s' => String c <$> chop_newline s'
  end.

(** [re.match("^" + r + "$", s)] without flags: [s] matches as a whole, or
    does so up to a line feed that ends it. *)
Definition re_match_anchored (r : regex) (s : string) : bool :=
  matches r s ||
  match chop_newline s with
  | Some s' => matches r s'
  | None => false
  end.

Definition is_lower (c : ascii) : bool :=
  (97 <=? nat_of_ascii c)%nat && (nat_of_ascii c <=? 122)%nat.

Definition is_digit (c : ascii) : bool :=
  (48 <=? nat_of_ascii c)%nat && (nat_of_ascii c <=? 57)%nat.

(** The classes [[a-zA-Z0-9]], [[a-zA-Z0-9._/-]] and [[a-zA-Z0-9._-]]. *)
Definition alnum (c : ascii) : bool := is_lower c || is_upper c || is_digit c.

Definition name_char (c : ascii) : bool :=
  alnum c || Ascii.eqb c "." || Ascii.eqb c "_" || Ascii.eqb c "/" || Ascii.eqb c "-".

Definition tag_char (c : ascii) : bool :=
  alnum c || Ascii.eqb c "." || Ascii.eqb c "_" || Ascii.eqb c "-".

(** [[a-zA-Z0-9][a-zA-Z0-9._/-]*[a-zA-Z0-9]*(:[a-zA-Z0-9._-]+)?] *)
Definition image_name_pattern : regex :=
  Seq (Class alnum)
    (Seq (Star (Class name_char))
       (Seq (Star (Class alnum))
          (Alt (Seq (Class (Ascii.eqb ":")) (Seq (Class tag_char) (Star (Class tag_char))))
               Eps))).

(** ** [core/docker/docker_config_generator.py] *)

Module DockerConfigGenerator.

(** [strip], [in] and [len] are those of Python on strings whose characters
    are code points below 256; the character classes of the pattern hold
    ASCII characters only. *)
Definition _validate_image_name (image_name : string) : result unit :=
  if negb (truthy (PyStr image_name)) || negb (truthy (PyStr (strip image_name)))
  then Raise (ValidationError "Docker image name cannot be empty")
  else if contains " " image_name
  then Raise (ValidationError ("Docker image name cannot contain spaces: " +:+ image_name))
  else if negb (re_match_anchored image_name_pattern image_name)
  then if (1 <? String.length image_name)%nat
       then Raise (ValidationError ("Invalid Docker image name format: " +:+ image_name))
       else Ok tt
  else Ok tt.

(** [for x in l: docker_args.extend([flag, x])]. *)
Definition extend_each (flag : string) (l : list string) (docker_args : list string) : list string :=
  fold_left (fun acc x => acc ++ [flag; x]) l docker_args.

Definition generate (config : StackConfig) (image_name server_name : string)
    (volumes ports : option (list string)) (network : option string)
    (extra_docker_args : option (list string)) : result HostConfig :=
  match _validate_image_name image_name with
  | Raise e => Raise e
  | Ok _ =>
      let docker_args := ["run"; "-i"; "--rm"] in
      let docker_args :=
        match volumes with
        | Some l => if truthy (PyList l) then extend_each "-v" l docker_args else docker_args
        | None => docker_args
        end in
      let docker_args :=
        match ports with
        | Some l => if truthy (PyList l) then extend_each "-p" l docker_args else docker_args
        | None => docker_args
        end in
      let docker_args :=
        match network with
        | Some n => if truthy (PyStr n) then docker_args ++ ["--network"; n] else docker_args
        | None => docker_args
        end in
      let docker_args :=
        match extra_docker_args with
        | Some l => if truthy (PyList l) then docker_args ++ l else docker_args
        | None => docker_args
        end in
      let docker_args := docker_args ++ [image_name] in
      Ok {| hc_server_name := server_name;
            hc_entry := {| se_command := "docker"; se_args := docker_args; se_cwd := None;
                           se_env := env_vars config |} |}
  end.

(** The existing file is read with a JSONDecodeError and an OSError (which
    opening a directory raises as well) taken as an empty dictionary; a
    UnicodeDecodeError or a RecursionError is neither and goes up. An error on writing becomes a
    ValidationError. *)
Definition _merge_with_existing_config (new_config : HostConfig) (config_path : string)
    (h : Host) : result unit * Host :=
  let existing_config :=
    match host_files h !! config_path with
    | Some (JsonText j) => Ok j
    | Some NotJson => Ok (JObj [])
    | Some (Fails f reason) => Raise (PyException (read_failure_name f) reason)
    | Some Unreadable => Ok (JObj [])
    | None => Ok (JObj [])
    end in
  match existing_config with
  | Raise e => (Raise e, h)
  | Ok existing_config =>
      match merge_servers existing_config (servers_json new_config) with
      | Raise e => (Raise e, h)
      | Ok merged =>
          match write_json config_path merged h with
          | (Ok _, h') => (Ok tt, h')
          | (Raise e, h') =>
              (Raise (ValidationError ("Could not write config file: " +:+ exn_str e)), h')
          end
      end
  end.

Definition save (config : StackConfig) (image_name server_name : string)
    (save_path : option string) (volumes ports : option (list string))
    (network : option string) (extra_docker_args : option (list string))
    (h : Host) : result unit * Host :=
  match generate config image_name server_name volumes ports network extra_docker_args with
  | Raise e => (Raise e, h)
  | Ok new_config =>
      if truthy (of_optional save_path)
      then write_json (default "" save_path) (config_json new_config) h
      else
        match _get_claude_config_path h with
        | Some path => _merge_with_existing_config new_config path h
        | None => (Ok tt, h)
        end
  end.

End DockerConfigGenerator.

(** ** [mcp_config_generators/docker_mcp_config.py] *)

Module DockerMCPConfigGenerator.

(** [command], [args], [cwd] and [module_name] are accepted and not read. *)
Definition generate (config : StackConfig) (kwargs : build_kwargs)
    (image_name server_name : string) (volumes ports : option (list string))
    (network : option string) (extra_docker_args : option (list string))
    (h : Host) : result HostConfig * Host :=
  match DockerConfigGenerator.generate config image_name server_name volumes ports network
          extra_docker_args with
  | Raise e => (Raise e, h)
  | Ok new_config =>
      let new_config :=
        if truthy (of_optional (pipeline_config_path kwargs))
        then set_config_path (default "" (pipeline_config_path kwargs)) new_config
        else new_config in
      match (if truthy (of_optional (save_path kwargs))
             then DockerConfigGenerator.save config image_name server_name (save_path kwargs)
                    volumes ports network extra_docker_args h
             else DockerConfigGenerator.save config image_name server_name None
                    volumes ports network extra_docker_args h) with
      | (Ok _, h') => (Ok new_config, h')
      | (Raise e, h') => (Raise e, h')
      end
  end.

End DockerMCPConfigGenerator.

(** ** [mcp_config_generators/claude_mcp_config.py] *)

Module ClaudeConfigGenerator.

(** The return annotation [-> str], which the class decorator checks. *)
Definition returns_str (r : result PyVal) : result string :=
  match r with
  | Ok (PyStr s) => Ok s
  | Ok _ => Raise (PyException "BeartypeCallHintReturnViolation" "str")
  | Raise e => Raise e
  end.

Definition _get_command (command : option string) (config : StackConfig)
    (environ : gmap string string) (h : Host) : result string :=
  match command with
  | Some c => Ok c
  | None =>
      let venv_python :=
        match environ !! "VIRTUAL_ENV" with
        | Some v =>
            let p := venv_python v in
            if path_exists h p then Some p else None
        | None => None
        end in
      match venv_python with
      | Some p => Ok p
      | None =>
          let default_python :=
            default "python" (or_else (host_which h "python")
                                (or_else (host_which h "python3") (Some "python"))) in
          returns_str (get_env_var config environ "MCPSTACK_COMMAND" (PyStr default_python) false)
      end
  end.

Definition _get_module_name (module_name : option string) (config : StackConfig)
    (environ : gmap string string) : result string :=
  match module_name with
  | Some m => Ok m
  | None =>
      returns_str (get_env_var config environ "MCPSTACK_MODULE" (PyStr "MCPStack.core.server")
                     false)
  end.

(** [value if isinstance(value, list) else default]. *)
Definition _get_args (args : option (list string)) (config : StackConfig)
    (environ : gmap string string) (module_name : string) : result (list string) :=
  match args with
  | Some a => Ok a
  | None =>
      let default := ["-m"; module_name] in
      match get_env_var config environ "MCPSTACK_ARGS" (PyList default) false with
      | Ok (PyList value) => Ok value
      | Ok _ => Ok default
      | Raise e => Raise e
      end
  end.

Definition _get_cwd (cwd : option string) (config : StackConfig)
    (environ : gmap string string) (h : Host) : result string :=
  match cwd with
  | Some d => Ok d
  | None => returns_str (get_env_var config environ "MCPSTACK_CWD" (PyStr (host_cwd h)) false)
  end.

(** The file is written at [save_path] when one is given; otherwise the
    entry is merged into the desktop application's configuration, which is
    read without a guard. *)
Definition write_config (new_config : HostConfig) (save_path : option string) (h : Host) :
    result unit * Host :=
  if truthy (of_optional save_path)
  then write_json (default "" save_path) (config_json new_config) h
  else
    match _get_claude_config_path h with
    | Some path =>
        let existing :=
          match host_files h !! path with
          | Some (JsonText j) => Ok j
          | Some NotJson => Raise (PyException "JSONDecodeError" path)
          | Some (Fails f reason) => Raise (PyException (read_failure_name f) reason)
          | Some Unreadable => Raise (PyException "OSError" path)
          | None =>
              if bool_decide (path ∈ host_dirs h)
              then Raise (PyException "OSError" ("[Errno 21] Is a directory: '" +:+ path +:+ "'"))
              else Ok (JObj [])
          end in
        match existing with
        | Raise e => (Raise e, h)
        | Ok existing =>
            match merge_servers existing (servers_json new_config) with
            | Raise e => (Raise e, h)
            | Ok merged => write_json path merged h
            end
        end
    | None => (Ok tt, h)
    end.

Definition generate (config : StackConfig) (environ : gmap string string)
    (kwargs : build_kwargs) (h : Host) : result HostConfig * Host :=
  match _get_command (command kwargs) config environ h with
  | Raise e => (Raise e, h)
  | Ok _command =>
  match _get_module_name (module_name kwargs) config environ with
  | Raise e => (Raise e, h)
  | Ok _module_name =>
  match _get_args (args kwargs) config environ _module_name with
  | Raise e => (Raise e, h)
  | Ok _args =>
  match _get_cwd (cwd kwargs) config environ h with
  | Raise e => (Raise e, h)
  | Ok _cwd =>
      if negb (truthy (of_optional (host_which h _command)))
      then (Raise (ValidationError ("Invalid command '" +:+ _command +:+
                                    "': Not found on PATH.")), h)
      else if negb (bool_decide (_cwd ∈ host_dirs h))
      then (Raise (ValidationError ("Invalid cwd '" +:+ _cwd +:+
                                    "': Directory does not exist.")), h)
      else
        let env := env_vars config in
        let env := if truthy (of_optional (pipeline_config_path kwargs))
                   then <["MCPSTACK_CONFIG_PATH" := default "" (pipeline_config_path kwargs)]> env
                   else env in
        let new_config :=
          {| hc_server_name := "mcpstack";
             hc_entry := {| se_command := _command; se_args := _args; se_cwd := Some _cwd;
                            se_env := env |} |} in
        match write_config new_config (save_path kwargs) h with
        | (Ok _, h') => (Ok new_config, h')
        | (Raise e, h') => (Raise e, h')
        end
  end end end end.

End ClaudeConfigGenerator.

(** ** [core/docker/dockerfile_generator.py] *)

Module DockerfileGenerator.

(** The double quote, [str.lower()] on ASCII text and [sub in s]. *)
Definition dq : string := String "034"%char EmptyString.

Definition default_cmd : string := "CMD [" +:+ dq +:+ "mcpstack-mcp-server" +:+ dq +:+ "]".


Definition is_in (sub s : string) : bool :=
  match String.index 0 sub s with
  | Some _ => true
  | None => false
  end.

(** [for key, value in items: lines.append(f"ENV {key}={value}")]. *)
Definition env_line (kv : string * string) : string := "ENV " +:+ kv.1 +:+ "=" +:+ kv.2.

Definition append_env (items : list (string * string)) (lines : list string) : list string :=
  fold_left (fun acc kv => acc ++ [env_line kv]) items lines.

(** The lines of [generate], before they are joined. [env_vars] is
    [stack.config.env_vars.items()], in the order of the dictionary; nothing
    else of the pipeline is read. [expose_port] is an integer, written in
    decimal (Python's [True] and [False], which pass for integers, are left
    out). *)
Definition generate_lines (env_vars : list (string * string)) (base_image : string)
    (package_name : option string) (requirements : option (list string))
    (local_package_path : option string) (cmd : option (list string))
    (workdir : string) (expose_port : Z) : list string :=
  let lines := [] in
  let lines := lines ++ ["FROM " +:+ base_image] in
  let lines := lines ++ ["WORKDIR " +:+ workdir] in
  let lines :=
    if String.prefix "python:" base_image && is_in "slim" base_image
    then lines ++ ["RUN apt-get update && apt-get install -y --no-install-recommends \";
                   "    curl \";
                   "    && rm -rf /var/lib/apt/lists/*"]
    else lines in
  let lines :=
    if truthy (of_optional local_package_path)
    then lines ++ ["COPY " +:+ default "" local_package_path +:+ " " +:+ workdir +:+ "/mcpstack";
                   "RUN pip install -e " +:+ workdir +:+ "/mcpstack"]
    else if truthy (of_optional package_name)
    then lines ++ ["RUN pip install " +:+ default "" package_name]
    else lines in
  let lines :=
    match requirements with
    | Some reqs => if truthy (PyList reqs)
                   then lines ++ ["RUN pip install " +:+ String.concat " " reqs] else lines
    | None => lines
    end in
  let lines :=
    match env_vars with
    | [] => lines
    | _ => append_env env_vars lines
    end in
  let lines := lines ++ ["EXPOSE " +:+ pretty expose_port] in
  let lines :=
    match cmd with
    | Some l => if truthy (PyList l)
                then lines ++ ["CMD [" +:+ dq +:+ String.concat (dq +:+ ", " +:+ dq) l +:+
                               dq +:+ "]"]
                else lines ++ [default_cmd]
    | None => lines ++ [default_cmd]
    end in
  lines.

Definition generate (env_vars : list (string * string)) (base_image : string)
    (package_name : option string) (requirements : option (list string))
    (local_package_path : option string) (cmd : option (list string))
    (workdir : string) (expose_port : Z) : string :=
  String.concat nl (generate_lines env_vars base_image package_name requirements
                      local_package_path cmd workdir expose_port) +:+ nl.





End DockerfileGenerator.

(** ** Notions the properties of the generators are stated with *)

(** The strings a regular expression denotes. *)
Inductive lang : regex -> string -> Prop :=
  | lang_eps : lang Eps EmptyString
  | lang_class (p : ascii -> bool) (c : ascii) :
      p c = true -> lang (Class p) (String c EmptyString)
  | lang_seq (r1 r2 : regex) (s1 s2 : string) :
      lang r1 s1 -> lang r2 s2 -> lang (Seq r1 r2) (s1 +:+ s2)
  | lang_alt_l (r1 r2 : regex) (s : string) : lang r1 s -> lang (Alt r1 r2) s
  | lang_alt_r (r1 r2 : regex) (s : string) : lang r2 s -> lang (Alt r1 r2) s
  | lang_star_nil (r : regex) : lang (Star r) EmptyString
  | lang_star_cons (r : regex) (s1 s2 : string) :
      lang r s1 -> lang (Star r) s2 -> lang (Star r) (s1 +:+ s2).

Fixpoint all_chars (p : ascii -> bool) (s : string) : bool :=
  match s with
  | EmptyString => true
  | String c s' => p c && all_chars p s'
  end.

(** A name of the shape [name] or [name:tag]: an alphanumeric character,
    then characters of names, then possibly a colon and a tag that is not
    empty. *)
Definition name_and_tag (s : string) : Prop :=
  ∃ c body tail,
    s = String c (body +:+ tail) ∧ alnum c = true ∧ all_chars name_char body = true ∧
    (tail = EmptyString ∨
     ∃ tag, tail = String ":" tag ∧ tag ≠ EmptyString ∧ all_chars tag_char tag = true).

(** There is a slash somewhere after the first colon, as in a name that
    starts with a registry and its port. *)
Fixpoint slash_after_colon (s : string) : bool :=
  match s with
  | EmptyString => false
  | String c s' => if Ascii.eqb c ":" then contains "/" s' else slash_after_colon s'
  end.

(** ** Instances: a registry, two tools and the worlds of a session *)

(** A [setup_logging] that accepts the standard level names. *)
Definition standard_levels (level : string) : option string :=
  if bool_decide (level ∈ ["DEBUG"; "INFO"; "WARNING"; "ERROR"; "CRITICAL"])
  then None else Some ("Unknown level: " +:+ level).

(** A scorer that rates a choice 100 when it is the query and 0 otherwise. *)
Definition exact_match (query : string) (choices : list string) : option (string * Z) :=
  match choices with
  | [] => None
  | c :: _ => if bool_decide (query ∈ choices) then Some (query, 100%Z) else Some (c, 0%Z)
  end.

(** A scorer that rates 90 the first choice that starts with the query and 0
    the first choice when there is none. *)
Definition prefix_match (query : string) (choices : list string) : option (string * Z) :=
  match choices with
  | [] => None
  | c :: _ =>
      match filter (fun choice => String.prefix query choice = true) choices with
      | best :: _ => Some (best, 90%Z)
      | [] => Some (c, 0%Z)
      end
  end.

Definition serve_returns (r : FastMCP) : option exn := None.

Definition serve_raises (r : FastMCP) : option exn :=
  Some (PyException "RuntimeError" "connection lost").

(** Two tool classes, each by its [from_dict]: the parameters are kept as
    given. The second requires API_KEY and owns two backends; the teardown of
    the first one raises. *)
Definition HelloWorld_from_dict (params : json) : BaseTool :=
  {| class_name := "HelloWorld";
     required_env_vars := Some [];
     backends := Some [("greeter", {| backend_initialize := None;
                                      backend_teardown := Some None |})];
     actions := ["say_hello"];
     to_dict := params;
     _initialize := None; _teardown := None; _post_load := None |}.

Definition WebSearch_from_dict (params : json) : BaseTool :=
  {| class_name := "WebSearch";
     required_env_vars := Some [("API_KEY", None); ("REGION", Some "eu")];
     backends := Some [("db", {| backend_initialize := Some None;
                                 backend_teardown := Some (Some (PyException "OSError" "closed")) |});
                       ("cache", {| backend_initialize := None;
                                    backend_teardown := Some None |})];
     actions := ["search"; "fetch"];
     to_dict := params;
     _initialize := None; _teardown := None; _post_load := None |}.

Definition HelloWorld : BaseTool := HelloWorld_from_dict (JObj []).

Definition WebSearch : BaseTool := WebSearch_from_dict (JObj [("limit", JNum 10)]).

Definition tool_registry : gmap string ToolClass :=
  {[ "hello_world" := {| from_dict := fun params => Ok (HelloWorld_from_dict params) |};
     "web_search" := {| from_dict := fun params => Ok (WebSearch_from_dict params) |} ]}.

Definition preset_registry : gmap string Preset :=
  {[ "example_preset" := ExamplePreset standard_levels HelloWorld ]}.

(** A generator in the shape of the host-launch artifact: the server entry
    with the configuration's environment map. *)
Definition env_generator : Generator :=
  {| generate := fun self kwargs =>
       let! s := get_stack self in
       let! cfg := get_config (config s) in
       ret (JObj [("mcpServers",
                   JObj [("mcpstack",
                          JObj [("env", JObj (prod_map id JStr <$> map_to_list (env_vars cfg)))])])]) |}.

Definition generator_registry : gmap string Generator :=
  {[ "fastmcp" := env_generator ]}.

Definition no_kwargs : build_kwargs :=
  {| command := None; args := None; cwd := None; module_name := None;
     pipeline_config_path := None; save_path := None |}.

Definition empty_stack : MCPStackCore :=
  {| config := 0; tools := []; mcp := None; _built := false |}.

(** A fresh session: two configurations and the empty pipeline on the first. *)
Definition w_start : World :=
  {| environ := {[ "API_KEY" := "secret" ]};
     files := ∅;
     configs := [{| log_level := "INFO"; env_vars := ∅ |};
                 {| log_level := "DEBUG"; env_vars := {[ "REGION" := "us" ]} |}];
     runtimes := [];
     stacks := [empty_stack];
     trace := [] |}.

Definition two_tools : MCPStackCore :=
  {| config := 0; tools := [WebSearch; HelloWorld]; mcp := None; _built := false |}.

Definition built_stack : MCPStackCore :=
  {| config := 0; tools := [WebSearch; HelloWorld]; mcp := Some 0; _built := true |}.

(** The same session with a composed pipeline, before and after [build]. *)
Definition w_composed : World := set_stacks [empty_stack; two_tools] w_start.

Definition w_built : World :=
  {| environ := {[ "API_KEY" := "secret" ]};
     files := ∅;
     configs := configs w_start;
     runtimes := [{| mcp_name := "mcpstack"; registered := ["search"; "fetch"; "say_hello"] |}];
     stacks := [empty_stack; built_stack];
     trace := [EvBackendInitialize "WebSearch" "db"; EvInitialize "WebSearch";
               EvInitialize "HelloWorld"] |}.

(** A tool whose second backend cannot be initialised and whose own teardown
    hook raises. *)
Definition Flaky : BaseTool :=
  {| class_name := "Flaky";
     required_env_vars := Some [];
     backends := Some [("cache", {| backend_initialize := Some None;
                                    backend_teardown := None |});
                       ("db", {| backend_initialize :=
                                   Some (Some (PyException "ConnectionError" "refused"));
                                 backend_teardown := Some None |});
                       ("queue", {| backend_initialize := Some None;
                                    backend_teardown := Some None |})];
     actions := ["flake"];
     to_dict := JObj [];
     _initialize := None;
     _teardown := Some (PyException "RuntimeError" "busy");
     _post_load := None |}.

Definition flaky_stack : MCPStackCore :=
  {| config := 0; tools := [WebSearch; Flaky; HelloWorld]; mcp := None; _built := false |}.

Definition w_flaky : World := set_stacks [empty_stack; flaky_stack] w_start.

(** The built session after [merge_env] has put an override under a name
    that [os.environ] refuses into its configuration. *)
Definition w_illegal_override : World :=
  (merge_env_at 0 [("BAD=KEY", "1")] "" w_built).2.

(** A session started with an entry under the empty name in its process
    environment. *)
Definition w_unnamed : World := set_environ {[ "" := "x" ]} w_start.

(** A document written by hand, with no level, and one that names a tool type
    nobody registered. *)
Definition hand_written : PipelineDoc :=
  {| doc_config := {| doc_log_level := None; doc_env_vars := Some {[ "REGION" := "us" ]} |};
     doc_tools := Some [{| type := "web_search"; params := JObj [("limit", JNum 5)] |};
                        {| type := "hello_world"; params := JObj [] |}] |}.

Definition misspelt : PipelineDoc :=
  {| doc_config := {| doc_log_level := Some "DEBUG"; doc_env_vars := Some {[ "REGION" := "us" ]} |};
     doc_tools := Some [{| type := "hello_world"; params := JObj [] |};
                        {| type := "calculator"; params := JNull |};
                        {| type := "web_search"; params := JObj [] |}] |}.

Definition hand_written_tools : list BaseTool :=
  [WebSearch_from_dict (JObj [("limit", JNum 5)]); HelloWorld].

(** The server process at its start: nothing constructed yet. *)
Definition w_server : World :=
  {| environ := {[ "API_KEY" := "secret"; "MCPSTACK_CONFIG_PATH" := "server.json" ]};
     files := {[ "server.json" := hand_written; "misspelt.json" := misspelt ]};
     configs := [];
     runtimes := [];
     stacks := [];
     trace := [] |}.

(** A configuration before and after merging a tool's variables under the
    prefix web_. *)
Definition regional : StackConfig :=
  {| log_level := "INFO"; env_vars := {[ "REGION" := "us" ]} |}.

Definition regional_merged : StackConfig :=
  {| log_level := "INFO";
     env_vars := {[ "REGION" := "us"; "web_KEY" := "k"; "web_REGION" := "eu" ]} |}.

(** The command line in the directory /work, with every option at its
    default. *)
Definition abspath_work (p : string) : string :=
  if String.prefix "/" p then p else "/work/" +:+ p.

Definition default_options : cli_options :=
  {| opt_pipeline := None; opt_presets := Some "example_preset";
     opt_config_type := "fastmcp"; opt_config_path := None; opt_output := None;
     opt_command := None; opt_args := None; opt_cwd := None; opt_module_name := None |}.

Definition default_kwargs : build_kwargs :=
  {| command := None; args := None; cwd := None; module_name := None;
     pipeline_config_path := Some "/work/mcpstack_pipeline.json"; save_path := None |}.

(** The pipeline file the default commands write in the session [w_start]. *)
Definition default_document : PipelineDoc :=
  {| doc_config := {| doc_log_level := Some "INFO";
                      doc_env_vars := Some {[ "API_KEY" := "secret" ]} |};
     doc_tools := Some [{| type := "hello_world"; params := JObj [] |}] |}.

(** A tool configuration for the web search tool. *)
Definition web_search_config : ToolConfig :=
  {| tc_env_vars := Some [("API_KEY", "k-123")];
     tc_tool_params := Some (JObj [("limit", JNum 3)]) |}.

(** A machine with the desktop application installed under ~/.config, and
    its configuration file, which holds a server of another tool. *)
Definition desktop_config : json :=
  JObj [("theme", JStr "dark");
        ("mcpServers", JObj [("files", JObj [("command", JStr "npx")]);
                             ("mcpstack", JObj [("command", JStr "python")])])].

Definition desktop_config_path : string :=
  "/home/ada/.config/Claude/claude_desktop_config.json".

Definition laptop : Host :=
  {| host_files := {[ desktop_config_path := JsonText desktop_config ]};
     host_dirs := {[ "/home/ada/.config/Claude"; "/work" ]};
     host_locked := {[ "/etc/claude.json" := "Permission denied" ]};
     host_home := "/home/ada";
     host_cwd := "/work";
     host_which := fun c => if bool_decide (c ∈ ["python3"; "/usr/bin/python3"])
                            then Some "/usr/bin/python3" else None |}.

(** The entry the Docker generators make for the image mcpstack:latest on
    the configuration [regional]. *)
Definition docker_entry : ServerEntry :=
  {| se_command := "docker"; se_args := ["run"; "-i"; "--rm"; "mcpstack:latest"];
     se_cwd := None; se_env := {[ "REGION" := "us" ]} |}.

(** The entry the generator for the desktop application makes on that
    machine for the configuration [regional] and the default options. *)
Definition claude_entry : ServerEntry :=
  {| se_command := "/usr/bin/python3"; se_args := ["-m"; "MCPStack.core.server"];
     se_cwd := Some "/work";
     se_env := {[ "REGION" := "us"; "MCPSTACK_CONFIG_PATH" := "/work/mcpstack_pipeline.json" ]} |}.


(** * Properties *)

Section Properties.

Variable setup_logging : string -> option string.
Variable extractOne : string -> list string -> option (string * Z).
Variable mcp_run : FastMCP -> option exn.
Variable ALL_TOOLS : gmap string ToolClass.
Variable ALL_PRESETS : gmap string Preset.
Variable ALL_MCP_CONFIG_GENERATORS : gmap string Generator.

(** ** Properties of the configuration *)

Lemma py_or_str (v : string) : py_or (PyStr v) (PyStr "") = PyStr v.
Proof.
  unfold py_or; simpl. destruct (String.eqb_spec v ""); simpl; congruence.
Qed.

Lemma py_or_not_None (v : PyVal) : py_or v (PyStr "") ≠ PyNone.
Proof.
  unfold py_or. destruct v; simpl; try discriminate;
    repeat match goal with |- context [if ?b then _ else _] => destruct b end;
    discriminate.
Qed.

(** C7. [get_env_var] takes the override map's value when the key is there,
    else the process environment's, else the default (a string default, and
    any truthy default, is returned as given; a default that Python counts as
    false gives the empty string, by the final [value or ""]); it raises, a
    ConfigError naming the key, exactly when [raise_if_missing] is set and the
    key is in neither map and the default is None; in that situation without
    [raise_if_missing] it returns the empty string; it never returns None. *)
Theorem get_env_var_resolution (self : StackConfig) (environ : gmap string string)
    (key : string) (default : PyVal) (raise_if_missing : bool) :
  let r := get_env_var self environ key default raise_if_missing in
  (∀ v, env_vars self !! key = Some v → r = Ok (PyStr v)) ∧
  (∀ v, env_vars self !! key = None → environ !! key = Some v → r = Ok (PyStr v)) ∧
  (∀ d, env_vars self !! key = None → environ !! key = None →
        default = PyStr d → r = Ok (PyStr d)) ∧
  (env_vars self !! key = None → environ !! key = None →
        truthy default = true → r = Ok default) ∧
  (env_vars self !! key = None → environ !! key = None →
        truthy default = false → is_None default && raise_if_missing = false →
        r = Ok (PyStr "")) ∧
  ((∃ e, r = Raise e) ↔
     raise_if_missing = true ∧ env_vars self !! key = None ∧
     environ !! key = None ∧ default = PyNone) ∧
  (∀ e, r = Raise e → e = MissingEnvVar key) ∧
  (raise_if_missing = false → env_vars self !! key = None →
     environ !! key = None → default = PyNone → r = Ok (PyStr "")) ∧
  r ≠ Ok PyNone.
Proof.
  unfold get_env_var, os_getenv; cbn zeta.
  destruct (env_vars self !! key) as [v|] eqn:Hov.
  { simpl. rewrite py_or_str.
    refine (conj _ (conj _ (conj _ (conj _ (conj _ (conj (conj _ _) (conj _ (conj _ _)))))))).
    all: try congruence.
    - intros [e He]. discriminate.
    - intros (_ & H & _). discriminate. }
  destruct (environ !! key) as [v|] eqn:Hen.
  { simpl. rewrite py_or_str.
    refine (conj _ (conj _ (conj _ (conj _ (conj _ (conj (conj _ _) (conj _ (conj _ _)))))))).
    all: try congruence.
    - intros [e He]. discriminate.
    - intros (_ & _ & H & _). discriminate. }
  refine (conj _ (conj _ (conj _ (conj _ (conj _ (conj (conj _ _) (conj _ (conj _ _)))))))).
  - congruence.
  - congruence.
  - intros d _ _ ->. simpl. by rewrite py_or_str.
  - intros _ _ Ht. destruct default; simpl in *; try discriminate;
      unfold py_or; simpl; by rewrite Ht.
  - intros _ _ Ht Hr. rewrite Hr. unfold py_or. by rewrite Ht.
  - intros [e He]. destruct default, raise_if_missing; simpl in He; try discriminate.
    done.
  - intros (-> & _ & _ & ->). simpl. eauto.
  - intros e He. destruct default, raise_if_missing; simpl in He; congruence.
  - intros -> _ _ ->. reflexivity.
  - destruct (is_None default && raise_if_missing); [discriminate|].
    intros [= H]. by apply py_or_not_None in H.
Qed.

(** What one declared variable contributes to the error list. *)
Lemma get_env_var_required (self : StackConfig) (environ : gmap string string)
    (key : string) (d : option string) :
  get_env_var self environ key (of_optional d) (is_None (of_optional d)) =
    match d with
    | None => if unresolved self environ key then Raise (MissingEnvVar key)
              else get_env_var self environ key PyNone false
    | Some _ => get_env_var self environ key (of_optional d) false
    end.
Proof.
  destruct d as [s|]; [reflexivity|].
  unfold get_env_var, unresolved, os_getenv; simpl.
  destruct (env_vars self !! key); [reflexivity|].
  destruct (environ !! key); reflexivity.
Qed.

Lemma get_env_var_optional (self : StackConfig) (environ : gmap string string)
    (key : string) (default : PyVal) :
  ∃ v, get_env_var self environ key default false = Ok v.
Proof.
  unfold get_env_var. rewrite andb_false_r. eauto.
Qed.

Lemma validate_tool_spec (self : StackConfig) (environ : gmap string string)
    (tool : BaseTool) (items : list (string * option string)) (errors : list string) :
  validate_tool self environ tool items errors =
    errors ++ (missing_line <$>
      omap (fun '(k, d) =>
              match d with
              | None => if unresolved self environ k then Some (class_name tool, k) else None
              | Some _ => None
              end) items).
Proof.
  revert errors. induction items as [|[k d] items IH]; intros errors; simpl.
  - by rewrite app_nil_r.
  - rewrite IH, get_env_var_required. destruct d as [s|].
    + destruct (get_env_var_optional self environ k (of_optional (Some s))) as [v ->].
      reflexivity.
    + destruct (unresolved self environ k).
      * simpl. rewrite <- app_assoc. reflexivity.
      * destruct (get_env_var_optional self environ k PyNone) as [v ->]. reflexivity.
Qed.

Lemma validate_tools_spec (self : StackConfig) (environ : gmap string string)
    (tools : list BaseTool) (errors : list string) :
  validate_tools self environ tools errors =
    errors ++ (missing_line <$> missing_vars self environ tools).
Proof.
  revert errors. induction tools as [|tool tools IH]; intros errors; simpl.
  - by rewrite app_nil_r.
  - rewrite IH, validate_tool_spec. unfold missing_vars at 2. simpl.
    rewrite fmap_app, app_assoc. do 2 f_equal.
    unfold missing_of_tool, required_items. by destruct (required_env_vars tool).
Qed.

Lemma elem_of_missing_vars (self : StackConfig) (environ : gmap string string)
    (tools : list BaseTool) (m : string * string) :
  m ∈ missing_vars self environ tools ↔
  ∃ tool declared, tool ∈ tools ∧ m.1 = class_name tool ∧
          required_env_vars tool = Some declared ∧
          (m.2, None) ∈ declared ∧ unresolved self environ m.2 = true.
Proof.
  unfold missing_vars. rewrite list_elem_of_bind. split.
  - intros (tool & Hm & Ht). exists tool.
    unfold missing_of_tool in Hm.
    destruct (required_env_vars tool) as [declared|] eqn:Hd; [|by apply elem_of_nil in Hm].
    exists declared. split; [done|].
    apply list_elem_of_omap in Hm as ([k d] & Hin & Hsome).
    destruct d as [s|]; [discriminate|].
    destruct (unresolved self environ k) eqn:Hu; [|discriminate].
    injection Hsome as <-. simpl. done.
  - intros (tool & declared & Ht & Hc & Hd & Hin & Hu). exists tool. split; [|done].
    unfold missing_of_tool. rewrite Hd.
    apply list_elem_of_omap. exists (m.2, None). split; [done|].
    simpl. rewrite Hu, <- Hc. by destruct m.
Qed.

(** C6. [validate_for_tools] reports exactly the variables that some tool of
    the list declares in its [required_env_vars] without a default and that
    resolve in neither the override map nor the process environment: it
    raises nothing exactly when every such variable of every tool resolves,
    and otherwise raises one ConfigError whose message holds one line per
    missing variable, for all tools, in declaration order. *)
Theorem validate_for_tools_aggregates (self : StackConfig)
    (environ : gmap string string) (tools : list BaseTool) :
  validate_for_tools self environ tools =
    match missing_vars self environ tools with
    | [] => Ok tt
    | ms => Raise (MCPStackError MCPStackConfigError
                     (String.concat nl (missing_line <$> ms)) None)
    end ∧
  (∀ tool declared key, tool ∈ tools → required_env_vars tool = Some declared →
     (key, None) ∈ declared →
     env_vars self !! key = None → environ !! key = None →
     (class_name tool, key) ∈ missing_vars self environ tools) ∧
  (∀ cls key, (cls, key) ∈ missing_vars self environ tools →
     ∃ tool declared, tool ∈ tools ∧ cls = class_name tool ∧
             required_env_vars tool = Some declared ∧ (key, None) ∈ declared ∧
             env_vars self !! key = None ∧ environ !! key = None) ∧
  (validate_for_tools self environ tools = Ok tt ↔
     ∀ tool declared key, tool ∈ tools → required_env_vars tool = Some declared →
       (key, None) ∈ declared →
       is_Some (env_vars self !! key) ∨ is_Some (environ !! key)) ∧
  (∀ e, validate_for_tools self environ tools = Raise e →
     ∃ tool declared key, tool ∈ tools ∧ required_env_vars tool = Some declared ∧
       (key, None) ∈ declared ∧ env_vars self !! key = None ∧ environ !! key = None ∧
       e = MCPStackError MCPStackConfigError
             (String.concat nl (missing_line <$> missing_vars self environ tools)) None).
Proof.
  assert (Heq : validate_for_tools self environ tools =
    match missing_vars self environ tools with
    | [] => Ok tt
    | ms => Raise (MCPStackError MCPStackConfigError
                     (String.concat nl (missing_line <$> ms)) None)
    end).
  { unfold validate_for_tools. rewrite validate_tools_spec. simpl.
    destruct (missing_vars self environ tools); reflexivity. }
  assert (Hin : ∀ cls key, (cls, key) ∈ missing_vars self environ tools →
     ∃ tool declared, tool ∈ tools ∧ cls = class_name tool ∧
             required_env_vars tool = Some declared ∧ (key, None) ∈ declared ∧
             env_vars self !! key = None ∧ environ !! key = None).
  { intros cls key Hm.
    apply elem_of_missing_vars in Hm as (tool & declared & Ht & Hc & Hd & Hr & Hu).
    simpl in *. exists tool, declared. repeat split; try done;
      unfold unresolved in Hu;
      destruct (env_vars self !! key), (environ !! key); done. }
  assert (Hout : ∀ tool declared key, tool ∈ tools → required_env_vars tool = Some declared →
     (key, None) ∈ declared →
     env_vars self !! key = None → environ !! key = None →
     (class_name tool, key) ∈ missing_vars self environ tools).
  { intros tool declared key Ht Hd Hk Ho He. apply elem_of_missing_vars.
    exists tool, declared. simpl. repeat split; try done.
    unfold unresolved. by rewrite Ho, He. }
  split; [exact Heq|]. split; [exact Hout|]. split; [exact Hin|]. split.
  - rewrite Heq. split.
    + intros Hok tool declared key Ht Hd Hk.
      destruct (env_vars self !! key) as [v|] eqn:Ho; [left; eauto|].
      destruct (environ !! key) as [v|] eqn:He; [right; eauto|].
      pose proof (Hout tool declared key Ht Hd Hk Ho He) as Hm.
      destruct (missing_vars self environ tools); [by apply elem_of_nil in Hm|discriminate].
    + intros Hall. destruct (missing_vars self environ tools) as [|[cls key] ms] eqn:Hms;
        [done|].
      destruct (Hin cls key) as (tool & declared & Ht & _ & Hd & Hk & Ho & He); [left|].
      destruct (Hall tool declared key Ht Hd Hk) as [[v Hv]|[v Hv]]; congruence.
  - intros e He. rewrite Heq in He.
    destruct (missing_vars self environ tools) as [|[cls key] ms] eqn:Hms; [discriminate|].
    destruct (Hin cls key) as (tool & declared & Ht & _ & Hd & Hk & Ho & Hen); [left|].
    exists tool, declared, key. injection He as <-. done.
Qed.

Lemma set_env_vars_id (self : StackConfig) : set_env_vars self (env_vars self) = self.
Proof. by destruct self. Qed.

Lemma prefixed_append (prefix key : string) : prefixed prefix key = prefix +:+ key.
Proof.
  unfold prefixed. destruct (String.eqb_spec prefix "") as [->|]; reflexivity.
Qed.

Lemma merge_env_app (self : StackConfig) (l1 l2 : list (string * string)) (prefix : string) :
  merge_env self (l1 ++ l2) prefix =
    match merge_env self l1 prefix with
    | (Ok _, self1) => merge_env self1 l2 prefix
    | (Raise e, self1) => (Raise e, self1)
    end.
Proof.
  revert self. induction l1 as [|[k v] l1 IH]; intros self; simpl; [reflexivity|].
  destruct (env_vars self !! prefixed prefix k) as [old|]; [|apply IH].
  destruct (String.eqb old v); [apply IH|reflexivity].
Qed.

(** A merge that succeeds overwrites nothing with a different value. *)
Lemma merge_env_keeps (self self' : StackConfig) (new_env : list (string * string))
    (prefix x y : string) :
  merge_env self new_env prefix = (Ok tt, self') →
  env_vars self !! x = Some y → env_vars self' !! x = Some y.
Proof.
  revert self. induction new_env as [|[k v] l IH]; intros self; simpl.
  - intros [= <-]. done.
  - intros Hm Hx. destruct (decide (prefixed prefix k = x)) as [Heq|Hne].
    + subst x. rewrite Hx in Hm. destruct (String.eqb_spec y v) as [->|]; [|discriminate].
      apply (IH _ Hm). simpl. apply lookup_insert_eq.
    + assert (Hstep : env_vars (set_env_vars self (<[prefixed prefix k:=v]> (env_vars self)))
                        !! x = Some y) by (simpl; by rewrite lookup_insert_ne).
      destruct (env_vars self !! prefixed prefix k) as [old|]; [|by apply (IH _ Hm)].
      destruct (String.eqb old v); [by apply (IH _ Hm)|discriminate].
Qed.

Lemma merge_env_sets (self self' : StackConfig) (new_env : list (string * string))
    (prefix : string) :
  merge_env self new_env prefix = (Ok tt, self') →
  ∀ key value, (key, value) ∈ new_env →
    env_vars self' !! prefixed prefix key = Some value.
Proof.
  revert self. induction new_env as [|[k v] l IH]; intros self Hm key value Hin.
  - by apply elem_of_nil in Hin.
  - simpl in Hm.
    assert (Hrest : merge_env (set_env_vars self (<[prefixed prefix k:=v]> (env_vars self)))
                      l prefix = (Ok tt, self')).
    { destruct (env_vars self !! prefixed prefix k) as [old|]; [|done].
      destruct (String.eqb old v); [done|discriminate]. }
    apply elem_of_cons in Hin as [[= -> ->]|Hin]; [|by apply (IH _ Hrest)].
    apply (merge_env_keeps _ _ _ _ _ _ Hrest). simpl. apply lookup_insert_eq.
Qed.

(** Merging entries that the configuration already holds changes nothing. *)
Lemma merge_env_present (self : StackConfig) (new_env : list (string * string))
    (prefix : string) :
  (∀ key value, (key, value) ∈ new_env →
     env_vars self !! prefixed prefix key = Some value) →
  merge_env self new_env prefix = (Ok tt, self).
Proof.
  induction new_env as [|[k v] l IH]; intros Hall; simpl; [reflexivity|].
  rewrite (Hall k v) by apply list_elem_of_here.
  rewrite String.eqb_refl.
  rewrite insert_id by (apply Hall, list_elem_of_here).
  rewrite set_env_vars_id. apply IH. intros key value Hin.
  apply Hall. by apply list_elem_of_further.
Qed.

Lemma merge_env_raises (self self' : StackConfig) (new_env : list (string * string))
    (prefix : string) (e : exn) :
  merge_env self new_env prefix = (Raise e, self') →
  ∃ before key value rest old,
    new_env = before ++ (key, value) :: rest ∧
    merge_env self before prefix = (Ok tt, self') ∧
    env_vars self' !! prefixed prefix key = Some old ∧ old ≠ value ∧
    e = EnvConflict (prefixed prefix key) old value.
Proof.
  revert self. induction new_env as [|[k v] l IH]; intros self; simpl; [discriminate|].
  intros Hm.
  assert (Hcont : merge_env (set_env_vars self (<[prefixed prefix k:=v]> (env_vars self)))
                    l prefix = (Raise e, self') →
                  (env_vars self !! prefixed prefix k = None ∨
                   env_vars self !! prefixed prefix k = Some v) →
          ∃ before key value rest old,
            (k, v) :: l = before ++ (key, value) :: rest ∧
            merge_env self before prefix = (Ok tt, self') ∧
            env_vars self' !! prefixed prefix key = Some old ∧ old ≠ value ∧
            e = EnvConflict (prefixed prefix key) old value).
  { intros Hr Hk. destruct (IH _ Hr) as (before & key & value & rest & old & -> & Hb & Hl & Hne & ->).
    exists ((k, v) :: before), key, value, rest, old. repeat split; try done.
    simpl. destruct Hk as [-> | ->]; [done|]. by rewrite String.eqb_refl. }
  destruct (env_vars self !! prefixed prefix k) as [old|] eqn:Hk; [|by apply Hcont; auto].
  destruct (String.eqb_spec old v) as [->|Hne]; [by apply Hcont; auto|].
  injection Hm as <- <-.
  exists [], k, v, l, old. repeat split; done.
Qed.

(** C8. [merge_env] goes through the entries in order under the prefixed key
    ([prefix] followed by the key). An entry whose prefixed key is present
    with a different value raises a ConfigError naming the key and both
    values; one that is present with the same value leaves the configuration
    as it is; one that is absent is set. A merge that succeeds has set every
    entry, and merging the same map again succeeds and changes nothing. A
    merge raises for no other reason than such a conflict. *)
Theorem merge_env_conflicts (self : StackConfig) (prefix : string) :
  (∀ key, prefixed prefix key = prefix +:+ key) ∧
  (∀ before key value rest self1 old,
     merge_env self before prefix = (Ok tt, self1) →
     env_vars self1 !! prefixed prefix key = Some old → old ≠ value →
     merge_env self (before ++ (key, value) :: rest) prefix =
       (Raise (MCPStackError MCPStackConfigError
                 ("Env conflict: " +:+ prefixed prefix key +:+ " (" +:+ old +:+
                  " vs " +:+ value +:+ ")") None), self1)) ∧
  (∀ key value, env_vars self !! prefixed prefix key = Some value →
     merge_env self [(key, value)] prefix = (Ok tt, self)) ∧
  (∀ key value, env_vars self !! prefixed prefix key = None →
     merge_env self [(key, value)] prefix =
       (Ok tt, set_env_vars self (<[prefixed prefix key := value]> (env_vars self)))) ∧
  (∀ new_env self', merge_env self new_env prefix = (Ok tt, self') →
     (∀ key value, (key, value) ∈ new_env →
        env_vars self' !! prefixed prefix key = Some value) ∧
     merge_env self' new_env prefix = (Ok tt, self')) ∧
  (∀ new_env e self', merge_env self new_env prefix = (Raise e, self') →
     ∃ before key value rest old,
       new_env = before ++ (key, value) :: rest ∧
       merge_env self before prefix = (Ok tt, self') ∧
       env_vars self' !! prefixed prefix key = Some old ∧ old ≠ value ∧
       e = EnvConflict (prefixed prefix key) old value).
Proof.
  refine (conj _ (conj _ (conj _ (conj _ (conj _ _))))).
  - apply prefixed_append.
  - intros before key value rest self1 old Hb Hl Hne.
    rewrite merge_env_app, Hb. simpl. rewrite Hl.
    destruct (String.eqb_spec old value); [done|reflexivity].
  - intros key value Hl. apply merge_env_present.
    intros k v Hin. apply list_elem_of_singleton in Hin as [= -> ->]. done.
  - intros key value Hl. simpl. by rewrite Hl.
  - intros new_env self' Hm. split.
    + by apply (merge_env_sets _ _ _ _ Hm).
    + apply merge_env_present, (merge_env_sets _ _ _ _ Hm).
  - intros new_env e self'. apply merge_env_raises.
Qed.

(** ** Properties of the pipeline builder *)

Lemma bind_ok {A B} (m : M A) (k : A -> M B) (w w' : World) (a : A) :
  m w = (Ok a, w') → bind m k w = k a w'.
Proof. intros H. unfold bind. by rewrite H. Qed.

Lemma bind_raise {A B} (m : M A) (k : A -> M B) (w w' : World) (e : exn) :
  m w = (Raise e, w') → bind m k w = (Raise e, w').
Proof. intros H. unfold bind. by rewrite H. Qed.

Lemma bind_assoc {A B C} (m : M A) (f : A -> M B) (g : B -> M C) (w : World) :
  bind (bind m f) g w = bind m (fun a => bind (f a) g) w.
Proof. unfold bind. destruct (m w) as [[a|e] w']; reflexivity. Qed.

Lemma get_stack_ok (w : World) (self : loc) (s : MCPStackCore) :
  stacks w !! self = Some s → get_stack self w = (Ok s, w).
Proof. intros H. unfold get_stack. by rewrite H. Qed.

Lemma get_config_ok (w : World) (c : loc) (cfg : StackConfig) :
  configs w !! c = Some cfg → get_config c w = (Ok cfg, w).
Proof. intros H. unfold get_config. by rewrite H. Qed.

Lemma get_runtime_ok (w : World) (m : loc) (r : FastMCP) :
  runtimes w !! m = Some r → get_runtime m w = (Ok r, w).
Proof. intros H. unfold get_runtime. by rewrite H. Qed.

Lemma update_stack_ok (w : World) (self : loc) (s : MCPStackCore)
    (f : MCPStackCore -> MCPStackCore) :
  stacks w !! self = Some s →
  update_stack self f w = (Ok tt, set_stacks (<[self := f s]> (stacks w)) w).
Proof. intros H. unfold update_stack. by rewrite (bind_ok _ _ _ _ _ (get_stack_ok _ _ _ H)). Qed.

(** *** Copying the overrides into the process environment *)

Lemma exportable_spec (env : gmap string string) :
  exportable env = true ↔ ∀ k v, env !! k = Some v → putenv_error k v = None.
Proof.
  unfold exportable. rewrite forallb_forall. split.
  - intros H k v Hkv. apply elem_of_map_to_list in Hkv.
    specialize (H (k, v)). rewrite bool_decide_eq_true in H. apply H.
    by apply list_elem_of_In.
  - intros H [k v] Hin. apply bool_decide_eq_true. apply H.
    apply elem_of_map_to_list. by apply list_elem_of_In.
Qed.

Lemma set_environ_same (w : World) : set_environ (environ w) w = w.
Proof. by destruct w. Qed.

Lemma environ_setitem_ok (key value : string) (w : World) :
  putenv_error key value = None →
  environ_setitem key value w = (Ok tt, set_environ (<[key := value]> (environ w)) w).
Proof. intros H. unfold environ_setitem. by rewrite H. Qed.

(** When every entry is accepted the loop leaves the union of the entries
    and the environment, in whatever order the entries come. *)
Lemma export_env_ok (items : list (string * string)) (w : World) :
  forallb (fun kv => bool_decide (putenv_error kv.1 kv.2 = None)) items = true →
  NoDup items.*1 →
  export_env items w = (Ok tt, set_environ (list_to_map items ∪ environ w) w).
Proof.
  revert w. induction items as [|[k v] items IH]; intros w Hall Hnd.
  - unfold export_env. simpl. unfold ret.
    rewrite (left_id_L ∅ (∪)). by rewrite set_environ_same.
  - simpl in Hall. apply andb_true_iff in Hall as [Hkv Hall].
    apply bool_decide_eq_true in Hkv. simpl in Hkv.
    rewrite fmap_cons in Hnd. apply NoDup_cons in Hnd as [Hk Hnd].
    unfold export_env. simpl. unfold bind at 1.
    rewrite (environ_setitem_ok _ _ _ Hkv).
    fold (export_env items). rewrite (IH _ Hall Hnd). f_equal.
    unfold set_environ. simpl. f_equal.
    rewrite <- insert_union_l.
    rewrite insert_union_r by (by apply not_elem_of_list_to_map_1). done.
Qed.

(** When some entry is refused the loop raises at the first such entry, with
    the entries before it set. *)
Lemma export_env_raise (items : list (string * string)) (w : World) :
  forallb (fun kv => bool_decide (putenv_error kv.1 kv.2 = None)) items = false →
  NoDup items.*1 →
  ∃ e written k v rest,
    items = written ++ (k, v) :: rest ∧
    forallb (fun kv => bool_decide (putenv_error kv.1 kv.2 = None)) written = true ∧
    putenv_error k v = Some e ∧
    export_env items w = (Raise e, set_environ (list_to_map written ∪ environ w) w).
Proof.
  revert w. induction items as [|[k v] items IH]; intros w Hall Hnd; [discriminate|].
  rewrite fmap_cons in Hnd. apply NoDup_cons in Hnd as [Hk Hnd].
  simpl in Hall. destruct (putenv_error k v) as [e|] eqn:Hkv.
  - exists e, [], k, v, items. split; [done|]. split; [done|]. split; [done|].
    unfold export_env. simpl. unfold bind, environ_setitem. rewrite Hkv.
    simpl. rewrite (left_id_L ∅ (∪)). by rewrite set_environ_same.
  - rewrite bool_decide_eq_true_2 in Hall by done. simpl in Hall.
    destruct (IH (set_environ (<[k := v]> (environ w)) w) Hall Hnd)
      as (e & written & k' & v' & rest & -> & Hw & He & Hrun).
    exists e, ((k, v) :: written), k', v', rest.
    split; [done|]. split.
    { simpl. rewrite Hw. rewrite bool_decide_eq_true_2 by done. done. }
    split; [done|].
    unfold export_env. simpl. unfold bind at 1.
    rewrite (environ_setitem_ok _ _ _ Hkv).
    fold (export_env (written ++ (k', v') :: rest)). rewrite Hrun. f_equal.
    unfold set_environ. simpl. f_equal.
    rewrite <- insert_union_l.
    rewrite insert_union_r; [done|].
    apply not_elem_of_list_to_map_1. intros Hin. apply Hk.
    rewrite fmap_app. apply elem_of_app. by left.
Qed.

(** Setting entries that the environment already holds changes nothing. *)
Lemma export_env_same (items : list (string * string)) (w : World) :
  (∀ k v, (k, v) ∈ items → environ w !! k = Some v) →
  (forallb (fun kv => bool_decide (putenv_error kv.1 kv.2 = None)) items = true ∧
   export_env items w = (Ok tt, w)) ∨
  (forallb (fun kv => bool_decide (putenv_error kv.1 kv.2 = None)) items = false ∧
   ∃ e k v, (k, v) ∈ items ∧ putenv_error k v = Some e ∧ export_env items w = (Raise e, w)).
Proof.
  induction items as [|[k v] items IH]; intros Hin.
  - left. done.
  - assert (Hkv : environ w !! k = Some v) by (apply Hin; left).
    assert (Hstep : export_env ((k, v) :: items) w =
                    match putenv_error k v with
                    | Some e => (Raise e, w)
                    | None => export_env items w
                    end).
    { unfold export_env. simpl. unfold bind at 1, environ_setitem.
      destruct (putenv_error k v); [done|].
      by rewrite (insert_id _ _ _ Hkv), set_environ_same. }
    rewrite Hstep. simpl. destruct (putenv_error k v) as [e|] eqn:He.
    + right. split; [done|]. exists e, k, v. split; [left|]. done.
    + rewrite bool_decide_eq_true_2 by done. simpl.
      destruct IH as [[Hall Hrun]|(Hall & e & k' & v' & Hk' & He' & Hrun)].
      { intros k' v' Hk'. apply Hin. by right. }
      * left. done.
      * right. split; [done|]. exists e, k', v'. split; [by right|]. done.
Qed.

(** The constructor on overrides that can all be exported. *)
Lemma StackConfig_init_ok (level : string) (env : gmap string string) (w : World) :
  setup_logging level = None → exportable env = true →
  StackConfig_init setup_logging level (Some env) w =
    (Ok (length (configs w)),
     set_configs (configs w ++ [{| log_level := level; env_vars := env |}])
       (set_environ (env ∪ environ w) w)).
Proof.
  intros Hlog Hx. unfold StackConfig_init. rewrite Hlog.
  unfold bind. rewrite (export_env_ok _ _ Hx (NoDup_fst_map_to_list env)).
  by rewrite list_to_map_to_list.
Qed.

(** The constructor on a copy of the process environment: an entry that
    cannot be set again ends it, with nothing changed. *)
Lemma StackConfig_init_environ_raise (level : string) (w : World) :
  setup_logging level = None → exportable (environ w) = false →
  ∃ e, StackConfig_init setup_logging level (Some (environ w)) w = (Raise e, w).
Proof.
  intros Hlog Hx. unfold StackConfig_init. rewrite Hlog.
  destruct (export_env_same (map_to_list (environ w)) w)
    as [[Hall _]|(_ & e & k & v & _ & _ & Hrun)].
  { intros k v Hin. by apply elem_of_map_to_list. }
  { unfold exportable in Hx. congruence. }
  exists e. unfold bind. by rewrite Hrun.
Qed.

(** The constructor without overrides writes nothing. *)
Lemma StackConfig_init_default (level : string) (w : World) :
  setup_logging level = None →
  StackConfig_init setup_logging level None w =
    (Ok (length (configs w)),
     set_configs (configs w ++ [{| log_level := level; env_vars := ∅ |}]) w).
Proof.
  intros Hlog. unfold StackConfig_init. rewrite Hlog.
  by rewrite map_to_list_empty.
Qed.

Lemma lookup_snoc_new {A} (l : list A) (x : A) : (l ++ [x]) !! length l = Some x.
Proof. by rewrite list_lookup_middle. Qed.

Lemma insert_snoc_new {A} (l : list A) (x y : A) : <[length l := y]> (l ++ [x]) = l ++ [y].
Proof.
  rewrite insert_app_r_alt by lia. by rewrite Nat.sub_diag.
Qed.

Lemma lookup_snoc_old {A} (l : list A) (x y : A) (i : nat) :
  l !! i = Some y → (l ++ [x]) !! i = Some y.
Proof. intros H. by apply lookup_app_l_Some. Qed.

(** Constructing a pipeline around a given configuration appends it to the
    store; setting its tools afterwards gives the pipeline as returned. *)
Lemma new_pipeline (w : World) (c : loc) (m : option loc) (l : list BaseTool) :
  (let! new := MCPStackCore_init setup_logging (Some c) m in
   update_stack new (set_tools l) ;;; ret new) w =
  (Ok (length (stacks w)),
   set_stacks (stacks w ++ [{| config := c; tools := l; mcp := m; _built := false |}]) w).
Proof.
  unfold MCPStackCore_init, new_stack, ret, bind at 1 2. simpl.
  erewrite bind_ok; [|apply update_stack_ok; simpl; apply lookup_snoc_new].
  simpl. unfold set_stacks; simpl. by rewrite insert_snoc_new.
Qed.

Lemma with_tool_spec (w : World) (self : loc) (s : MCPStackCore) (tool : BaseTool) :
  stacks w !! self = Some s →
  with_tool setup_logging self tool w =
    (Ok (length (stacks w)),
     set_stacks (stacks w ++ [{| config := config s; tools := tools s ++ [tool];
                                 mcp := mcp s; _built := false |}]) w).
Proof.
  intros H. unfold with_tool.
  rewrite (bind_ok _ _ _ _ _ (get_stack_ok _ _ _ H)). apply new_pipeline.
Qed.

Lemma with_tools_spec (w : World) (self : loc) (s : MCPStackCore) (tools' : list BaseTool) :
  stacks w !! self = Some s →
  with_tools setup_logging self tools' w =
    (Ok (length (stacks w)),
     set_stacks (stacks w ++ [{| config := config s; tools := tools s ++ tools';
                                 mcp := mcp s; _built := false |}]) w).
Proof.
  intros H. unfold with_tools.
  rewrite (bind_ok _ _ _ _ _ (get_stack_ok _ _ _ H)). apply new_pipeline.
Qed.

Lemma lookup_snoc_ne {A} (l : list A) (x : A) (i : nat) :
  i ≠ length l → (l ++ [x]) !! i = l !! i.
Proof.
  intros Hne. destruct (decide (i < length l)) as [Hlt|Hge].
  - by rewrite lookup_app_l.
  - rewrite !lookup_ge_None_2; [done|lia|rewrite length_app; simpl; lia].
Qed.

Lemma lookup_length_None {A} (l : list A) : l !! length l = None.
Proof. by apply lookup_ge_None_2. Qed.

Lemma with_preset_spec (w w1 : World) (self preset_stack : loc) (s s1 ps : MCPStackCore)
    (preset_name : string) (kwargs : preset_kwargs) (preset_class : Preset) :
  stacks w !! self = Some s →
  ALL_PRESETS !! preset_name = Some preset_class →
  create preset_class (config_arg kwargs s) (kw_rest kwargs) w = (Ok preset_stack, w1) →
  stacks w1 !! self = Some s1 →
  stacks w1 !! preset_stack = Some ps →
  with_preset setup_logging extractOne ALL_PRESETS self preset_name kwargs w =
    (Ok (length (stacks w1)),
     set_stacks (stacks w1 ++ [{| config := config ps; tools := tools s1 ++ tools ps;
                                  mcp := mcp_or (mcp ps) (mcp s1); _built := false |}]) w1).
Proof.
  intros Hs Hp Hc Hs1 Hps. unfold with_preset. rewrite Hp.
  rewrite (bind_ok _ _ _ _ _ (get_stack_ok _ _ _ Hs)).
  cbn zeta. rewrite (bind_ok _ _ _ _ _ Hc).
  rewrite (bind_ok _ _ _ _ _ (get_stack_ok _ _ _ Hs1)).
  rewrite (bind_ok _ _ _ _ _ (get_stack_ok _ _ _ Hps)).
  apply new_pipeline.
Qed.

Lemma ExamplePreset_create (w : World) (c : loc) (rest : list (string * PyVal))
    (HelloWorld : BaseTool) :
  create (ExamplePreset setup_logging HelloWorld) (Some c) rest w =
    (Ok (S (length (stacks w))),
     set_stacks ((stacks w ++ [{| config := c; tools := []; mcp := None; _built := false |}])
                 ++ [{| config := c; tools := [HelloWorld]; mcp := None; _built := false |}]) w).
Proof.
  simpl. unfold bind. simpl.
  erewrite with_tool_spec by (simpl; apply lookup_snoc_new).
  simpl. unfold set_stacks; simpl. by rewrite length_app, Nat.add_1_r.
Qed.

(** C1, as the code has it. [with_tool] and [with_tools] return a pipeline
    that was not there before, with the receiver's configuration and runtime,
    the receiver's tools followed by the appended ones, and the flag false;
    every pipeline that was there, the receiver included, and every
    configuration is as before. [with_preset] returns a new unbuilt pipeline
    whose tools are the receiver's followed by those of the pipeline the
    preset's factory returned, and whose configuration is that pipeline's: the
    factory is given the [config] keyword argument when one is passed and the
    receiver's configuration otherwise; what [with_preset] adds to the
    factory's own effects is the new pipeline only. With [ExamplePreset] and
    no [config] keyword the new pipeline shares the receiver's
    configuration. *)
Theorem with_star_new_pipeline (w : World) (self : loc) (s : MCPStackCore) :
  stacks w !! self = Some s →
  (∀ tool, ∃ new w',
     with_tool setup_logging self tool w = (Ok new, w') ∧
     stacks w !! new = None ∧
     stacks w' !! new = Some {| config := config s; tools := tools s ++ [tool];
                                mcp := mcp s; _built := false |} ∧
     stacks w' !! self = Some s ∧
     (∀ l, l ≠ new → stacks w' !! l = stacks w !! l) ∧
     configs w' = configs w) ∧
  (∀ tools', ∃ new w',
     with_tools setup_logging self tools' w = (Ok new, w') ∧
     stacks w !! new = None ∧
     stacks w' !! new = Some {| config := config s; tools := tools s ++ tools';
                                mcp := mcp s; _built := false |} ∧
     stacks w' !! self = Some s ∧
     (∀ l, l ≠ new → stacks w' !! l = stacks w !! l) ∧
     configs w' = configs w) ∧
  (∀ preset_name kwargs preset_class preset_stack w1 s1 ps,
     ALL_PRESETS !! preset_name = Some preset_class →
     create preset_class (config_arg kwargs s) (kw_rest kwargs) w = (Ok preset_stack, w1) →
     stacks w1 !! self = Some s1 →
     stacks w1 !! preset_stack = Some ps →
     ∃ new w',
       with_preset setup_logging extractOne ALL_PRESETS self preset_name kwargs w = (Ok new, w') ∧
       stacks w1 !! new = None ∧
       stacks w' !! new = Some {| config := config ps; tools := tools s1 ++ tools ps;
                                  mcp := mcp_or (mcp ps) (mcp s1); _built := false |} ∧
       stacks w' !! self = Some s1 ∧
       (∀ l, l ≠ new → stacks w' !! l = stacks w1 !! l) ∧
       configs w' = configs w1) ∧
  (∀ preset_name rest HelloWorld,
     ALL_PRESETS !! preset_name = Some (ExamplePreset setup_logging HelloWorld) →
     ∃ new w',
       with_preset setup_logging extractOne ALL_PRESETS self preset_name {| kw_config := None; kw_rest := rest |} w = (Ok new, w') ∧
       stacks w !! new = None ∧
       stacks w' !! new = Some {| config := config s; tools := tools s ++ [HelloWorld];
                                  mcp := mcp s; _built := false |} ∧
       stacks w' !! self = Some s ∧
       (∀ l, l < length (stacks w) → stacks w' !! l = stacks w !! l) ∧
       configs w' = configs w).
Proof.
  intros Hs.
  assert (Hlt : self < length (stacks w)) by (by eapply lookup_lt_Some).
  refine (conj _ (conj _ (conj _ _))).
  - intros tool. eexists _, _. split; [by apply with_tool_spec|]. simpl.
    split; [apply lookup_length_None|]. split; [apply lookup_snoc_new|].
    split; [by apply lookup_snoc_old|]. split; [|done].
    intros l Hl. by apply lookup_snoc_ne.
  - intros tools'. eexists _, _. split; [by apply with_tools_spec|]. simpl.
    split; [apply lookup_length_None|]. split; [apply lookup_snoc_new|].
    split; [by apply lookup_snoc_old|]. split; [|done].
    intros l Hl. by apply lookup_snoc_ne.
  - intros preset_name kwargs preset_class preset_stack w1 s1 ps Hp Hc Hs1 Hps.
    eexists _, _. split; [by eapply with_preset_spec|]. simpl.
    split; [apply lookup_length_None|]. split; [apply lookup_snoc_new|].
    split; [by apply lookup_snoc_old|]. split; [|done].
    intros l Hl. by apply lookup_snoc_ne.
  - intros preset_name rest HelloWorld Hp.
    eexists _, _. split.
    { eapply (with_preset_spec w _ self _ s s _ preset_name _ _ Hs Hp).
      - apply ExamplePreset_create.
      - simpl. by do 2 apply lookup_snoc_old.
      - simpl. apply list_lookup_middle. rewrite length_app. simpl. lia. }
    simpl. split; [apply lookup_ge_None_2; rewrite !length_app; simpl; lia|].
    split; [apply lookup_snoc_new|].
    split; [by do 3 apply lookup_snoc_old|]. split; [|done].
    intros l Hl. rewrite !lookup_app_l; rewrite ?length_app; simpl; try lia. done.
Qed.

(** C9, as the code has it. [with_preset] with a name that is not registered
    raises a PresetError and leaves every object as it is. Its message is
    "Unknown preset: <name>." followed by the suggestion
    " Did you mean '<best>'?" when the matcher returns a best match that
    scores at least 80, and by nothing in every other case: the registered
    names go to the matcher, and of them only the best match can reach the
    message. *)
Theorem with_preset_unknown (w : World) (self : loc) (preset_name : string)
    (kwargs : preset_kwargs) :
  ALL_PRESETS !! preset_name = None →
  with_preset setup_logging extractOne ALL_PRESETS self preset_name kwargs w =
    (Raise (MCPStackError MCPStackPresetError
              ("Unknown preset: " +:+ preset_name +:+ "." +:+
               match extractOne preset_name (keys ALL_PRESETS) with
               | Some (best, score) =>
                   if (80 <=? score)%Z then " Did you mean '" +:+ best +:+ "'?" else ""
               | None => ""
               end) None), w) ∧
  (∀ best score,
     extractOne preset_name (keys ALL_PRESETS) = Some (best, score) → (80 ≤ score)%Z →
     with_preset setup_logging extractOne ALL_PRESETS self preset_name kwargs w =
       (Raise (MCPStackError MCPStackPresetError
                 ("Unknown preset: " +:+ preset_name +:+ ". Did you mean '" +:+ best +:+ "'?")
                 None), w)) ∧
  ((∀ best score,
      extractOne preset_name (keys ALL_PRESETS) = Some (best, score) → (score < 80)%Z) →
   with_preset setup_logging extractOne ALL_PRESETS self preset_name kwargs w =
     (Raise (MCPStackError MCPStackPresetError ("Unknown preset: " +:+ preset_name +:+ ".")
               None), w)).
Proof.
  intros Hp.
  assert (Hrun : with_preset setup_logging extractOne ALL_PRESETS self preset_name kwargs w =
                 (Raise (UnknownPreset extractOne ALL_PRESETS preset_name), w)).
  { unfold with_preset. by rewrite Hp. }
  rewrite Hrun. unfold UnknownPreset, suggestion.
  split; [reflexivity|]. split.
  - intros best score -> Hs. apply Z.leb_le in Hs. rewrite Hs.
    reflexivity.
  - intros Hlow. destruct (extractOne preset_name (keys ALL_PRESETS)) as [[best score]|] eqn:He.
    + specialize (Hlow best score eq_refl). apply Z.leb_gt in Hlow. rewrite Hlow.
      reflexivity.
    + reflexivity.
Qed.

(** *** Steps that leave the objects alone *)

Lemma keeps_objects_refl (w : World) : keeps_objects w w.
Proof. by repeat split. Qed.

Lemma keeps_objects_trans (w1 w2 w3 : World) :
  keeps_objects w1 w2 → keeps_objects w2 w3 → keeps_objects w1 w3.
Proof.
  intros (? & ? & ? & ?) (? & ? & ? & ?). repeat split; congruence.
Qed.

Lemma quiet_ret {A} (a : A) : quiet (ret a).
Proof. intros w r w' [= <- <-]. apply keeps_objects_refl. Qed.

Lemma quiet_raise {A} (e : exn) : quiet (@raise A e).
Proof. intros w r w' [= <- <-]. apply keeps_objects_refl. Qed.

Lemma quiet_bind {A B} (m : M A) (k : A -> M B) :
  quiet m → (∀ a, quiet (k a)) → quiet (bind m k).
Proof.
  intros Hm Hk w r w'. unfold bind.
  destruct (m w) as [[a|e] w1] eqn:Hmw; intros H.
  - eapply keeps_objects_trans; [by eapply Hm|by eapply Hk].
  - injection H as <- <-. by eapply Hm.
Qed.

Lemma quiet_for_each {A} (l : list A) (body : A -> M unit) :
  (∀ x, quiet (body x)) → quiet (for_each l body).
Proof.
  intros Hb. induction l as [|x l IH]; simpl.
  - apply quiet_ret.
  - apply quiet_bind; [apply Hb|]. intros _. apply IH.
Qed.

Lemma quiet_emit (ev : Event) : quiet (emit ev).
Proof. intros w r w' [= <- <-]. by repeat split. Qed.

Lemma quiet_outcome (o : option exn) : quiet (outcome o).
Proof. destruct o; [apply quiet_raise|apply quiet_ret]. Qed.

Lemma quiet_get_stack (self : loc) : quiet (get_stack self).
Proof.
  intros w r w'. unfold get_stack.
  destruct (stacks w !! self); intros [= <- <-]; apply keeps_objects_refl.
Qed.

Lemma quiet_get_runtime (m : loc) : quiet (get_runtime m).
Proof.
  intros w r w'. unfold get_runtime.
  destruct (runtimes w !! m); intros [= <- <-]; apply keeps_objects_refl.
Qed.

Lemma quiet_try_pass (body : M unit) : quiet body → quiet (try_pass body).
Proof.
  intros Hb w r w'. unfold try_pass.
  destruct (body w) as [[a|e] w1] eqn:Hbw; intros [= <- <-]; by eapply Hb.
Qed.

Lemma quiet_initialize (tool : BaseTool) : quiet (initialize tool).
Proof.
  unfold initialize. destruct (backends tool) as [bs|]; [|apply quiet_raise].
  apply quiet_bind.
  - apply quiet_for_each. intros [name b]. simpl.
    destruct (backend_initialize b); [|apply quiet_ret].
    apply quiet_bind; [apply quiet_emit|]. intros _. apply quiet_outcome.
  - intros _. apply quiet_bind; [apply quiet_emit|]. intros _. apply quiet_outcome.
Qed.

Lemma quiet_post_load (tool : BaseTool) : quiet (post_load tool).
Proof.
  unfold post_load. apply quiet_bind; [apply quiet_emit|]. intros _.
  apply quiet_bind; [apply quiet_outcome|]. intros _. apply quiet_initialize.
Qed.

Lemma quiet_register (m : loc) (action : string) : quiet (register m action).
Proof.
  unfold register. apply quiet_bind; [apply quiet_get_runtime|].
  intros r w r' w' [= <- <-]. by repeat split.
Qed.

Lemma quiet_initialize_tools (self : loc) : quiet (_initialize_tools self).
Proof.
  unfold _initialize_tools. apply quiet_bind; [apply quiet_get_stack|].
  intros s. apply quiet_for_each. intros tool. apply quiet_initialize.
Qed.

Lemma quiet_register_actions (self : loc) : quiet (_register_actions self).
Proof.
  unfold _register_actions. apply quiet_bind; [apply quiet_get_stack|].
  intros s. apply quiet_for_each. intros action.
  apply quiet_bind; [apply quiet_get_stack|]. intros s'.
  destruct (mcp s'); [apply quiet_register|apply quiet_raise].
Qed.

(** *** The steps of [build] *)

Lemma validate_inv (w w' : World) (self : loc) (s : MCPStackCore) (r : result unit) :
  stacks w !! self = Some s →
  _validate self w = (r, w') →
  w' = w ∧
  (tools s = [] → r = Raise EmptyPipeline) ∧
  (r = Ok tt → tools s ≠ [] ∧ is_Some (configs w !! config s)).
Proof.
  intros Hs. unfold _validate. rewrite (bind_ok _ _ _ _ _ (get_stack_ok _ _ _ Hs)).
  destruct (tools s) as [|tool l] eqn:Ht.
  - intros [= <- <-]. repeat split; done.
  - unfold bind, get_config. destruct (configs w !! config s) as [cfg|] eqn:Hc.
    + intros [= <- <-]. repeat split; eauto; done.
    + intros [= <- <-]. repeat split; done.
Qed.

Lemma initialize_mcp_spec (w : World) (self : loc) (s : MCPStackCore) :
  stacks w !! self = Some s →
  _initialize_mcp self w =
    match mcp s with
    | Some _ => (Ok tt, w)
    | None =>
        (Ok tt,
         set_stacks (<[self := set_mcp (Some (length (runtimes w))) s]> (stacks w))
           (set_runtimes (runtimes w ++ [{| mcp_name := "mcpstack"; registered := [] |}]) w))
    end.
Proof.
  intros Hs. unfold _initialize_mcp.
  rewrite (bind_ok _ _ _ _ _ (get_stack_ok _ _ _ Hs)).
  destruct (mcp s); [reflexivity|].
  unfold new_runtime, bind at 1.
  erewrite update_stack_ok by (simpl; exact Hs). reflexivity.
Qed.

(** What [build_steps] may have changed when it ends, whatever its outcome:
    the receiver's runtime handle, the runtimes and the trace. *)
Lemma build_steps_inv (w w1 : World) (self : loc) (s : MCPStackCore) (r : result unit) :
  stacks w !! self = Some s →
  build_steps self w = (r, w1) →
  configs w1 = configs w ∧ files w1 = files w ∧ environ w1 = environ w ∧
  ∃ s1, stacks w1 = <[self := s1]> (stacks w) ∧
        config s1 = config s ∧ tools s1 = tools s ∧ _built s1 = _built s ∧
        (tools s = [] → r = Raise EmptyPipeline ∧ w1 = w) ∧
        (r = Ok tt → is_Some (mcp s1) ∧ tools s ≠ [] ∧ is_Some (configs w !! config s)).
Proof.
  intros Hs. unfold build_steps, bind at 1.
  destruct (_validate self w) as [r0 w0] eqn:Hv.
  destruct (validate_inv _ _ _ _ _ Hs Hv) as (-> & Hempty & Hok).
  destruct r0 as [[]|e].
  - destruct (Hok eq_refl) as [Hne Hcfg]. unfold bind at 1.
    rewrite (initialize_mcp_spec _ _ _ Hs).
    set (rest := (_initialize_tools self;;; _register_actions self)).
    assert (Hq : quiet rest).
    { apply quiet_bind; [apply quiet_initialize_tools|].
      intros _. apply quiet_register_actions. }
    destruct (mcp s) as [m|] eqn:Hm; intros Hr.
    + destruct (Hq _ _ _ Hr) as (Hst & Hc & Hf & He).
      refine (conj Hc (conj Hf (conj He (ex_intro _ s _)))).
      refine (conj _ (conj eq_refl (conj eq_refl (conj eq_refl (conj _ _))))).
      * by rewrite Hst, list_insert_id.
      * intros Ht. done.
      * intros _. rewrite Hm. eauto.
    + destruct (Hq _ _ _ Hr) as (Hst & Hc & Hf & He). simpl in *.
      refine (conj Hc (conj Hf (conj He
                (ex_intro _ (set_mcp (Some (length (runtimes w))) s) _)))).
      refine (conj Hst (conj eq_refl (conj eq_refl (conj eq_refl (conj _ _))))).
      * intros Ht. done.
      * intros _. simpl. eauto.
  - intros [= <- <-].
    refine (conj eq_refl (conj eq_refl (conj eq_refl (ex_intro _ s _)))).
    refine (conj _ (conj eq_refl (conj eq_refl (conj eq_refl (conj _ _))))).
    + by rewrite list_insert_id.
    + intros Ht. split; [|done]. by apply Hempty.
    + intros [=].
Qed.

Lemma build_assoc (w : World) (self : loc) (type : string) (kwargs : build_kwargs) :
  build extractOne ALL_MCP_CONFIG_GENERATORS self type kwargs w =
    (build_steps self ;;;
     update_stack self (set_built true) ;;;
     _generate_config extractOne ALL_MCP_CONFIG_GENERATORS self type kwargs) w.
Proof.
  unfold build, build_steps, bind.
  destruct (_validate self w) as [[[]|e] w0]; [|reflexivity].
  destruct (_initialize_mcp self w0) as [[[]|e] w1]; [|reflexivity].
  destruct (_initialize_tools self w1) as [[[]|e] w2]; [|reflexivity].
  destruct (_register_actions self w2) as [[[]|e] w3]; reflexivity.
Qed.

(** C2. [build] on a pipeline with no tool raises the ValidationError of
    [_validate] and changes nothing, so a flag that was false is still false,
    whatever the format and the configuration. More generally, when one of the
    steps before the flag is set raises, [build] raises the same exception and
    the pipeline's flag is what it was. *)
Theorem build_empty_pipeline (w : World) (self : loc) (s : MCPStackCore)
    (type : string) (kwargs : build_kwargs) :
  stacks w !! self = Some s →
  tools s = [] →
  build extractOne ALL_MCP_CONFIG_GENERATORS self type kwargs w =
    (Raise (MCPStackError MCPStackValidationError "At least one tool must be added." None), w) ∧
  (_built s = false →
   _built <$> stacks (build extractOne ALL_MCP_CONFIG_GENERATORS self type kwargs w).2 !! self =
     Some false) ∧
  (∀ w0 s0 e w', stacks w0 !! self = Some s0 →
     build_steps self w0 = (Raise e, w') →
     build extractOne ALL_MCP_CONFIG_GENERATORS self type kwargs w0 = (Raise e, w') ∧
     ∃ s', stacks w' !! self = Some s' ∧ _built s' = _built s0).
Proof.
  intros Hs Ht.
  assert (Hfail : build extractOne ALL_MCP_CONFIG_GENERATORS self type kwargs w =
                  (Raise EmptyPipeline, w)).
  { rewrite build_assoc.
    destruct (build_steps self w) as [r w1] eqn:Hb.
    destruct (build_steps_inv _ _ _ _ _ Hs Hb) as (_ & _ & _ & s1 & _ & _ & _ & _ & He & _).
    destruct (He Ht) as [-> ->]. by rewrite (bind_raise _ _ _ _ _ Hb). }
  split; [exact Hfail|]. split.
  - intros Hb. rewrite Hfail. simpl. by rewrite Hs, <- Hb.
  - intros w0 s0 e w' Hs0 Hb. split.
    + rewrite build_assoc. by rewrite (bind_raise _ _ _ _ _ Hb).
    + destruct (build_steps_inv _ _ _ _ _ Hs0 Hb) as (_ & _ & _ & s1 & Hst & _ & _ & Hbl & _).
      exists s1. split; [|done]. rewrite Hst. apply list_lookup_insert_eq.
      by eapply lookup_lt_Some.
Qed.

(** *** [run] and [save] on a pipeline whose flag is set *)

Lemma set_trace_nil (w : World) : set_trace (trace w ++ []) w = w.
Proof. destruct w. unfold set_trace. simpl. by rewrite app_nil_r. Qed.

Lemma teardown_backends_spec (tool : BaseTool) (bs : list (string * Backend)) (w : World) :
  for_each bs (fun nb =>
    try_pass
      match backend_teardown nb.2 with
      | None => ret tt
      | Some o => emit (EvBackendTeardown (class_name tool) nb.1) ;;; outcome o
      end) w =
  (Ok tt, set_trace (trace w ++ backend_teardown_events tool bs) w).
Proof.
  revert w. induction bs as [|[name b] bs IH]; intros w; simpl.
  - unfold ret. by rewrite set_trace_nil.
  - unfold bind at 1, try_pass. destruct (backend_teardown b) as [o|]; simpl.
    + unfold bind at 1, emit. simpl.
      destruct o as [e|]; simpl; rewrite IH; simpl;
        unfold set_trace; simpl; by rewrite <- app_assoc.
    + unfold ret. by rewrite IH.
Qed.

Lemma teardown_events_cons (tool : BaseTool) (l : list BaseTool) :
  teardown_events (tool :: l) =
    match backends tool with
    | None => []
    | Some bs => backend_teardown_events tool bs
    end ++ teardown_events l.
Proof. reflexivity. Qed.

Lemma teardown_loop_spec (l : list BaseTool) (w : World) :
  for_each l (fun tool =>
    match backends tool with
    | None => ret tt
    | Some bs =>
        for_each bs (fun nb =>
          try_pass
            match backend_teardown nb.2 with
            | None => ret tt
            | Some o => emit (EvBackendTeardown (class_name tool) nb.1) ;;; outcome o
            end)
    end) w =
  (Ok tt, set_trace (trace w ++ teardown_events l) w).
Proof.
  revert w. induction l as [|tool l IH]; intros w.
  - simpl. unfold ret. by rewrite set_trace_nil.
  - cbn [for_each]. unfold bind at 1. rewrite teardown_events_cons.
    destruct (backends tool) as [bs|] eqn:Hb.
    + rewrite teardown_backends_spec, IH.
      unfold set_trace; simpl. by rewrite <- app_assoc.
    + unfold ret. by rewrite IH.
Qed.

Lemma teardown_tools_spec (w : World) (self : loc) (s : MCPStackCore) :
  stacks w !! self = Some s →
  _teardown_tools self w = (Ok tt, set_trace (trace w ++ teardown_events (tools s)) w).
Proof.
  intros Hs. unfold _teardown_tools.
  rewrite (bind_ok _ _ _ _ _ (get_stack_ok _ _ _ Hs)). apply teardown_loop_spec.
Qed.

Lemma run_reaches_serve (w : World) (self m : loc) (s : MCPStackCore) :
  stacks w !! self = Some s → _built s = true → mcp s = Some m →
  run mcp_run self w = try_finally (serve mcp_run m) (_teardown_tools self) w.
Proof.
  intros Hs Hb Hm. unfold run.
  rewrite (bind_ok _ _ _ _ _ (get_stack_ok _ _ _ Hs)). by rewrite Hb, Hm.
Qed.

Lemma run_spec (w : World) (self m : loc) (s : MCPStackCore) (r : FastMCP) :
  stacks w !! self = Some s → _built s = true → mcp s = Some m →
  runtimes w !! m = Some r →
  run mcp_run self w =
    (result_of (mcp_run r),
     set_trace (trace w ++ EvServe m :: teardown_events (tools s)) w).
Proof.
  intros Hs Hb Hm Hr. rewrite (run_reaches_serve _ _ _ _ Hs Hb Hm).
  unfold try_finally, serve.
  rewrite (bind_ok _ _ _ _ _ (get_runtime_ok _ _ _ Hr)).
  unfold bind at 1, emit.
  assert (Hserve : outcome (mcp_run r) (set_trace (trace w ++ [EvServe m]) w) =
                   (result_of (mcp_run r), set_trace (trace w ++ [EvServe m]) w)).
  { by destruct (mcp_run r). }
  rewrite Hserve. erewrite teardown_tools_spec by (simpl; exact Hs).
  simpl. unfold set_trace; simpl. by rewrite <- app_assoc.
Qed.

Lemma save_spec (w : World) (self : loc) (s : MCPStackCore) (cfg : StackConfig)
    (path : string) :
  stacks w !! self = Some s → _built s = true →
  configs w !! config s = Some cfg →
  save self path w =
    (Ok tt,
     set_files (<[path := {| doc_config := config_to_dict cfg;
                             doc_tools := Some (tool_doc <$> tools s) |}]> (files w)) w).
Proof.
  intros Hs Hb Hc. unfold save.
  rewrite (bind_ok _ _ _ _ _ (get_stack_ok _ _ _ Hs)). rewrite Hb. simpl.
  by rewrite (bind_ok _ _ _ _ _ (get_config_ok _ _ _ Hc)).
Qed.

(** [run] and [save] on a pipeline whose flag is not set raise a BuildError
    and do nothing else: no serve call, no teardown, no file. *)
Theorem run_save_before_build (w : World) (self : loc) (s : MCPStackCore) (path : string) :
  stacks w !! self = Some s → _built s = false →
  run mcp_run self w =
    (Raise (MCPStackError MCPStackBuildError "Call .build() before .run()" None), w) ∧
  save self path w =
    (Raise (MCPStackError MCPStackBuildError "Call .build() before .save()" None), w).
Proof.
  intros Hs Hb. unfold run, save.
  rewrite !(bind_ok _ _ _ _ _ (get_stack_ok _ _ _ Hs)). by rewrite Hb.
Qed.

(** C10. When the steps before the flag succeed, the generator is dispatched
    with the flag already set: [build] ends as [_generate_config] ends from a
    state in which the pipeline has [_built] true. When the requested format is
    not registered that is the ValidationError for the unknown type, raised
    with nothing else changed: the pipeline is left with [_built] true and no
    file written, [run] goes past its checks to the serve call, and [save]
    writes the document. *)
Theorem build_unknown_type_leaves_built (w w1 : World) (self : loc) (s : MCPStackCore)
    (type : string) (kwargs : build_kwargs) :
  stacks w !! self = Some s →
  build_steps self w = (Ok tt, w1) →
  ∃ w2 s2 m cfg,
    stacks w2 !! self = Some s2 ∧ _built s2 = true ∧ tools s2 = tools s ∧
    mcp s2 = Some m ∧ configs w2 !! config s2 = Some cfg ∧
    files w2 = files w ∧
    (∀ generator_class, ALL_MCP_CONFIG_GENERATORS !! type = Some generator_class →
       build extractOne ALL_MCP_CONFIG_GENERATORS self type kwargs w =
         generate generator_class self kwargs w2) ∧
    (ALL_MCP_CONFIG_GENERATORS !! type = None →
       build extractOne ALL_MCP_CONFIG_GENERATORS self type kwargs w =
         (Raise (MCPStackError MCPStackValidationError
                   ("Unknown config type: " +:+ type +:+ "." +:+
                    suggestion extractOne type (keys ALL_MCP_CONFIG_GENERATORS)) None), w2)) ∧
    run mcp_run self w2 = try_finally (serve mcp_run m) (_teardown_tools self) w2 ∧
    (∀ path, save self path w2 =
       (Ok tt,
        set_files (<[path := {| doc_config := config_to_dict cfg;
                                doc_tools := Some (tool_doc <$> tools s) |}]> (files w2)) w2)).
Proof.
  intros Hs Hb.
  destruct (build_steps_inv _ _ _ _ _ Hs Hb)
    as (Hc & Hf & He & s1 & Hst & Hcfg & Ht & Hbl & _ & Hok).
  destruct (Hok eq_refl) as ([m Hm] & _ & [cfg Hcfg']).
  assert (Hlt : self < length (stacks w)) by (by eapply lookup_lt_Some).
  assert (Hs1 : stacks w1 !! self = Some s1).
  { rewrite Hst. by apply list_lookup_insert_eq. }
  set (w2 := set_stacks (<[self := set_built true s1]> (stacks w1)) w1).
  assert (Hs2 : stacks w2 !! self = Some (set_built true s1)).
  { simpl. apply list_lookup_insert_eq. rewrite Hst, length_insert. done. }
  assert (Hdispatch : build extractOne ALL_MCP_CONFIG_GENERATORS self type kwargs w =
                      _generate_config extractOne ALL_MCP_CONFIG_GENERATORS self type kwargs w2).
  { rewrite build_assoc. rewrite (bind_ok _ _ _ _ _ Hb).
    by rewrite (bind_ok _ _ _ _ _ (update_stack_ok _ _ _ _ Hs1)). }
  exists w2, (set_built true s1), m, cfg.
  refine (conj Hs2 (conj eq_refl (conj Ht (conj Hm (conj _ (conj Hf
            (conj _ (conj _ (conj _ _))))))))).
  - simpl. by rewrite Hc, Hcfg.
  - intros g Hg. rewrite Hdispatch. unfold _generate_config. by rewrite Hg.
  - intros Hg. rewrite Hdispatch. unfold _generate_config. by rewrite Hg.
  - by apply (run_reaches_serve _ _ _ _ Hs2).
  - intros path. rewrite <- Ht. apply (save_spec _ _ _ _ _ Hs2); [done|].
    simpl. by rewrite Hc, Hcfg.
Qed.

(** C5. On a built pipeline with a runtime, [run] ends as the serve call
    ended (it returns when serve returned and raises what serve raised),
    after [teardown] has been called on every backend of every tool that has
    one, in order, whatever any of these calls raised. *)
Theorem run_tears_down (w : World) (self m : loc) (s : MCPStackCore) (r : FastMCP) :
  stacks w !! self = Some s → _built s = true → mcp s = Some m →
  runtimes w !! m = Some r →
  ∃ w',
    run mcp_run self w = (result_of (mcp_run r), w') ∧
    trace w' = trace w ++ EvServe m :: teardown_events (tools s) ∧
    (∀ tool bs name b,
       tool ∈ tools s → backends tool = Some bs → (name, b) ∈ bs →
       is_Some (backend_teardown b) →
       EvBackendTeardown (class_name tool) name ∈ trace w') ∧
    keeps_objects w w' ∧ runtimes w' = runtimes w.
Proof.
  intros Hs Hb Hm Hr. eexists. split; [by apply run_spec|]. simpl.
  split; [done|]. split; [|by repeat split].
  intros tool bs name b Ht Hbs Hin [o Ho].
  apply elem_of_app. right. apply elem_of_cons. right.
  unfold teardown_events. apply list_elem_of_bind. exists tool. split; [|done].
  rewrite Hbs. apply list_elem_of_omap. exists (name, b). split; [done|].
  simpl. by rewrite Ho.
Qed.

(** *** [build] does not read the flag *)

Lemma flag_blind_ret {A} (self : loc) (a : A) : flag_blind self (ret a).
Proof. by intros w. Qed.

Lemma flag_blind_raise {A} (self : loc) (e : exn) : flag_blind self (@raise A e).
Proof. by intros w. Qed.

Lemma flag_blind_bind {A B} (self : loc) (m : M A) (k : A -> M B) :
  flag_blind self m → (∀ a, flag_blind self (k a)) → flag_blind self (bind m k).
Proof.
  intros Hm Hk w. unfold bind. rewrite Hm.
  destruct (m w) as [[a|e] w1]; simpl; [apply Hk|reflexivity].
Qed.

Lemma flag_blind_for_each {A} (self : loc) (l : list A) (body : A -> M unit) :
  (∀ x, flag_blind self (body x)) → flag_blind self (for_each l body).
Proof.
  intros Hb. induction l as [|x l IH]; simpl.
  - apply flag_blind_ret.
  - apply flag_blind_bind; [apply Hb|]. intros _. apply IH.
Qed.

Lemma flag_blind_emit (self : loc) (ev : Event) : flag_blind self (emit ev).
Proof. by intros w. Qed.

Lemma flag_blind_outcome (self : loc) (o : option exn) : flag_blind self (outcome o).
Proof. destruct o; [apply flag_blind_raise|apply flag_blind_ret]. Qed.

Lemma flag_blind_get_config (self c : loc) : flag_blind self (get_config c).
Proof. intros w. unfold get_config. simpl. by destruct (configs w !! c). Qed.

Lemma flag_blind_get_runtime (self m : loc) : flag_blind self (get_runtime m).
Proof. intros w. unfold get_runtime. simpl. by destruct (runtimes w !! m). Qed.

(** Reading the receiver, when what follows uses its configuration, tools and
    runtime only. *)
Lemma flag_blind_get_stack {A} (self : loc) (k : MCPStackCore -> M A) :
  (∀ s, flag_blind self (k s)) →
  (∀ s w, k (set_built false s) w = k s w) →
  flag_blind self (bind (get_stack self) k).
Proof.
  intros Hk Hflag w. unfold bind, get_stack. simpl.
  rewrite list_lookup_alter_eq. destruct (stacks w !! self) as [s|]; cbn; [|reflexivity].
  rewrite Hflag. apply Hk.
Qed.

Lemma alter_insert_eq {A} (f : A -> A) (l : list A) (i : nat) (x : A) :
  alter f i (<[i := x]> l) = <[i := f x]> l.
Proof. by rewrite !list_insert_alter, list_alter_alter_eq. Qed.

Lemma insert_alter_eq {A} (f : A -> A) (l : list A) (i : nat) (y : A) :
  <[i := y]> (alter f i l) = <[i := y]> l.
Proof. by rewrite !list_insert_alter, list_alter_alter_eq. Qed.

Lemma flag_blind_set_mcp (self : loc) (m : option loc) :
  flag_blind self (update_stack self (set_mcp m)).
Proof.
  intros w. unfold update_stack, bind, get_stack. simpl.
  rewrite list_lookup_alter_eq. destruct (stacks w !! self) as [s|]; cbn; [|reflexivity].
  unfold unbuilt, set_stacks. cbn. by rewrite alter_insert_eq, insert_alter_eq.
Qed.

Lemma flag_blind_initialize (self : loc) (tool : BaseTool) :
  flag_blind self (initialize tool).
Proof.
  unfold initialize. destruct (backends tool) as [bs|]; [|apply flag_blind_raise].
  apply flag_blind_bind.
  - apply flag_blind_for_each. intros [name b]. simpl.
    destruct (backend_initialize b); [|apply flag_blind_ret].
    apply flag_blind_bind; [apply flag_blind_emit|]. intros _. apply flag_blind_outcome.
  - intros _. apply flag_blind_bind; [apply flag_blind_emit|].
    intros _. apply flag_blind_outcome.
Qed.

Lemma flag_blind_register (self m : loc) (action : string) :
  flag_blind self (register m action).
Proof.
  unfold register. apply flag_blind_bind; [apply flag_blind_get_runtime|].
  by intros r w.
Qed.

Lemma flag_blind_build_steps (self : loc) : flag_blind self (build_steps self).
Proof.
  unfold build_steps. apply flag_blind_bind; [|intros _; apply flag_blind_bind;
    [|intros _; apply flag_blind_bind]].
  - unfold _validate. apply flag_blind_get_stack; [|reflexivity].
    intros s. destruct (tools s); [apply flag_blind_raise|].
    apply flag_blind_bind; [apply flag_blind_get_config|]. by intros cfg w.
  - unfold _initialize_mcp. apply flag_blind_get_stack; [|reflexivity].
    intros s. destruct (mcp s); [apply flag_blind_ret|].
    apply flag_blind_bind; [by intros w|]. intros m. apply flag_blind_set_mcp.
  - unfold _initialize_tools. apply flag_blind_get_stack; [|reflexivity].
    intros s. apply flag_blind_for_each. intros tool. apply flag_blind_initialize.
  - intros _. unfold _register_actions. apply flag_blind_get_stack; [|reflexivity].
    intros s. apply flag_blind_for_each. intros action.
    apply flag_blind_get_stack; [|reflexivity].
    intros s'. destruct (mcp s'); [apply flag_blind_register|apply flag_blind_raise].
Qed.

(** C4, as the code has it. [build] makes no check of the flag: on a pipeline
    whose flag is set it runs the same steps with the same outcome as on the
    same pipeline with the flag cleared. When the steps before the flag
    succeed, the two runs end in the same state; when one of them raises, both
    raise it and the pipeline keeps the flag it had. *)
Theorem build_ignores_flag (w : World) (self : loc) (s : MCPStackCore)
    (type : string) (kwargs : build_kwargs) :
  stacks w !! self = Some s →
  _built s = true →
  (build extractOne ALL_MCP_CONFIG_GENERATORS self type kwargs (unbuilt self w)).1 = (build extractOne ALL_MCP_CONFIG_GENERATORS self type kwargs w).1 ∧
  (is_ok (build_steps self w).1 = true →
     build extractOne ALL_MCP_CONFIG_GENERATORS self type kwargs (unbuilt self w) = build extractOne ALL_MCP_CONFIG_GENERATORS self type kwargs w) ∧
  (∀ e, (build_steps self w).1 = Raise e →
     (build extractOne ALL_MCP_CONFIG_GENERATORS self type kwargs w).1 = Raise e ∧
     (build extractOne ALL_MCP_CONFIG_GENERATORS self type kwargs (unbuilt self w)).2 = unbuilt self (build extractOne ALL_MCP_CONFIG_GENERATORS self type kwargs w).2 ∧
     ∃ s', stacks (build extractOne ALL_MCP_CONFIG_GENERATORS self type kwargs w).2 !! self = Some s' ∧ _built s' = true).
Proof.
  intros Hs Hb. rewrite !build_assoc.
  pose proof (flag_blind_build_steps self w) as Hblind.
  destruct (build_steps self w) as [r w1] eqn:Hsteps. simpl in Hblind.
  destruct (build_steps_inv _ _ _ _ _ Hs Hsteps)
    as (_ & _ & _ & s1 & Hst & _ & _ & Hbl & _).
  assert (Hs1 : stacks w1 !! self = Some s1).
  { rewrite Hst. apply list_lookup_insert_eq. by eapply lookup_lt_Some. }
  destruct r as [[]|e].
  - assert (Heq : (build_steps self;;; update_stack self (set_built true);;;
                   _generate_config extractOne ALL_MCP_CONFIG_GENERATORS self type kwargs) (unbuilt self w) =
                  (build_steps self;;; update_stack self (set_built true);;;
                   _generate_config extractOne ALL_MCP_CONFIG_GENERATORS self type kwargs) w).
    { rewrite (bind_ok _ _ _ _ _ Hblind), (bind_ok _ _ _ _ _ Hsteps).
      rewrite (bind_ok _ _ _ _ _ (update_stack_ok _ _ _ _ Hs1)).
      erewrite bind_ok; [reflexivity|].
      erewrite update_stack_ok
        by (simpl; rewrite list_lookup_alter_eq, Hs1; reflexivity).
      simpl. unfold unbuilt, set_stacks. simpl. by rewrite insert_alter_eq. }
    split; [by rewrite Heq|]. split; [done|]. simpl. discriminate.
  - rewrite (bind_raise _ _ _ _ _ Hblind), (bind_raise _ _ _ _ _ Hsteps). simpl.
    split; [done|]. split; [discriminate|]. intros e' [= <-].
    split; [done|]. split; [done|]. exists s1. split; [done|]. congruence.
Qed.

(** *** [save] followed by [load] *)

Lemma initialize_backends_spec (tool : BaseTool) (bs : list (string * Backend)) (w : World) :
  forallb backend_initialize_ok bs = true →
  for_each bs (fun nb =>
    match backend_initialize nb.2 with
    | None => ret tt
    | Some o => emit (EvBackendInitialize (class_name tool) nb.1) ;;; outcome o
    end) w =
  (Ok tt, set_trace (trace w ++ backend_initialize_events tool bs) w).
Proof.
  revert w. induction bs as [|[name b] bs IH]; intros w Hall.
  - simpl. unfold ret. by rewrite set_trace_nil.
  - simpl in Hall. apply andb_true_iff in Hall as [Hb Hall].
    cbn [for_each]. unfold bind at 1. unfold backend_initialize_ok in Hb.
    unfold backend_initialize_events. simpl in *.
    destruct (backend_initialize b) as [[e|]|]; [discriminate| |].
    + unfold bind at 1, emit. simpl. rewrite IH by done.
      unfold set_trace; simpl. by rewrite <- app_assoc.
    + unfold ret. by rewrite IH.
Qed.

Lemma emit_ok (ev : Event) (w : World) :
  emit ev w = (Ok tt, set_trace (trace w ++ [ev]) w).
Proof. reflexivity. Qed.

Lemma ret_ok {A} (a : A) (w : World) : ret a w = (Ok a, w).
Proof. reflexivity. Qed.

Lemma post_load_spec (tool : BaseTool) (w : World) :
  post_load_ok tool = true →
  post_load tool w =
    (Ok tt, set_trace (trace w ++ EvPostLoad (class_name tool) :: initialize_events tool) w).
Proof.
  unfold post_load_ok, post_load, initialize, initialize_events.
  destruct (_post_load tool); [discriminate|].
  destruct (backends tool) as [bs|]; [|discriminate].
  destruct (_initialize tool); [discriminate|]. intros Hall.
  cbn [outcome].
  rewrite (bind_ok _ _ _ _ _ (emit_ok _ _)).
  rewrite (bind_ok _ _ _ _ _ (ret_ok _ _)).
  rewrite (bind_ok _ _ _ _ _ (initialize_backends_spec tool bs _ Hall)).
  rewrite (bind_ok _ _ _ _ _ (emit_ok _ _)).
  simpl. unfold ret, set_trace; simpl.
  unfold backend_initialize_events. by rewrite <- !app_assoc.
Qed.

Lemma post_load_loop_spec (l : list BaseTool) (w : World) :
  Forall (fun tool => post_load_ok tool = true) l →
  for_each l post_load w = (Ok tt, set_trace (trace w ++ post_load_events l) w).
Proof.
  intros Hall. revert w. induction Hall as [|tool l Hok Hall IH]; intros w.
  - simpl. unfold ret. by rewrite set_trace_nil.
  - cbn [for_each]. unfold bind at 1. rewrite (post_load_spec _ _ Hok), IH.
    unfold post_load_events; simpl. unfold set_trace; simpl. by rewrite <- !app_assoc.
Qed.

(** The loop of [load]: every tool of the document is rebuilt and appended,
    each by a [with_tool] that allocates the next pipeline. *)
Lemma load_tools_spec (ts ts' : list BaseTool) :
  Forall2 (reloads ALL_TOOLS) ts ts' →
  ∀ (w : World) (instance : loc) (s0 : MCPStackCore),
    stacks w !! instance = Some s0 → _built s0 = false →
    ∃ new w',
      load_tools setup_logging ALL_TOOLS instance (tool_doc <$> ts) w = (Ok new, w') ∧
      stacks w' !! new = Some {| config := config s0; tools := tools s0 ++ ts';
                                 mcp := mcp s0; _built := false |} ∧
      (∀ l, l < length (stacks w) → stacks w' !! l = stacks w !! l) ∧
      configs w' = configs w ∧ files w' = files w ∧ environ w' = environ w ∧
      runtimes w' = runtimes w ∧ trace w' = trace w.
Proof.
  induction 1 as [|t t' ts ts' (cls & Hreg & Hfrom & _) _ IH]; intros w instance s0 Hs0 Hb0.
  - exists instance, w. simpl. split; [done|]. rewrite app_nil_r.
    split; [|done]. rewrite Hs0. f_equal. destruct s0; simpl in *. by subst.
  - simpl. rewrite Hreg. unfold lift, bind at 1. rewrite Hfrom.
    rewrite (bind_ok _ _ _ _ _ (with_tool_spec _ _ _ t' Hs0)).
    set (s1 := {| config := config s0; tools := tools s0 ++ [t'];
                  mcp := mcp s0; _built := false |}).
    destruct (IH (set_stacks (stacks w ++ [s1]) w) (length (stacks w)) s1)
      as (new & w' & Hload & Hnew & Hold & Hc & Hf & He & Hr & Ht);
      [simpl; apply lookup_snoc_new|reflexivity|].
    exists new, w'. split; [exact Hload|]. simpl in *.
    rewrite <- app_assoc in Hnew. split; [exact Hnew|].
    split; [|done]. intros l Hl. rewrite Hold by (rewrite length_app; lia).
    by rewrite lookup_app_l.
Qed.

Lemma Forall2_reloads_fmap (ts ts' : list BaseTool) :
  Forall2 (reloads ALL_TOOLS) ts ts' →
  class_name <$> ts' = class_name <$> ts ∧ to_dict <$> ts' = to_dict <$> ts ∧
  Forall (fun tool => post_load_ok tool = true) ts'.
Proof.
  induction 1 as [|t t' ts ts' (cls & _ & _ & Hc & Hd & Hp) _ (IHc & IHd & IHp)].
  - done.
  - rewrite !fmap_cons, Hc, Hd, IHc, IHd. by repeat constructor.
Qed.

(** C3, as the code has it. For a built pipeline whose tools keep the tool
    contract ([reloads]) and whose configuration's overrides can all be set
    in [os.environ] ([exportable]: the constructor that [load] calls copies
    them there), [save] writes the document and [load] of it, in whatever
    process environment, returns a new pipeline with the flag set, with as
    many tools as the original, of the same type identifiers and with the
    same parameter payloads in the same order, and with an equal
    configuration; the overrides are then in the process environment. [load]
    calls each tool's [post_load] and nothing that validates environment
    variables: no hypothesis speaks of the variables the tools require. The
    original pipeline is as it was. *)
Theorem save_load_roundtrip (w : World) (self : loc) (s : MCPStackCore)
    (cfg : StackConfig) (path : string) (reloaded : list BaseTool) :
  stacks w !! self = Some s → _built s = true →
  configs w !! config s = Some cfg →
  setup_logging (log_level cfg) = None →
  exportable (env_vars cfg) = true →
  Forall2 (reloads ALL_TOOLS) (tools s) reloaded →
  ∃ w1,
    save self path w = (Ok tt, w1) ∧
    ∀ env, ∃ new w2 s',
      load setup_logging ALL_TOOLS path (set_environ env w1) = (Ok new, w2) ∧
      environ w2 = env_vars cfg ∪ env ∧
      stacks w2 !! new = Some s' ∧
      _built s' = true ∧
      tools s' = reloaded ∧
      length (tools s') = length (tools s) ∧
      (fun t => to_snake_case (class_name t)) <$> tools s' =
        (fun t => to_snake_case (class_name t)) <$> tools s ∧
      to_dict <$> tools s' = to_dict <$> tools s ∧
      configs w2 !! config s' = Some cfg ∧
      trace w2 = trace w ++ post_load_events reloaded ∧
      stacks w2 !! self = Some s.
Proof.
  intros Hs Hb Hc Hlog Hx Hre.
  assert (Hlt : self < length (stacks w)) by (by eapply lookup_lt_Some).
  eexists. split; [by apply save_spec|]. intros env.
  destruct (Forall2_reloads_fmap _ _ Hre) as (Hcls & Hdict & Hpost).
  unfold load. unfold bind at 1. cbn [files set_files set_environ].
  rewrite lookup_insert_eq. cbn [doc_config doc_tools].
  unfold config_from_dict. cbn [config_to_dict doc_log_level doc_env_vars].
  rewrite (bind_ok _ _ _ _ _ (StackConfig_init_ok _ _ _ Hlog Hx)).
  unfold MCPStackCore_init. unfold bind at 1 2. simpl.
  match goal with |- context [bind (load_tools _ _ ?i _) _ ?w0] =>
    destruct (load_tools_spec _ _ Hre w0 i
                {| config := length (configs w); tools := []; mcp := None; _built := false |})
      as (new & w' & Hload & Hnew & Hold & Hcf & Hf & He & Hr & Ht);
      [simpl; apply lookup_snoc_new|reflexivity|]
  end.
  simpl in *. unfold bind at 1. rewrite Hload.
  assert (Hpl : ∃ w2, (_post_load_stack new;;; update_stack new (set_built true);;; ret new) w' =
                      (Ok new, w2) ∧
                      stacks w2 = <[new := {| config := length (configs w); tools := reloaded;
                                              mcp := None; _built := true |}]> (stacks w') ∧
                      configs w2 = configs w' ∧
                      trace w2 = trace w' ++ post_load_events reloaded ∧
                      environ w2 = environ w').
  { unfold _post_load_stack.
    assert (Hlt' : new < length (stacks w')) by (by eapply lookup_lt_Some).
    eexists. split.
    - rewrite bind_assoc. rewrite (bind_ok _ _ _ _ _ (get_stack_ok _ _ _ Hnew)).
      simpl. rewrite bind_assoc. erewrite bind_ok by (by apply post_load_loop_spec).
      rewrite bind_assoc. erewrite bind_ok by (apply get_stack_ok; simpl; exact Hnew).
      simpl. rewrite bind_assoc. unfold ret at 1, bind at 1.
      erewrite bind_ok by (apply update_stack_ok; simpl; exact Hnew).
      erewrite bind_ok
        by (apply update_stack_ok; simpl; by apply list_lookup_insert_eq).
      reflexivity.
    - simpl. by rewrite list_insert_insert_eq. }
  destruct Hpl as (w2 & Hrun & Hst2 & Hcf2 & Ht2 & He2).
  exists new, w2, {| config := length (configs w); tools := reloaded;
                     mcp := None; _built := true |}.
  assert (Hlt' : new < length (stacks w')) by (by eapply lookup_lt_Some).
  split; [exact Hrun|]. split; [by rewrite He2, He|].
  rewrite Hst2. split; [by apply list_lookup_insert_eq|]. simpl.
  split; [done|]. split; [done|].
  split; [by rewrite <- (length_fmap class_name), Hcls, length_fmap|].
  split.
  { change (λ t : BaseTool, to_snake_case (class_name t))
      with (to_snake_case ∘ class_name).
    by rewrite !list_fmap_compose, Hcls. }
  split; [done|].
  split.
  { rewrite Hcf2, Hcf. rewrite lookup_snoc_new. by destruct cfg. }
  split; [by rewrite Ht2, Ht|].
  assert (new ≠ self).
  { intros ->. rewrite Hold in Hnew by (rewrite length_app; lia).
    rewrite (lookup_snoc_old _ _ _ _ Hs) in Hnew. injection Hnew as Heq.
    rewrite Heq in Hb. discriminate. }
  rewrite list_lookup_insert_ne by done. rewrite Hold by (rewrite length_app; lia).
  by apply lookup_snoc_old.
Qed.

(** *** [with_config] *)

(** [with_config] returns a new pipeline on the configuration passed, with
    the receiver's tools and runtime handle and with the flag cleared, also
    when the receiver was built. The configuration is taken as it is: nothing
    is constructed, no logging is set up, the environment is not written. The
    receiver and every other pipeline are as they were. *)
Theorem with_config_new_pipeline (w : World) (self c : loc) (s : MCPStackCore) :
  stacks w !! self = Some s →
  ∃ new w',
    with_config setup_logging self c w = (Ok new, w') ∧
    stacks w !! new = None ∧
    stacks w' !! new =
      Some {| config := c; tools := tools s; mcp := mcp s; _built := false |} ∧
    stacks w' !! self = Some s ∧
    (∀ l, l ≠ new → stacks w' !! l = stacks w !! l) ∧
    configs w' = configs w ∧ runtimes w' = runtimes w ∧
    environ w' = environ w ∧ trace w' = trace w.
Proof.
  intros Hs. exists (length (stacks w)). eexists. split.
  { unfold with_config. rewrite (bind_ok _ _ _ _ _ (get_stack_ok _ _ _ Hs)).
    apply new_pipeline. }
  simpl. split; [apply lookup_length_None|]. split; [apply lookup_snoc_new|].
  split; [by apply lookup_snoc_old|]. split; [|done].
  intros l Hl. by apply lookup_snoc_ne.
Qed.

(** *** [initialize] of one tool *)

Lemma backends_initialize_trace (tool : BaseTool) (bs : list (string * Backend)) (w : World) :
  for_each bs (fun nb =>
    match backend_initialize nb.2 with
    | None => ret tt
    | Some o => emit (EvBackendInitialize (class_name tool) nb.1) ;;; outcome o
    end) w =
  ((backends_initialize_run tool bs).1,
   set_trace (trace w ++ (backends_initialize_run tool bs).2) w).
Proof.
  revert w. induction bs as [|[name b] bs IH]; intros w.
  - simpl. unfold ret. by rewrite set_trace_nil.
  - cbn [for_each backends_initialize_run]. unfold bind at 1. simpl.
    destruct (backend_initialize b) as [[e|]|].
    + unfold bind at 1, emit. simpl. reflexivity.
    + unfold bind at 1, emit. simpl. rewrite IH.
      destruct (backends_initialize_run tool bs) as [r evs]. simpl.
      unfold set_trace; simpl. by rewrite <- app_assoc.
    + unfold ret. by rewrite IH.
Qed.

Lemma initialize_trace (tool : BaseTool) (w : World) :
  initialize tool w =
    ((initialize_run tool).1, set_trace (trace w ++ (initialize_run tool).2) w).
Proof.
  unfold initialize, initialize_run. destruct (backends tool) as [bs|].
  - unfold bind at 1. rewrite backends_initialize_trace.
    destruct (backends_initialize_run tool bs) as [[[]|e] evs]; simpl; [|done].
    unfold bind at 1, emit. simpl.
    destruct (_initialize tool); simpl; unfold raise, ret, set_trace; simpl;
      by rewrite <- app_assoc.
  - unfold raise. simpl. by rewrite set_trace_nil.
Qed.

Lemma backends_initialize_run_ok (tool : BaseTool) (bs : list (string * Backend)) :
  forallb backend_initialize_ok bs = true →
  backends_initialize_run tool bs = (Ok tt, backend_initialize_events tool bs).
Proof.
  induction bs as [|[name b] bs IH]; [done|]. simpl. unfold backend_initialize_ok at 1.
  unfold backend_initialize_events. simpl.
  intros [Hb Hall]%andb_true_iff.
  destruct (backend_initialize b) as [[e|]|]; [done| |]; rewrite (IH Hall); done.
Qed.

Lemma backends_initialize_run_raise (tool : BaseTool) (before after : list (string * Backend))
    (name : string) (b : Backend) (e : exn) :
  forallb backend_initialize_ok before = true →
  backend_initialize b = Some (Some e) →
  backends_initialize_run tool (before ++ (name, b) :: after) =
    (Raise e, backend_initialize_events tool before ++ [EvBackendInitialize (class_name tool) name]).
Proof.
  intros Hall Hb. induction before as [|[name0 b0] before IH].
  - simpl. by rewrite Hb.
  - simpl in Hall. apply andb_true_iff in Hall as [Hb0 Hall].
    unfold backend_initialize_ok in Hb0. simpl in *.
    unfold backend_initialize_events. simpl.
    destruct (backend_initialize b0) as [[e0|]|]; [done| |]; rewrite (IH Hall); done.
Qed.

Lemma initialize_run_ok (tool : BaseTool) :
  initialize_ok tool = true → initialize_run tool = (Ok tt, initialize_events tool).
Proof.
  unfold initialize_ok, initialize_run, initialize_events.
  destruct (backends tool) as [bs|]; [|done].
  destruct (_initialize tool); [done|]. intros Hall.
  by rewrite backends_initialize_run_ok.
Qed.

(** [initialize] is fail-fast: when a backend's [initialize] raises, after
    backends that returned, the tool's [initialize] raises that exception;
    the backends after it are not initialised and the tool's own hook is not
    called. [post_load] then raises the same, unless its own hook raised
    first, in which case no backend is touched at all. *)
Theorem initialize_fail_fast (tool : BaseTool) (before after : list (string * Backend))
    (name : string) (b : Backend) (e : exn) (w : World) :
  backends tool = Some (before ++ (name, b) :: after) →
  forallb backend_initialize_ok before = true →
  backend_initialize b = Some (Some e) →
  initialize tool w =
    (Raise e,
     set_trace (trace w ++ backend_initialize_events tool before ++
                [EvBackendInitialize (class_name tool) name]) w) ∧
  post_load tool w =
    match _post_load tool with
    | Some e' => (Raise e', set_trace (trace w ++ [EvPostLoad (class_name tool)]) w)
    | None =>
        (Raise e,
         set_trace (trace w ++ EvPostLoad (class_name tool) ::
                    backend_initialize_events tool before ++
                    [EvBackendInitialize (class_name tool) name]) w)
    end.
Proof.
  intros Hbs Hall Hb.
  assert (Hrun : initialize_run tool =
                 (Raise e, backend_initialize_events tool before ++
                           [EvBackendInitialize (class_name tool) name])).
  { unfold initialize_run. rewrite Hbs.
    by rewrite (backends_initialize_run_raise _ _ _ _ _ _ Hall Hb). }
  split.
  - by rewrite initialize_trace, Hrun.
  - unfold post_load. rewrite (bind_ok _ _ _ _ _ (emit_ok _ _)).
    destruct (_post_load tool) as [e'|]; simpl.
    + reflexivity.
    + rewrite (bind_ok _ _ _ _ _ (ret_ok _ _)). rewrite initialize_trace, Hrun. simpl.
      unfold set_trace; simpl. by rewrite <- app_assoc.
Qed.

(** *** [build] when every step returns, and when a tool fails *)

Lemma validate_ok (w : World) (self : loc) (s : MCPStackCore) (cfg : StackConfig) :
  stacks w !! self = Some s → tools s ≠ [] →
  configs w !! config s = Some cfg →
  _validate self w = (validate_for_tools cfg (environ w) (tools s), w).
Proof.
  intros Hs Hne Hc. unfold _validate.
  rewrite (bind_ok _ _ _ _ _ (get_stack_ok _ _ _ Hs)).
  destruct (tools s) as [|t l] eqn:Ht; [done|].
  by rewrite (bind_ok _ _ _ _ _ (get_config_ok _ _ _ Hc)).
Qed.

Lemma initialize_loop_ok (l : list BaseTool) (w : World) :
  Forall (fun t => initialize_ok t = true) l →
  for_each l initialize w = (Ok tt, set_trace (trace w ++ (l ≫= initialize_events)) w).
Proof.
  intros Hall. revert w. induction Hall as [|t l Hok Hall IH]; intros w.
  - simpl. unfold ret. by rewrite set_trace_nil.
  - cbn [for_each]. unfold bind at 1.
    rewrite initialize_trace, (initialize_run_ok _ Hok), IH. simpl.
    unfold set_trace; simpl. by rewrite <- app_assoc.
Qed.

Lemma initialize_loop_raise (before after : list BaseTool) (t : BaseTool) (e : exn)
    (evs : list Event) (w : World) :
  Forall (fun t => initialize_ok t = true) before →
  initialize_run t = (Raise e, evs) →
  for_each (before ++ t :: after) initialize w =
    (Raise e, set_trace (trace w ++ (before ≫= initialize_events) ++ evs) w).
Proof.
  intros Hall Ht. revert w. induction Hall as [|t0 l Hok Hall IH]; intros w.
  - cbn [app for_each]. unfold bind at 1. by rewrite initialize_trace, Ht.
  - cbn [app for_each]. unfold bind at 1.
    rewrite initialize_trace, (initialize_run_ok _ Hok), IH. simpl.
    unfold set_trace; simpl. by rewrite <- !app_assoc.
Qed.

(** The registration loop on a pipeline that has a runtime: the actions are
    appended, in order, to what the runtime has registered. *)
Lemma register_loop_spec (self m : loc) (s : MCPStackCore) (l : list string) :
  mcp s = Some m →
  ∀ (w : World) (r : FastMCP),
    stacks w !! self = Some s → runtimes w !! m = Some r →
    for_each l (fun action =>
      let! s := get_stack self in
      match mcp s with
      | None => raise (PyException "AttributeError" "'NoneType' object has no attribute 'tool'")
      | Some m => register m action
      end) w =
    (Ok tt,
     set_runtimes (<[m := {| mcp_name := mcp_name r; registered := registered r ++ l |}]>
                     (runtimes w)) w).
Proof.
  intros Hm. induction l as [|a l IH]; intros w r Hs Hr.
  - simpl. unfold ret. rewrite app_nil_r. f_equal.
    destruct w, r; unfold set_runtimes; simpl in *. f_equal. by rewrite list_insert_id.
  - cbn [for_each]. unfold bind at 1.
    rewrite (bind_ok _ _ _ _ _ (get_stack_ok _ _ _ Hs)). rewrite Hm.
    unfold register. rewrite (bind_ok _ _ _ _ _ (get_runtime_ok _ _ _ Hr)).
    assert (Hlt : m < length (runtimes w)) by (by eapply lookup_lt_Some).
    erewrite IH; [|exact Hs|simpl; by apply list_lookup_insert_eq].
    simpl. unfold set_runtimes; simpl.
    by rewrite list_insert_insert_eq, <- app_assoc.
Qed.

Lemma register_actions_spec (w : World) (self m : loc) (s : MCPStackCore) (r : FastMCP) :
  stacks w !! self = Some s → mcp s = Some m → runtimes w !! m = Some r →
  _register_actions self w =
    (Ok tt,
     set_runtimes (<[m := {| mcp_name := mcp_name r;
                             registered := registered r ++ (tools s ≫= actions) |}]>
                     (runtimes w)) w).
Proof.
  intros Hs Hm Hr. unfold _register_actions.
  rewrite (bind_ok _ _ _ _ _ (get_stack_ok _ _ _ Hs)).
  by apply (register_loop_spec self m s).
Qed.

(** The world after [_initialize_mcp]: as before when the pipeline has a
    runtime, else with a new runtime named mcpstack attached to it. *)
Lemma initialize_mcp_ok (w : World) (self : loc) (s : MCPStackCore) :
  stacks w !! self = Some s →
  (∀ m, mcp s = Some m → is_Some (runtimes w !! m)) →
  ∃ w1 m r,
    _initialize_mcp self w = (Ok tt, w1) ∧
    stacks w1 = <[self := set_mcp (Some m) s]> (stacks w) ∧
    runtimes w1 !! m = Some r ∧
    (mcp s = None →
       m = length (runtimes w) ∧ r = {| mcp_name := "mcpstack"; registered := [] |} ∧
       runtimes w1 = runtimes w ++ [r]) ∧
    (∀ m0, mcp s = Some m0 → m = m0 ∧ runtimes w1 = runtimes w) ∧
    configs w1 = configs w ∧ files w1 = files w ∧ environ w1 = environ w ∧
    trace w1 = trace w.
Proof.
  intros Hs Hrt. rewrite (initialize_mcp_spec _ _ _ Hs).
  destruct (mcp s) as [m0|] eqn:Hm.
  - destruct (Hrt m0 eq_refl) as [r Hr]. exists w, m0, r.
    split; [done|]. split.
    { rewrite list_insert_id; [done|]. rewrite Hs. f_equal. destruct s; simpl in *. by subst. }
    split; [done|]. split; [done|]. split; [|done]. by intros ? [= <-].
  - eexists _, (length (runtimes w)), _. split; [reflexivity|]. simpl.
    split; [done|]. split; [apply lookup_snoc_new|]. split; [done|]. split; [|done].
    intros ? [=].
Qed.

Lemma initialize_tools_spec (w : World) (self : loc) (s : MCPStackCore) :
  stacks w !! self = Some s →
  _initialize_tools self w = for_each (tools s) initialize w.
Proof.
  intros Hs. unfold _initialize_tools.
  by rewrite (bind_ok _ _ _ _ _ (get_stack_ok _ _ _ Hs)).
Qed.

Lemma build_steps_ok (w : World) (self : loc) (s : MCPStackCore) (cfg : StackConfig) :
  stacks w !! self = Some s → tools s ≠ [] →
  configs w !! config s = Some cfg →
  validate_for_tools cfg (environ w) (tools s) = Ok tt →
  Forall (fun t => initialize_ok t = true) (tools s) →
  (∀ m, mcp s = Some m → is_Some (runtimes w !! m)) →
  ∃ w1 m r,
    (build_steps self ;;; update_stack self (set_built true)) w = (Ok tt, w1) ∧
    stacks w1 = <[self := set_built true (set_mcp (Some m) s)]> (stacks w) ∧
    runtimes w1 !! m =
      Some {| mcp_name := mcp_name r; registered := registered r ++ (tools s ≫= actions) |} ∧
    (∀ l, l ≠ m → l < length (runtimes w) → runtimes w1 !! l = runtimes w !! l) ∧
    (mcp s = None →
       m = length (runtimes w) ∧ r = {| mcp_name := "mcpstack"; registered := [] |} ∧
       runtimes w1 =
         runtimes w ++ [{| mcp_name := "mcpstack"; registered := tools s ≫= actions |}]) ∧
    (∀ m0, mcp s = Some m0 →
       m = m0 ∧ runtimes w !! m0 = Some r ∧
       runtimes w1 =
         <[m0 := {| mcp_name := mcp_name r;
                    registered := registered r ++ (tools s ≫= actions) |}]> (runtimes w)) ∧
    configs w1 = configs w ∧ files w1 = files w ∧ environ w1 = environ w ∧
    trace w1 = trace w ++ (tools s ≫= initialize_events).
Proof.
  intros Hs Hne Hc Hval Hinit Hrt.
  destruct (initialize_mcp_ok _ _ _ Hs Hrt)
    as (w1 & m & r & Hmcp & Hst1 & Hr1 & Hnone & Hsome & Hc1 & Hf1 & He1 & Ht1).
  assert (Hlt : self < length (stacks w)) by (by eapply lookup_lt_Some).
  assert (Hs1 : stacks w1 !! self = Some (set_mcp (Some m) s)).
  { rewrite Hst1. by apply list_lookup_insert_eq. }
  assert (Hlt1 : m < length (runtimes w1)) by (by eapply lookup_lt_Some).
  eexists _, m, r. split.
  { pose proof (validate_ok _ _ _ _ Hs Hne Hc) as Hv. rewrite Hval in Hv.
    unfold build_steps. rewrite bind_assoc. rewrite (bind_ok _ _ _ _ _ Hv).
    rewrite bind_assoc. rewrite (bind_ok _ _ _ _ _ Hmcp).
    assert (Hit : _initialize_tools self w1 =
                  (Ok tt, set_trace (trace w1 ++ (tools s ≫= initialize_events)) w1)).
    { rewrite (initialize_tools_spec _ _ _ Hs1). by apply initialize_loop_ok. }
    rewrite bind_assoc. rewrite (bind_ok _ _ _ _ _ Hit).
    erewrite bind_ok; [|apply (register_actions_spec _ self m (set_mcp (Some m) s) r);
                        simpl; done].
    simpl. apply update_stack_ok. simpl. exact Hs1. }
  simpl. rewrite Hst1. split; [by rewrite list_insert_insert_eq|].
  split; [by apply list_lookup_insert_eq|].
  split.
  { intros l Hl Hlen. rewrite list_lookup_insert_ne by done.
    destruct (mcp s) as [m0|] eqn:Hm.
    - destruct (Hsome m0 eq_refl) as [_ ->]. done.
    - destruct (Hnone eq_refl) as (_ & _ & ->). by rewrite lookup_app_l. }
  split.
  { intros Hm. destruct (Hnone Hm) as (-> & -> & ->).
    split; [done|]. split; [done|]. by rewrite insert_snoc_new. }
  split; [|by rewrite Hc1, Hf1, He1, Ht1].
  intros m0 Hm. destruct (Hsome m0 Hm) as [-> Hrw]. rewrite <- Hrw. done.
Qed.

(** When validation passes and every tool's [initialize] returns, [build]
    first gives the pipeline a runtime named mcpstack unless it has one, then
    initialises the tools in the order of the sequence, then registers their
    actions on the runtime in that order, after whatever the runtime had
    registered (so on a pipeline built before, every action is registered a
    second time), then sets the flag, and only then hands the pipeline to the
    generator of the requested format: [build] ends as the generator ends
    from that state. *)
Theorem build_initializes_then_registers (w : World) (self : loc) (s : MCPStackCore)
    (cfg : StackConfig) (type : string) (kwargs : build_kwargs) (g : Generator) :
  stacks w !! self = Some s → tools s ≠ [] →
  configs w !! config s = Some cfg →
  validate_for_tools cfg (environ w) (tools s) = Ok tt →
  Forall (fun t => initialize_ok t = true) (tools s) →
  (∀ m, mcp s = Some m → is_Some (runtimes w !! m)) →
  ALL_MCP_CONFIG_GENERATORS !! type = Some g →
  ∃ w1 m r,
    build extractOne ALL_MCP_CONFIG_GENERATORS self type kwargs w = generate g self kwargs w1 ∧
    stacks w1 = <[self := set_built true (set_mcp (Some m) s)]> (stacks w) ∧
    runtimes w1 !! m =
      Some {| mcp_name := mcp_name r; registered := registered r ++ (tools s ≫= actions) |} ∧
    (∀ l, l ≠ m → l < length (runtimes w) → runtimes w1 !! l = runtimes w !! l) ∧
    (mcp s = None →
       m = length (runtimes w) ∧ r = {| mcp_name := "mcpstack"; registered := [] |} ∧
       runtimes w1 =
         runtimes w ++ [{| mcp_name := "mcpstack"; registered := tools s ≫= actions |}]) ∧
    (∀ m0, mcp s = Some m0 →
       m = m0 ∧ runtimes w !! m0 = Some r ∧
       runtimes w1 =
         <[m0 := {| mcp_name := mcp_name r;
                    registered := registered r ++ (tools s ≫= actions) |}]> (runtimes w)) ∧
    configs w1 = configs w ∧ files w1 = files w ∧ environ w1 = environ w ∧
    trace w1 = trace w ++ (tools s ≫= initialize_events).
Proof.
  intros Hs Hne Hc Hval Hinit Hrt Hg.
  destruct (build_steps_ok _ _ _ _ Hs Hne Hc Hval Hinit Hrt) as (w1 & m & r & Hsteps & Hrest).
  exists w1, m, r. split; [|exact Hrest].
  rewrite build_assoc. rewrite <- bind_assoc. rewrite (bind_ok _ _ _ _ _ Hsteps).
  unfold _generate_config. by rewrite Hg.
Qed.

(** When validation passes and the [initialize] of a tool raises, after
    tools whose [initialize] returned, [build] raises that exception. The
    tools after it are not initialised, no action is registered and the flag
    is not set; a pipeline that had no runtime has nevertheless been given
    one, on which nothing is registered. *)
Theorem build_stops_at_failing_tool (w : World) (self : loc) (s : MCPStackCore)
    (cfg : StackConfig) (type : string) (kwargs : build_kwargs)
    (before after : list BaseTool) (t : BaseTool) (e : exn) (evs : list Event) :
  stacks w !! self = Some s → tools s = before ++ t :: after →
  configs w !! config s = Some cfg →
  validate_for_tools cfg (environ w) (tools s) = Ok tt →
  Forall (fun t => initialize_ok t = true) before →
  initialize_run t = (Raise e, evs) →
  build extractOne ALL_MCP_CONFIG_GENERATORS self type kwargs w =
    (Raise e,
     set_trace (trace w ++ (before ≫= initialize_events) ++ evs)
       match mcp s with
       | Some _ => w
       | None =>
           set_stacks (<[self := set_mcp (Some (length (runtimes w))) s]> (stacks w))
             (set_runtimes (runtimes w ++ [{| mcp_name := "mcpstack"; registered := [] |}]) w)
       end).
Proof.
  intros Hs Ht Hc Hval Hinit Hrun.
  assert (Hne : tools s ≠ []) by (rewrite Ht; by destruct before).
  assert (Hlt : self < length (stacks w)) by (by eapply lookup_lt_Some).
  pose proof (validate_ok _ _ _ _ Hs Hne Hc) as Hv. rewrite Hval in Hv.
  unfold build. rewrite (bind_ok _ _ _ _ _ Hv).
  unfold bind at 1. rewrite (initialize_mcp_spec _ _ _ Hs).
  destruct (mcp s) as [m|] eqn:Hm.
  - apply bind_raise. rewrite (initialize_tools_spec _ _ _ Hs), Ht.
    by apply initialize_loop_raise.
  - apply bind_raise. erewrite initialize_tools_spec
      by (simpl; by apply list_lookup_insert_eq).
    simpl. rewrite Ht. by rewrite (initialize_loop_raise _ _ _ _ _ _ Hinit Hrun).
Qed.

(** *** [load] of any document *)

(** The loop of [load] over entries the registry rebuilds: one [with_tool]
    each, then the loop goes on with the entries that are left. *)
Lemma load_tools_app (before rest : list ToolDoc) (ts : list BaseTool) :
  Forall2 (rebuilds ALL_TOOLS) before ts →
  ∀ (w : World) (instance : loc) (s0 : MCPStackCore),
    stacks w !! instance = Some s0 → _built s0 = false →
    ∃ new w',
      load_tools setup_logging ALL_TOOLS instance (before ++ rest) w =
        load_tools setup_logging ALL_TOOLS new rest w' ∧
      instance ≤ new ∧
      stacks w' !! new = Some {| config := config s0; tools := tools s0 ++ ts;
                                 mcp := mcp s0; _built := false |} ∧
      (∀ l, l < length (stacks w) → stacks w' !! l = stacks w !! l) ∧
      configs w' = configs w ∧ files w' = files w ∧ environ w' = environ w ∧
      runtimes w' = runtimes w ∧ trace w' = trace w.
Proof.
  induction 1 as [|d t before ts (cls & Hreg & Hfrom) _ IH]; intros w instance s0 Hs0 Hb0.
  - exists instance, w. simpl. split; [done|]. split; [done|]. rewrite app_nil_r.
    split; [|done]. rewrite Hs0. f_equal. destruct s0; simpl in *. by subst.
  - simpl. rewrite Hreg. unfold lift, bind at 1. rewrite Hfrom.
    rewrite (bind_ok _ _ _ _ _ (with_tool_spec _ _ _ t Hs0)).
    set (s1 := {| config := config s0; tools := tools s0 ++ [t];
                  mcp := mcp s0; _built := false |}).
    destruct (IH (set_stacks (stacks w ++ [s1]) w) (length (stacks w)) s1)
      as (new & w' & Hload & Hle & Hnew & Hold & Hc & Hf & He & Hr & Ht);
      [simpl; apply lookup_snoc_new|reflexivity|].
    assert (Hlt : instance < length (stacks w)) by (by eapply lookup_lt_Some).
    exists new, w'. split; [exact Hload|]. split; [lia|]. simpl in *.
    rewrite <- app_assoc in Hnew. split; [exact Hnew|].
    split; [|done]. intros l Hl. rewrite Hold by (rewrite length_app; lia).
    by rewrite lookup_app_l.
Qed.

(** [_post_load] of a pipeline that has no runtime, followed by the second
    assignment of the flag in [load]. *)
Lemma post_load_stack_spec (w : World) (new : loc) (s : MCPStackCore) :
  stacks w !! new = Some s → mcp s = None →
  Forall (fun tool => post_load_ok tool = true) (tools s) →
  (_post_load_stack new ;;; update_stack new (set_built true) ;;; ret new) w =
    (Ok new,
     set_stacks (<[new := set_built true s]> (stacks w))
       (set_trace (trace w ++ post_load_events (tools s)) w)).
Proof.
  intros Hs Hm Hpost. unfold _post_load_stack.
  assert (Hlt : new < length (stacks w)) by (by eapply lookup_lt_Some).
  rewrite bind_assoc. rewrite (bind_ok _ _ _ _ _ (get_stack_ok _ _ _ Hs)).
  rewrite bind_assoc. erewrite bind_ok by (by apply post_load_loop_spec).
  rewrite bind_assoc. erewrite bind_ok by (apply get_stack_ok; simpl; exact Hs).
  rewrite Hm. rewrite bind_assoc. unfold ret at 1, bind at 1.
  erewrite bind_ok by (apply update_stack_ok; simpl; exact Hs).
  erewrite bind_ok by (apply update_stack_ok; simpl; by apply list_lookup_insert_eq).
  unfold ret. simpl. unfold set_stacks; simpl. by rewrite list_insert_insert_eq.
Qed.

Lemma load_spec (w : World) (path : string) (data : PipelineDoc) (ts : list BaseTool) :
  files w !! path = Some data →
  setup_logging (default "INFO" (doc_log_level (doc_config data))) = None →
  exportable (default ∅ (doc_env_vars (doc_config data))) = true →
  Forall2 (rebuilds ALL_TOOLS) (default [] (doc_tools data)) ts →
  Forall (fun tool => post_load_ok tool = true) ts →
  ∃ new w',
    load setup_logging ALL_TOOLS path w = (Ok new, w') ∧
    length (stacks w) ≤ new ∧
    stacks w' !! new = Some {| config := length (configs w); tools := ts;
                               mcp := None; _built := true |} ∧
    (∀ l, l < length (stacks w) → stacks w' !! l = stacks w !! l) ∧
    configs w' = configs w ++
      [{| log_level := default "INFO" (doc_log_level (doc_config data));
          env_vars := default ∅ (doc_env_vars (doc_config data)) |}] ∧
    environ w' = default ∅ (doc_env_vars (doc_config data)) ∪ environ w ∧
    files w' = files w ∧ runtimes w' = runtimes w ∧
    trace w' = trace w ++ post_load_events ts.
Proof.
  intros Hfile Hlog Hx Hre Hpost.
  unfold load. unfold bind at 1. rewrite Hfile.
  unfold config_from_dict.
  assert (Hlvl : match doc_log_level (doc_config data) with Some l => l | None => "INFO" end =
                 default "INFO" (doc_log_level (doc_config data)))
    by (by destruct (doc_log_level (doc_config data))).
  assert (Henv : match doc_env_vars (doc_config data) with Some e => e | None => ∅ end =
                 default ∅ (doc_env_vars (doc_config data)))
    by (by destruct (doc_env_vars (doc_config data))).
  rewrite Hlvl, Henv. rewrite (bind_ok _ _ _ _ _ (StackConfig_init_ok _ _ _ Hlog Hx)).
  unfold MCPStackCore_init. unfold bind at 1 2. simpl.
  match goal with |- context [bind (load_tools _ _ ?i ?ds) _ ?w0] =>
    destruct (load_tools_app ds [] ts Hre w0 i
                {| config := length (configs w); tools := []; mcp := None; _built := false |})
      as (new & w' & Hload & Hle & Hnew & Hold & Hcf & Hf & He & Hr & Ht);
      [simpl; apply lookup_snoc_new|reflexivity|]
  end.
  rewrite app_nil_r in Hload. simpl in *.
  unfold bind at 1. rewrite Hload. simpl.
  rewrite (post_load_stack_spec _ _ _ Hnew eq_refl Hpost).
  assert (Hlt' : new < length (stacks w')) by (by eapply lookup_lt_Some).
  exists new. eexists. split; [reflexivity|]. simpl.
  split; [done|]. split; [by apply list_lookup_insert_eq|].
  split; [|by rewrite Hcf, He, Hf, Hr, Ht].
  intros l Hl. rewrite list_lookup_insert_ne by lia.
  rewrite Hold by (rewrite length_app; lia). by rewrite lookup_app_l.
Qed.

(** [load] of a document, saved by [save] or written by hand, whose level is
    accepted and whose overrides can all be set in the process environment.
    The level defaults to INFO and the overrides to none; the configuration
    is constructed anew, which exports its overrides to the process
    environment;
    the tools are rebuilt by the registry in the order of the document, a
    missing tools entry giving none; every tool's [post_load] runs, in order.
    The pipeline returned has the flag set and no runtime: nothing is
    registered, no variable is validated, and a document without tools loads
    as well. Pipelines that existed are as they were. *)
Theorem load_builds_from_document (w : World) (path : string) (data : PipelineDoc)
    (ts : list BaseTool) :
  files w !! path = Some data →
  setup_logging (default "INFO" (doc_log_level (doc_config data))) = None →
  exportable (default ∅ (doc_env_vars (doc_config data))) = true →
  Forall2 (rebuilds ALL_TOOLS) (default [] (doc_tools data)) ts →
  Forall (fun tool => post_load_ok tool = true) ts →
  ∃ new w',
    load setup_logging ALL_TOOLS path w = (Ok new, w') ∧
    length (stacks w) ≤ new ∧
    stacks w' !! new = Some {| config := length (configs w); tools := ts;
                               mcp := None; _built := true |} ∧
    (∀ l, l < length (stacks w) → stacks w' !! l = stacks w !! l) ∧
    configs w' = configs w ++
      [{| log_level := default "INFO" (doc_log_level (doc_config data));
          env_vars := default ∅ (doc_env_vars (doc_config data)) |}] ∧
    environ w' = default ∅ (doc_env_vars (doc_config data)) ∪ environ w ∧
    files w' = files w ∧ runtimes w' = runtimes w ∧
    trace w' = trace w ++ post_load_events ts ∧
    stacks w !! new = None ∧
    (∀ other k v d r,
       default ∅ (doc_env_vars (doc_config data)) !! k = Some v →
       env_vars other !! k = None →
       get_env_var other (environ w') k d r = Ok (PyStr v)).
Proof.
  intros Hfile Hlog Hx Hre Hpost.
  destruct (load_spec _ _ _ _ Hfile Hlog Hx Hre Hpost)
    as (new & w' & Hload & Hge & Hnew & Hold & Hcf & He & Hf & Hr & Ht).
  exists new, w'.
  refine (conj Hload (conj Hge (conj Hnew (conj Hold (conj Hcf (conj He (conj Hf
           (conj Hr (conj Ht (conj _ _)))))))))).
  - by apply lookup_ge_None_2.
  - intros other k v d r Hk Ho. unfold get_env_var, os_getenv.
    rewrite Ho, He, (lookup_union_Some_l _ _ _ _ Hk). simpl. by rewrite py_or_str.
Qed.

(** A loaded pipeline passes the flag check of [run] and fails the next one:
    when [load] returns (the level is accepted, the overrides can be set in
    the process environment, the tools are rebuilt and their [post_load]
    returns), [run] right after it raises the InitializationError, not the
    BuildError, and serves nothing. [save] of the loaded pipeline
    succeeds. *)
Theorem load_then_run_not_initialized (w : World) (path : string) (data : PipelineDoc)
    (ts : list BaseTool) :
  files w !! path = Some data →
  setup_logging (default "INFO" (doc_log_level (doc_config data))) = None →
  exportable (default ∅ (doc_env_vars (doc_config data))) = true →
  Forall2 (rebuilds ALL_TOOLS) (default [] (doc_tools data)) ts →
  Forall (fun tool => post_load_ok tool = true) ts →
  ∃ new w',
    load setup_logging ALL_TOOLS path w = (Ok new, w') ∧
    run mcp_run new w' =
      (Raise (MCPStackError MCPStackInitializationError "MCP not initialized" None), w') ∧
    trace w' = trace w ++ post_load_events ts ∧
    ∀ path', is_ok (save new path' w').1 = true.
Proof.
  intros Hfile Hlog Hx Hre Hpost.
  destruct (load_spec _ _ _ _ Hfile Hlog Hx Hre Hpost)
    as (new & w' & Hload & Hge & Hnew & Hold & Hcf & He & Hf & Hr & Ht).
  exists new, w'. split; [exact Hload|]. split.
  { unfold run. by rewrite (bind_ok _ _ _ _ _ (get_stack_ok _ _ _ Hnew)). }
  split; [exact Ht|]. intros path'.
  erewrite save_spec; [done|exact Hnew|done|].
  simpl. rewrite Hcf. apply lookup_snoc_new.
Qed.

(** On a document whose level is accepted and whose overrides can all be
    set in the process environment, [load] stops at the first entry whose
    type is not registered, with the ValidationError naming it. By then the
    configuration has been constructed, so its overrides are in the process
    environment; no [post_load] hook has run, not even of the tools rebuilt
    before the entry. *)
Theorem load_unknown_tool_type (w : World) (path : string) (data : PipelineDoc)
    (before after : list ToolDoc) (d : ToolDoc) (ts : list BaseTool) :
  files w !! path = Some data →
  setup_logging (default "INFO" (doc_log_level (doc_config data))) = None →
  exportable (default ∅ (doc_env_vars (doc_config data))) = true →
  doc_tools data = Some (before ++ d :: after) →
  Forall2 (rebuilds ALL_TOOLS) before ts →
  ALL_TOOLS !! type d = None →
  ∃ w',
    load setup_logging ALL_TOOLS path w =
      (Raise (MCPStackError MCPStackValidationError ("Unknown tool type: " +:+ type d) None),
       w') ∧
    trace w' = trace w ∧
    environ w' = default ∅ (doc_env_vars (doc_config data)) ∪ environ w ∧
    files w' = files w ∧ runtimes w' = runtimes w ∧
    (∀ l, l < length (stacks w) → stacks w' !! l = stacks w !! l).
Proof.
  intros Hfile Hlog Hx Hdocs Hre Hreg.
  unfold load. unfold bind at 1. rewrite Hfile.
  unfold config_from_dict.
  assert (Hlvl : match doc_log_level (doc_config data) with Some l => l | None => "INFO" end =
                 default "INFO" (doc_log_level (doc_config data)))
    by (by destruct (doc_log_level (doc_config data))).
  assert (Henv : match doc_env_vars (doc_config data) with Some e => e | None => ∅ end =
                 default ∅ (doc_env_vars (doc_config data)))
    by (by destruct (doc_env_vars (doc_config data))).
  rewrite Hlvl, Henv, Hdocs.
  rewrite (bind_ok _ _ _ _ _ (StackConfig_init_ok _ _ _ Hlog Hx)).
  unfold MCPStackCore_init. unfold bind at 1 2. simpl.
  match goal with |- context [bind (load_tools _ _ ?i _) _ ?w0] =>
    destruct (load_tools_app before (d :: after) ts Hre w0 i
                {| config := length (configs w); tools := []; mcp := None; _built := false |})
      as (new & w' & Hload & Hle & Hnew & Hold & Hcf & Hf & He & Hr & Ht);
      [simpl; apply lookup_snoc_new|reflexivity|]
  end.
  simpl in *. rewrite Hreg in Hload.
  exists w'. split; [by apply bind_raise|]. rewrite Ht, He, Hf, Hr.
  split; [done|]. split; [done|]. split; [done|]. split; [done|].
  intros l Hl. rewrite Hold by (rewrite length_app; lia). by rewrite lookup_app_l.
Qed.

(** [load] fails with nothing changed when the file does not exist
    (FileNotFoundError) and when the logging setup rejects the document's
    level (ConfigError with the rejection as details): then no override
    reaches the environment and no tool entry is looked at. *)
Theorem load_fails_unchanged (w : World) (path : string) :
  (files w !! path = None →
   load setup_logging ALL_TOOLS path w =
     (Raise (PyException "FileNotFoundError" ("Config not found: " +:+ path)), w)) ∧
  (∀ data details,
     files w !! path = Some data →
     setup_logging (default "INFO" (doc_log_level (doc_config data))) = Some details →
     load setup_logging ALL_TOOLS path w =
       (Raise (MCPStackError MCPStackConfigError "Invalid log level" (Some details)), w)).
Proof.
  split.
  - intros Hfile. unfold load, bind at 1. by rewrite Hfile.
  - intros data details Hfile Hlog. unfold load, bind at 1. rewrite Hfile.
    apply bind_raise. unfold config_from_dict, StackConfig_init.
    destruct (doc_log_level (doc_config data)); simpl in Hlog; by rewrite Hlog.
Qed.

(** *** The server entry point *)

Lemma post_load_ok_initialize_ok (tool : BaseTool) :
  post_load_ok tool = true → initialize_ok tool = true.
Proof.
  unfold post_load_ok, initialize_ok.
  destruct (_post_load tool); [done|]. destruct (backends tool); [|done].
  by destruct (_initialize tool).
Qed.

(** [main], the entry point of the server process, on a document that loads
    (its level is accepted, its overrides can be set in the process
    environment, its tools are rebuilt and their [post_load] returns): it
    reads the path from MCPSTACK_CONFIG_PATH, loads the document, builds
    the loaded pipeline for the format fastmcp with no other argument, and
    runs it. Every tool is initialised twice, once by its [post_load] and once
    by [build]; the variables the tools require are validated against the
    document's overrides and the process environment; the actions are
    registered once, on a new runtime. With no generator registered under
    fastmcp the server is never started. With a generator that returns and
    changes nothing, the server is started and, whatever the serve call does,
    the backends are torn down. *)
Theorem main_loads_builds_runs (w : World) (path : string) (data : PipelineDoc)
    (ts : list BaseTool) :
  setup_logging (default "INFO" (environ w !! "MCPSTACK_LOG_LEVEL")) = None →
  environ w !! "MCPSTACK_CONFIG_PATH" = Some path → path ≠ "" →
  files w !! path = Some data →
  setup_logging (default "INFO" (doc_log_level (doc_config data))) = None →
  exportable (default ∅ (doc_env_vars (doc_config data))) = true →
  Forall2 (rebuilds ALL_TOOLS) (default [] (doc_tools data)) ts →
  Forall (fun tool => post_load_ok tool = true) ts →
  ts ≠ [] →
  validate_for_tools
    {| log_level := default "INFO" (doc_log_level (doc_config data));
       env_vars := default ∅ (doc_env_vars (doc_config data)) |}
    (default ∅ (doc_env_vars (doc_config data)) ∪ environ w) ts = Ok tt →
  ∃ new w1,
    main setup_logging extractOne mcp_run ALL_TOOLS ALL_MCP_CONFIG_GENERATORS w =
      (_generate_config extractOne ALL_MCP_CONFIG_GENERATORS new "fastmcp" build_defaults ;;;
       run mcp_run new) w1 ∧
    stacks w1 !! new = Some {| config := length (configs w); tools := ts;
                               mcp := Some (length (runtimes w)); _built := true |} ∧
    runtimes w1 = runtimes w ++ [{| mcp_name := "mcpstack"; registered := ts ≫= actions |}] ∧
    trace w1 = trace w ++ post_load_events ts ++ (ts ≫= initialize_events) ∧
    configs w1 = configs w ++
      [{| log_level := default "INFO" (doc_log_level (doc_config data));
          env_vars := default ∅ (doc_env_vars (doc_config data)) |}] ∧
    environ w1 = default ∅ (doc_env_vars (doc_config data)) ∪ environ w ∧
    files w1 = files w ∧
    (ALL_MCP_CONFIG_GENERATORS !! "fastmcp" = None →
     main setup_logging extractOne mcp_run ALL_TOOLS ALL_MCP_CONFIG_GENERATORS w = (Raise (UnknownConfigType extractOne ALL_MCP_CONFIG_GENERATORS "fastmcp"), w1)) ∧
    (∀ out,
       _generate_config extractOne ALL_MCP_CONFIG_GENERATORS new "fastmcp" build_defaults w1 =
         (Ok out, w1) →
       main setup_logging extractOne mcp_run ALL_TOOLS ALL_MCP_CONFIG_GENERATORS w =
         (result_of (mcp_run {| mcp_name := "mcpstack"; registered := ts ≫= actions |}),
          set_trace (trace w ++ post_load_events ts ++ (ts ≫= initialize_events) ++
                     EvServe (length (runtimes w)) :: teardown_events ts) w1)).
Proof.
  intros Hlvl Hpath Hne Hfile Hlog Hx Hre Hpost Hts Hval.
  destruct (load_spec _ _ _ _ Hfile Hlog Hx Hre Hpost)
    as (new & w' & Hload & Hge & Hnew & Hold & Hcf & He & Hf & Hr & Ht).
  set (s := {| config := length (configs w); tools := ts; mcp := None; _built := true |}) in *.
  destruct (build_steps_ok w' new s
              {| log_level := default "INFO" (doc_log_level (doc_config data));
                 env_vars := default ∅ (doc_env_vars (doc_config data)) |} Hnew Hts) as
    (w1 & m & r & Hsteps & Hst1 & Hr1 & Hrold & Hnone & _ & Hc1 & Hf1 & He1 & Ht1).
  { simpl. rewrite Hcf. apply lookup_snoc_new. }
  { simpl. by rewrite He. }
  { simpl. eapply Forall_impl; [exact Hpost|]. apply post_load_ok_initialize_ok. }
  { intros ? [=]. }
  destruct (Hnone eq_refl) as (-> & -> & Hrt1). simpl in *.
  assert (Hlt : new < length (stacks w')) by (by eapply lookup_lt_Some).
  assert (Hmain : main setup_logging extractOne mcp_run ALL_TOOLS ALL_MCP_CONFIG_GENERATORS w =
    (_generate_config extractOne ALL_MCP_CONFIG_GENERATORS new "fastmcp" build_defaults ;;;
     run mcp_run new) w1).
  { unfold main, getenv_default, getenv. unfold bind at 1.
    unfold default in Hlvl. simpl in Hlvl. rewrite Hlvl.
    unfold bind at 1. rewrite Hpath.
    destruct (String.eqb_spec path ""); [done|].
    rewrite (bind_ok _ _ _ _ _ Hload).
    unfold bind at 1. rewrite build_assoc. rewrite <- bind_assoc.
    rewrite (bind_ok _ _ _ _ _ Hsteps). reflexivity. }

  assert (Hs1 : stacks w1 !! new = Some {| config := length (configs w); tools := ts;
                  mcp := Some (length (runtimes w)); _built := true |}).
  { rewrite Hst1, Hr. by apply list_lookup_insert_eq. }
  exists new, w1. split; [exact Hmain|]. split; [exact Hs1|].
  split; [by rewrite Hrt1, Hr|]. split; [by rewrite Ht1, Ht, <- app_assoc|].
  split; [by rewrite Hc1|]. split; [by rewrite He1|]. split; [by rewrite Hf1|].
  split.
  - intros Hg. rewrite Hmain. apply bind_raise. unfold _generate_config. by rewrite Hg.
  - intros out Hout. rewrite Hmain. rewrite (bind_ok _ _ _ _ _ Hout).
    erewrite run_spec; [|exact Hs1|done|done|simpl; by rewrite Hr in Hr1].
    simpl. rewrite Ht1, Ht. unfold set_trace; simpl. by rewrite <- !app_assoc.
Qed.

(** *** The configuration: construction, round trip, merging *)

Lemma forallb_Permutation {A} (f : A → bool) (l1 l2 : list A) :
  l1 ≡ₚ l2 → forallb f l1 = forallb f l2.
Proof.
  induction 1 as [|x l1 l2 _ IH|x y l|l1 l2 l3 _ IH1 _ IH2]; simpl.
  - done.
  - by rewrite IH.
  - by rewrite !andb_assoc, (andb_comm (f y)).
  - by rewrite IH1.
Qed.

(** The loop of [_apply_config] over the items of the overrides, in whatever
    order the dictionary has them. *)
Lemma export_env_any_order (env : gmap string string) (items : list (string * string))
    (w : World) :
  items ≡ₚ map_to_list env →
  if exportable env then
    export_env items w = (Ok tt, set_environ (env ∪ environ w) w)
  else
    ∃ e (written : gmap string string),
      export_env items w = (Raise e, set_environ (written ∪ environ w) w) ∧
      (∃ k v, env !! k = Some v ∧ putenv_error k v = Some e) ∧
      written ⊆ env ∧ exportable written = true.
Proof.
  intros Hperm.
  assert (Hnd : NoDup items.*1).
  { rewrite Hperm. apply NoDup_fst_map_to_list. }
  assert (Hin : ∀ k v, (k, v) ∈ items → env !! k = Some v).
  { intros k v Hkv. apply elem_of_map_to_list. by rewrite <- Hperm. }
  unfold exportable. rewrite <- (forallb_Permutation _ _ _ Hperm).
  destruct (forallb _ items) eqn:Hx.
  - rewrite (export_env_ok _ _ Hx Hnd). do 2 f_equal.
    rewrite (list_to_map_proper _ _ Hnd Hperm). by rewrite list_to_map_to_list.
  - destruct (export_env_raise _ w Hx Hnd)
      as (e & done_ & k & v & rest & Hitems & Hdone & He & Hrun).
    exists e, (list_to_map done_). split; [exact Hrun|]. split.
    { exists k, v. split; [|done]. apply Hin. rewrite Hitems.
      apply elem_of_app. right. left. }
    split.
    { apply map_subseteq_spec. intros k' v' Hk'. apply Hin. rewrite Hitems.
      apply elem_of_app. left. by apply elem_of_list_to_map_2. }
    apply exportable_spec. intros k' v' Hk'. apply elem_of_list_to_map_2 in Hk'.
    rewrite forallb_forall in Hdone. specialize (Hdone (k', v')).
    rewrite bool_decide_eq_true in Hdone. apply Hdone. by apply list_elem_of_In.
Qed.

(** Constructing a configuration copies its overrides into the process
    environment, entry by entry, over what was there. When every entry can be
    set, each override is afterwards what the environment holds, so every
    other configuration that has no override of its own for the key resolves
    it to that value, whatever default it is asked with; keys without an
    override are untouched. When some entry cannot be set (a name that is
    empty or holds '=', a NUL character in the name or the value) the
    constructor raises what [os.environ] raises for one such entry, no
    configuration exists, and the environment has gained some of the
    overrides that can be set and nothing else. When the logging setup
    rejects the level the constructor raises the ConfigError, and then
    nothing has been written and no configuration exists. What the copying
    loop leaves is of this kind in whatever order the dictionary has its
    items. *)
Theorem StackConfig_init_exports (w : World) (level : string) (env : gmap string string) :
  match setup_logging level with
  | Some details =>
      StackConfig_init setup_logging level (Some env) w =
        (Raise (MCPStackError MCPStackConfigError "Invalid log level" (Some details)), w)
  | None =>
      if exportable env then
        ∃ w',
          StackConfig_init setup_logging level (Some env) w = (Ok (length (configs w)), w') ∧
          configs w' = configs w ++ [{| log_level := level; env_vars := env |}] ∧
          (∀ k v, env !! k = Some v → environ w' !! k = Some v) ∧
          (∀ k, env !! k = None → environ w' !! k = environ w !! k) ∧
          (∀ other k v d r, env !! k = Some v → env_vars other !! k = None →
             get_env_var other (environ w') k d r = Ok (PyStr v)) ∧
          stacks w' = stacks w ∧ files w' = files w ∧ runtimes w' = runtimes w ∧
          trace w' = trace w
      else
        ∃ e w' (written : gmap string string),
          StackConfig_init setup_logging level (Some env) w = (Raise e, w') ∧
          (∃ k v, env !! k = Some v ∧ putenv_error k v = Some e) ∧
          written ⊆ env ∧ exportable written = true ∧
          environ w' = written ∪ environ w ∧
          configs w' = configs w ∧
          stacks w' = stacks w ∧ files w' = files w ∧ runtimes w' = runtimes w ∧
          trace w' = trace w
  end ∧
  (∀ items, items ≡ₚ map_to_list env →
     if exportable env then
       export_env items w = (Ok tt, set_environ (env ∪ environ w) w)
     else
       ∃ e (written : gmap string string),
         export_env items w = (Raise e, set_environ (written ∪ environ w) w) ∧
         (∃ k v, env !! k = Some v ∧ putenv_error k v = Some e) ∧
         written ⊆ env ∧ exportable written = true).
Proof.
  split; [|intros items; apply export_env_any_order].
  destruct (setup_logging level) as [details|] eqn:Hlog.
  { unfold StackConfig_init. by rewrite Hlog. }
  pose proof (export_env_any_order env (map_to_list env) w (reflexivity _)) as Hrun.
  destruct (exportable env) eqn:Hx.
  - rewrite (StackConfig_init_ok _ _ _ Hlog Hx).
    eexists. split; [reflexivity|]. simpl. split; [done|].
    assert (Hin : ∀ k v, env !! k = Some v → (env ∪ environ w) !! k = Some v).
    { intros k v Hk. by apply lookup_union_Some_l. }
    split; [exact Hin|]. split; [intros k Hk; by apply lookup_union_r|].
    split; [|done]. intros other k v d r Hk Ho.
    unfold get_env_var, os_getenv. rewrite Ho, (Hin k v Hk). simpl. by rewrite py_or_str.
  - destruct Hrun as (e & written & Hrun & Hsrc & Hsub & Hok).
    exists e, (set_environ (written ∪ environ w) w), written.
    split; [|done].
    unfold StackConfig_init. rewrite Hlog. unfold bind. by rewrite Hrun.
Qed.

(** [from_dict] of [to_dict]: when the level is accepted and the overrides
    can all be set in the process environment (the constructor copies them
    there), the result is a new configuration object equal to the original,
    beside the configurations that existed, and the overrides are in the
    environment; a dictionary with neither key gives level INFO and no
    override. *)
Theorem config_dict_roundtrip (w : World) (cfg : StackConfig) :
  setup_logging (log_level cfg) = None →
  exportable (env_vars cfg) = true →
  ∃ c w',
    config_from_dict setup_logging (config_to_dict cfg) w = (Ok c, w') ∧
    environ w' = env_vars cfg ∪ environ w ∧
    configs w !! c = None ∧
    configs w' !! c = Some cfg ∧
    (∀ old, old ≠ c → configs w' !! old = configs w !! old) ∧
    config_from_dict setup_logging {| doc_log_level := None; doc_env_vars := None |} w =
      StackConfig_init setup_logging "INFO" (Some ∅) w.
Proof.
  intros Hlog Hx. exists (length (configs w)). eexists. split.
  { unfold config_from_dict, config_to_dict. cbn [doc_log_level doc_env_vars].
    apply (StackConfig_init_ok _ _ _ Hlog Hx). }
  simpl. split; [done|]. split; [apply lookup_length_None|].
  split; [rewrite lookup_snoc_new; by destruct cfg|].
  split; [|done]. intros old Hne. by apply lookup_snoc_ne.
Qed.

Lemma merge_env_frame (self self' : StackConfig) (new_env : list (string * string))
    (prefix x : string) (r : result unit) :
  merge_env self new_env prefix = (r, self') →
  (∀ key value, (key, value) ∈ new_env → prefixed prefix key ≠ x) →
  env_vars self' !! x = env_vars self !! x.
Proof.
  revert self. induction new_env as [|[k v] l IH]; intros self; simpl.
  - by intros [= <- <-].
  - intros Hm Hx.
    assert (Hk : prefixed prefix k ≠ x) by (apply (Hx k v), list_elem_of_here).
    assert (Hl : ∀ key value, (key, value) ∈ l → prefixed prefix key ≠ x).
    { intros key value Hin. apply (Hx key value). by apply list_elem_of_further. }
    assert (Hstep : merge_env (set_env_vars self (<[prefixed prefix k:=v]> (env_vars self)))
                      l prefix = (r, self') →
                    env_vars self' !! x = env_vars self !! x).
    { intros Hr. rewrite (IH _ Hr Hl). simpl. by rewrite lookup_insert_ne. }
    destruct (env_vars self !! prefixed prefix k) as [old|]; [|by apply Hstep].
    destruct (String.eqb old v); [by apply Hstep|]. by injection Hm as <- <-.
Qed.

Lemma merge_env_level (self self' : StackConfig) (new_env : list (string * string))
    (prefix : string) (r : result unit) :
  merge_env self new_env prefix = (r, self') → log_level self' = log_level self.
Proof.
  revert self. induction new_env as [|[k v] l IH]; intros self; simpl.
  - by intros [= <- <-].
  - intros Hm.
    destruct (env_vars self !! prefixed prefix k) as [old|]; [|by rewrite (IH _ Hm)].
    destruct (String.eqb old v); [by rewrite (IH _ Hm)|]. by injection Hm as <- <-.
Qed.

Lemma merge_env_grows (self self' : StackConfig) (new_env : list (string * string))
    (prefix : string) (r : result unit) :
  merge_env self new_env prefix = (r, self') → env_vars self ⊆ env_vars self'.
Proof.
  destruct r as [[]|e].
  - intros Hm. apply map_subseteq_spec. intros x y. by apply (merge_env_keeps _ _ _ _ _ _ Hm).
  - intros Hm.
    destruct (merge_env_raises _ _ _ _ _ Hm) as (before & _ & _ & _ & _ & _ & Hb & _).
    apply map_subseteq_spec. intros x y. by apply (merge_env_keeps _ _ _ _ _ _ Hb).
Qed.

(** [merge_env] only ever adds: whether it returns or raises, every override
    the configuration had it still has, with its value, and the level is
    untouched. When it returns, the overrides are those of the merged map
    under their prefixed keys together with the ones from before, and
    [get_env_var] then resolves every merged key to the merged value, whatever
    the process environment holds and whatever default is passed. *)
Theorem merge_env_union (self self' : StackConfig) (new_env : list (string * string))
    (prefix : string) (r : result unit) :
  merge_env self new_env prefix = (r, self') →
  env_vars self ⊆ env_vars self' ∧
  log_level self' = log_level self ∧
  (r = Ok tt →
   env_vars self' =
     (list_to_map (prod_map (prefixed prefix) id <$> new_env) : gmap string string) ∪
       env_vars self ∧
   ∀ key value environ d b, (key, value) ∈ new_env →
     get_env_var self' environ (prefixed prefix key) d b = Ok (PyStr value)).
Proof.
  intros Hm. split; [by eapply merge_env_grows|]. split; [by eapply merge_env_level|].
  intros ->. split.
  - apply map_eq. intros x.
    destruct ((list_to_map (prod_map (prefixed prefix) id <$> new_env) : gmap string string)
                !! x) as [v|] eqn:Hx.
    + rewrite (lookup_union_Some_l _ _ _ _ Hx).
      apply elem_of_list_to_map_2 in Hx.
      apply list_elem_of_fmap in Hx as ([key value] & [= -> ->] & Hin).
      by apply (merge_env_sets _ _ _ _ Hm).
    + rewrite (lookup_union_r _ _ _ Hx).
      apply (merge_env_frame _ _ _ _ _ _ Hm). intros key value Hin Heq.
      apply not_elem_of_list_to_map in Hx. apply Hx.
      apply list_elem_of_fmap. exists (x, value). split; [done|].
      apply list_elem_of_fmap. exists (key, value). split; [|done]. simpl. by rewrite Heq.
  - intros key value environ d b Hin. unfold get_env_var.
    rewrite (merge_env_sets _ _ _ _ Hm _ _ Hin). simpl. by rewrite py_or_str.
Qed.

(** *** [BaseTool.teardown] *)

(** A tool's own [teardown] calls the hook [_teardown] first: when the hook
    raises, the exception goes up and no backend is torn down. When it
    returns, every backend that has a [teardown] is torn down, in order, an
    exception from one stopping neither the others nor the call. For such a
    tool these are the calls [run] makes at shutdown, which calls no tool's
    hook. *)
Theorem tool_teardown_hook_first (tool : BaseTool) (w : World) :
  teardown tool w =
    match _teardown tool, backends tool with
    | Some e, _ => (Raise e, w)
    | None, None => (Raise (PyException "AttributeError" "backends"), w)
    | None, Some bs => (Ok tt, set_trace (trace w ++ backend_teardown_events tool bs) w)
    end ∧
  (∀ bs, backends tool = Some bs → teardown_events [tool] = backend_teardown_events tool bs).
Proof.
  split.
  - unfold teardown. destruct (_teardown tool) as [e|]; [done|].
    cbn [outcome]. rewrite (bind_ok _ _ _ _ _ (ret_ok _ _)).
    destruct (backends tool) as [bs|]; [|done]. apply teardown_backends_spec.
  - intros bs Hbs. unfold teardown_events. simpl. rewrite Hbs. by rewrite app_nil_r.
Qed.

(** *** Composition of the builder calls *)

(** Adding tools in two steps or in one gives pipelines of the same content:
    [with_tools] of a list and then of another yields what [with_tools] of
    the two lists joined yields, and [with_tool] is [with_tools] of a
    one-element list. The results are separate objects, and the receiver is
    unchanged throughout. *)
Theorem with_tools_composes (w : World) (self : loc) (s : MCPStackCore)
    (a b : list BaseTool) (t : BaseTool) :
  stacks w !! self = Some s →
  ∃ n1 w1 n2 w2 n3 w3 n4 w4 n5 w5,
    with_tools setup_logging self a w = (Ok n1, w1) ∧
    with_tools setup_logging n1 b w1 = (Ok n2, w2) ∧
    with_tools setup_logging self (a ++ b) w2 = (Ok n3, w3) ∧
    with_tool setup_logging self t w3 = (Ok n4, w4) ∧
    with_tools setup_logging self [t] w4 = (Ok n5, w5) ∧
    stacks w5 !! n2 = Some {| config := config s; tools := tools s ++ a ++ b;
                              mcp := mcp s; _built := false |} ∧
    stacks w5 !! n3 = stacks w5 !! n2 ∧ n3 ≠ n2 ∧
    stacks w5 !! n4 = Some {| config := config s; tools := tools s ++ [t];
                              mcp := mcp s; _built := false |} ∧
    stacks w5 !! n5 = stacks w5 !! n4 ∧ n5 ≠ n4 ∧
    stacks w5 !! self = Some s.
Proof.
  intros Hs.
  assert (Hlt : self < length (stacks w)) by (by eapply lookup_lt_Some).
  set (s1 := {| config := config s; tools := tools s ++ a; mcp := mcp s; _built := false |}).
  set (s2 := {| config := config s; tools := tools s ++ a ++ b; mcp := mcp s;
                _built := false |}).
  set (s4 := {| config := config s; tools := tools s ++ [t]; mcp := mcp s; _built := false |}).
  set (w1 := set_stacks (stacks w ++ [s1]) w).
  set (w2 := set_stacks (stacks w1 ++ [s2]) w1).
  set (w3 := set_stacks (stacks w2 ++ [s2]) w2).
  set (w4 := set_stacks (stacks w3 ++ [s4]) w3).
  set (w5 := set_stacks (stacks w4 ++ [s4]) w4).
  exists (length (stacks w)), w1, (length (stacks w1)), w2, (length (stacks w2)), w3,
    (length (stacks w3)), w4, (length (stacks w4)), w5.
  assert (Hs1 : stacks w1 !! self = Some s) by exact (lookup_snoc_old (stacks w) _ _ _ Hs).
  assert (Hs2 : stacks w2 !! self = Some s) by exact (lookup_snoc_old (stacks w1) _ _ _ Hs1).
  assert (Hs3 : stacks w3 !! self = Some s) by exact (lookup_snoc_old (stacks w2) _ _ _ Hs2).
  assert (Hs4 : stacks w4 !! self = Some s) by exact (lookup_snoc_old (stacks w3) _ _ _ Hs3).
  split; [by apply with_tools_spec|].
  split.
  { rewrite (with_tools_spec w1 (length (stacks w)) s1 b (lookup_snoc_new (stacks w) s1)).
    unfold w2, s2, s1. cbn [config tools mcp]. by rewrite <- (app_assoc (tools s) a b). }
  split; [by rewrite (with_tools_spec w2 self s (a ++ b) Hs2)|].
  split; [by rewrite (with_tool_spec w3 self s t Hs3)|].
  split; [by rewrite (with_tools_spec w4 self s [t] Hs4)|].
  assert (Hn2 : stacks w5 !! length (stacks w1) = Some s2).
  { apply (lookup_snoc_old (stacks w4)), (lookup_snoc_old (stacks w3)),
      (lookup_snoc_old (stacks w2)). exact (lookup_snoc_new (stacks w1) s2). }
  assert (Hn3 : stacks w5 !! length (stacks w2) = Some s2).
  { apply (lookup_snoc_old (stacks w4)), (lookup_snoc_old (stacks w3)).
    exact (lookup_snoc_new (stacks w2) s2). }
  assert (Hn4 : stacks w5 !! length (stacks w3) = Some s4).
  { apply (lookup_snoc_old (stacks w4)). exact (lookup_snoc_new (stacks w3) s4). }
  assert (Hn5 : stacks w5 !! length (stacks w4) = Some s4)
    by exact (lookup_snoc_new (stacks w4) s4).
  split; [exact Hn2|]. split; [by rewrite Hn3, Hn2|].
  split; [simpl; rewrite !length_app; simpl; lia|].
  split; [exact Hn4|]. split; [by rewrite Hn5, Hn4|].
  split; [simpl; rewrite !length_app; simpl; lia|].
  exact (lookup_snoc_old (stacks w4) _ _ _ Hs4).
Qed.

(** *** A configuration shared between pipelines *)

Lemma merge_env_at_spec (w : World) (c : loc) (cfg : StackConfig)
    (new_env : list (string * string)) (prefix : string) :
  configs w !! c = Some cfg →
  merge_env_at c new_env prefix w =
    ((merge_env cfg new_env prefix).1,
     set_configs (<[c := (merge_env cfg new_env prefix).2]> (configs w)) w).
Proof.
  intros Hc. unfold merge_env_at. rewrite (bind_ok _ _ _ _ _ (get_config_ok _ _ _ Hc)).
  by destruct (merge_env cfg new_env prefix).
Qed.

(** The pipeline [with_tool] returns holds the receiver's configuration
    object, not a copy: merging variables into the new pipeline's
    configuration changes what the receiver's configuration holds, and so
    what validation of the receiver reports, although the receiver itself is
    untouched. The same holds when the merge raises half way. *)
Theorem with_tool_shares_config (w : World) (self : loc) (s : MCPStackCore)
    (cfg : StackConfig) (tool : BaseTool) (new_env : list (string * string)) (prefix : string) :
  stacks w !! self = Some s →
  configs w !! config s = Some cfg →
  ∃ new w1 w2 s',
    with_tool setup_logging self tool w = (Ok new, w1) ∧
    stacks w1 !! new = Some s' ∧ new ≠ self ∧
    merge_env_at (config s') new_env prefix w1 = ((merge_env cfg new_env prefix).1, w2) ∧
    stacks w2 !! self = Some s ∧
    configs w2 !! config s = Some (merge_env cfg new_env prefix).2 ∧
    (∀ key value environ d b,
       (merge_env cfg new_env prefix).1 = Ok tt → (key, value) ∈ new_env →
       get_env_var (merge_env cfg new_env prefix).2 environ (prefixed prefix key) d b =
         Ok (PyStr value)).
Proof.
  intros Hs Hc.
  assert (Hlt : self < length (stacks w)) by (by eapply lookup_lt_Some).
  assert (Hltc : config s < length (configs w)) by (by eapply lookup_lt_Some).
  eexists (length (stacks w)), _, _, _.
  split; [by apply with_tool_spec|]. simpl.
  split; [apply lookup_snoc_new|]. split; [lia|].
  split; [by apply merge_env_at_spec|]. simpl.
  split; [by apply lookup_snoc_old|].
  split; [by apply list_lookup_insert_eq|].
  intros key value environ d b Hok Hin. unfold get_env_var.
  destruct (merge_env cfg new_env prefix) as [r cfg'] eqn:Hm. simpl in *. subst r.
  rewrite (merge_env_sets _ _ _ _ Hm _ _ Hin). simpl. by rewrite py_or_str.
Qed.

(** *** The [build] and [run] commands *)

(** The preset loop over presets of the shape of [ExamplePreset]: each adds
    its tool, on the configuration the pipeline has. *)
Lemma apply_presets_spec (names : list string) (ts : list BaseTool) :
  Forall2 (fun name t => ALL_PRESETS !! name = Some (ExamplePreset setup_logging t)) names ts →
  ∀ (w : World) (stack : loc) (s0 : MCPStackCore),
    stacks w !! stack = Some s0 → _built s0 = false →
    ∃ new w',
      apply_presets setup_logging extractOne ALL_PRESETS stack names w = (Ok new, w') ∧
      stack ≤ new ∧
      stacks w' !! new = Some {| config := config s0; tools := tools s0 ++ ts;
                                 mcp := mcp s0; _built := false |} ∧
      (∀ l, l < length (stacks w) → stacks w' !! l = stacks w !! l) ∧
      configs w' = configs w ∧ files w' = files w ∧ environ w' = environ w ∧
      runtimes w' = runtimes w ∧ trace w' = trace w.
Proof.
  induction 1 as [|name t names ts Hreg _ IH]; intros w stack s0 Hs0 Hb0.
  - exists stack, w. simpl. split; [done|]. split; [done|]. rewrite app_nil_r.
    split; [|done]. rewrite Hs0. f_equal. destruct s0; simpl in *. by subst.
  - assert (Hlt : stack < length (stacks w)) by (by eapply lookup_lt_Some).
    simpl. rewrite Hreg.
    erewrite bind_ok; cycle 1.
    { eapply (with_preset_spec w _ stack _ s0 s0 _ name _ _ Hs0 Hreg).
      - apply ExamplePreset_create.
      - simpl. by do 2 apply lookup_snoc_old.
      - simpl. apply list_lookup_middle. rewrite length_app. simpl. lia. }
    simpl.
    set (s1 := {| config := config s0; tools := tools s0 ++ [t];
                  mcp := mcp_or None (mcp s0); _built := false |}).
    match goal with |- context [apply_presets _ _ _ ?n names ?w0] =>
      destruct (IH w0 n s1) as (new & w' & Happ & Hle & Hnew & Hold & Hc & Hf & He & Hr & Ht);
        [simpl; apply lookup_snoc_new|reflexivity|]
    end.
    exists new, w'. split; [exact Happ|]. simpl in *.
    rewrite !length_app in Hle. simpl in Hle. split; [lia|].
    rewrite <- app_assoc in Hnew. split; [exact Hnew|].
    split; [|done]. intros l Hl. rewrite Hold by (rewrite !length_app; simpl; lia).
    rewrite !lookup_app_l; rewrite ?length_app; simpl; try lia. done.
Qed.

Section CLIProperties.

Variable abspath : string -> string.

Lemma set_environ_id (w : World) : set_environ (environ w ∪ environ w) w = w.
Proof. rewrite (map_union_idemp (environ w)). by destruct w. Qed.

(** What the [build] and [run] commands do up to the generator, when no
    pipeline file is given and the presets are of the shape of
    [ExamplePreset]. *)
Lemma cli_compose_build (o : cli_options) (w : World) (ts : list BaseTool)
    (kwargs : build_kwargs) :
  truthy (of_optional (opt_pipeline o)) = false →
  setup_logging "INFO" = None →
  exportable (environ w) = true →
  Forall2 (fun name t => ALL_PRESETS !! name = Some (ExamplePreset setup_logging t))
    (preset_list o) ts →
  ts ≠ [] →
  validate_for_tools {| log_level := "INFO"; env_vars := environ w |} (environ w) ts = Ok tt →
  Forall (fun t => initialize_ok t = true) ts →
  ∃ new w1,
    (∀ tail : loc → M unit,
       (let! env := (fun w => (Ok (environ w), w)) in
        let! config := StackConfig_init setup_logging "INFO" (Some env) in
        let! stack := cli_stack setup_logging extractOne ALL_TOOLS ALL_PRESETS o config in
        build extractOne ALL_MCP_CONFIG_GENERATORS stack (opt_config_type o) kwargs ;;;
        tail stack) w =
       (_generate_config extractOne ALL_MCP_CONFIG_GENERATORS new (opt_config_type o) kwargs ;;;
        tail new) w1) ∧
    stacks w1 !! new = Some {| config := length (configs w); tools := ts;
                               mcp := Some (length (runtimes w)); _built := true |} ∧
    configs w1 = configs w ++ [{| log_level := "INFO"; env_vars := environ w |}] ∧
    runtimes w1 = runtimes w ++ [{| mcp_name := "mcpstack"; registered := ts ≫= actions |}] ∧
    environ w1 = environ w ∧ files w1 = files w ∧
    trace w1 = trace w ++ (ts ≫= initialize_events).
Proof.
  intros Hpipe Hlog Hx Hre Hts Hval Hinit.
  set (w0 := set_stacks (stacks w ++ [{| config := length (configs w); tools := [];
                                         mcp := None; _built := false |}])
               (set_configs (configs w ++ [{| log_level := "INFO"; env_vars := environ w |}]) w)).
  destruct (apply_presets_spec _ _ Hre w0 (length (stacks w))
              {| config := length (configs w); tools := []; mcp := None; _built := false |})
    as (new & w' & Happ & Hle & Hnew & Hold & Hc & Hf & He & Hr & Ht);
    [simpl; apply lookup_snoc_new|reflexivity|].
  simpl in Hnew.
  destruct (build_steps_ok w' new _ {| log_level := "INFO"; env_vars := environ w |} Hnew Hts)
    as (w1 & m & r & Hsteps & Hst1 & Hr1 & _ & Hnone & _ & Hc1 & Hf1 & He1 & Ht1).
  { simpl. rewrite Hc. simpl. apply lookup_snoc_new. }
  { simpl. by rewrite He. }
  { done. }
  { intros ? [=]. }
  destruct (Hnone eq_refl) as (-> & -> & Hrt1). simpl in *.
  assert (Hlt : new < length (stacks w')) by (by eapply lookup_lt_Some).
  exists new, w1. split.
  { intros tail. unfold bind at 1.
    rewrite (bind_ok _ _ _ _ _ (StackConfig_init_ok _ _ _ Hlog Hx)).
    rewrite set_environ_id.
    unfold cli_stack. rewrite Hpipe. unfold MCPStackCore_init.
    unfold bind at 1 2. simpl. fold w0. rewrite Happ.
    unfold bind at 1. rewrite build_assoc. rewrite <- bind_assoc.
    rewrite (bind_ok _ _ _ _ _ Hsteps). reflexivity. }
  split; [rewrite Hst1, Hr; by apply list_lookup_insert_eq|].
  split; [by rewrite Hc1, Hc|]. split; [by rewrite Hrt1, Hr|].
  split; [by rewrite He1, He|]. split; [by rewrite Hf1, Hf|]. by rewrite Ht1, Ht.
Qed.

Lemma exit_on_error_ok {A} (body : M A) (w w' : World) (a : A) :
  body w = (Ok a, w') → exit_on_error body w = (Ok a, w').
Proof. intros H. unfold exit_on_error. by rewrite H. Qed.

Lemma exit_on_error_raise {A} (body : M A) (w w' : World) (e : exn) :
  body w = (Raise e, w') → exit_on_error body w = (Raise Exit1, w').
Proof. intros H. unfold exit_on_error. by rewrite H. Qed.

(** The [build] command with no pipeline file, on presets of the shape of
    [ExamplePreset]: the pipeline is composed on a configuration whose
    overrides are a copy of the whole process environment, so when the
    generator has returned the pipeline file written under the absolute path
    holds every variable of the process environment, next to the presets'
    tools in the order of the option. The generator is called with that path
    as [pipeline_config_path]; when it raises, whatever the exception, the
    command ends with exit code 1 and writes no pipeline file. This is so
    when every entry of the process environment can be set again, as the
    constructor of the configuration does; with an entry that cannot (one
    under the empty name) the command ends with exit code 1 before anything
    is composed, and changes nothing. *)
Theorem cli_build_saves_environment (o : cli_options) (w : World) (ts : list BaseTool) :
  truthy (of_optional (opt_pipeline o)) = false →
  setup_logging "INFO" = None →
  Forall2 (fun name t => ALL_PRESETS !! name = Some (ExamplePreset setup_logging t))
    (preset_list o) ts →
  ts ≠ [] →
  validate_for_tools {| log_level := "INFO"; env_vars := environ w |} (environ w) ts = Ok tt →
  Forall (fun t => initialize_ok t = true) ts →
  let path := cli_config_path abspath o in
  let kwargs :=
    {| command := opt_command o; args := cli_args_list o; cwd := opt_cwd o;
       module_name := opt_module_name o; pipeline_config_path := Some path;
       save_path := if truthy (of_optional (opt_output o))
                    then Some (abspath (default "" (opt_output o))) else None |} in
  (exportable (environ w) = false →
   cli_build setup_logging extractOne ALL_TOOLS ALL_PRESETS ALL_MCP_CONFIG_GENERATORS
     abspath o w = (Raise Exit1, w)) ∧
  (exportable (environ w) = true →
  ∃ new w1,
    stacks w1 !! new = Some {| config := length (configs w); tools := ts;
                               mcp := Some (length (runtimes w)); _built := true |} ∧
    configs w1 = configs w ++ [{| log_level := "INFO"; env_vars := environ w |}] ∧
    environ w1 = environ w ∧ files w1 = files w ∧
    (∀ out,
       _generate_config extractOne ALL_MCP_CONFIG_GENERATORS new (opt_config_type o) kwargs w1 =
         (Ok out, w1) →
       cli_build setup_logging extractOne ALL_TOOLS ALL_PRESETS ALL_MCP_CONFIG_GENERATORS
         abspath o w =
         (Ok tt,
          set_files (<[path := {| doc_config := {| doc_log_level := Some "INFO";
                                                   doc_env_vars := Some (environ w) |};
                                  doc_tools := Some (tool_doc <$> ts) |}]> (files w)) w1)) ∧
    (∀ e w2,
       _generate_config extractOne ALL_MCP_CONFIG_GENERATORS new (opt_config_type o) kwargs w1 =
         (Raise e, w2) →
       cli_build setup_logging extractOne ALL_TOOLS ALL_PRESETS ALL_MCP_CONFIG_GENERATORS
         abspath o w = (Raise Exit1, w2))).
Proof.
  intros Hpipe Hlog Hre Hts Hval Hinit path kwargs. split.
  { intros Hx. destruct (StackConfig_init_environ_raise _ _ Hlog Hx) as [e He].
    unfold cli_build. rewrite Hpipe. simpl "&&". cbv iota.
    apply (exit_on_error_raise _ _ _ e). unfold bind at 1. by apply bind_raise. }
  intros Hx.
  destruct (cli_compose_build o w ts kwargs Hpipe Hlog Hx Hre Hts Hval Hinit)
    as (new & w1 & Hrun & Hs1 & Hc1 & Hr1 & He1 & Hf1 & Ht1).
  exists new, w1. split; [exact Hs1|]. split; [exact Hc1|].
  split; [exact He1|]. split; [exact Hf1|].
  assert (Hcli : ∀ w', cli_build setup_logging extractOne ALL_TOOLS ALL_PRESETS
                   ALL_MCP_CONFIG_GENERATORS abspath o w' =
                 exit_on_error
                   (let! env := (fun w => (Ok (environ w), w)) in
                    let! config := StackConfig_init setup_logging "INFO" (Some env) in
                    let! stack := cli_stack setup_logging extractOne ALL_TOOLS ALL_PRESETS
                                    o config in
                    build extractOne ALL_MCP_CONFIG_GENERATORS stack (opt_config_type o) kwargs ;;;
                    save stack path) w').
  { intros w'. unfold cli_build. rewrite Hpipe. reflexivity. }
  split.
  - intros out Hgen. rewrite Hcli. apply exit_on_error_ok.
    rewrite (Hrun (fun stack => save stack path)). rewrite (bind_ok _ _ _ _ _ Hgen).
    erewrite save_spec; [|exact Hs1|done|simpl; rewrite Hc1; apply lookup_snoc_new].
    by rewrite Hf1.
  - intros e w2 Hgen. rewrite Hcli. apply (exit_on_error_raise _ _ _ e).
    rewrite (Hrun (fun stack => save stack path)). by apply bind_raise.
Qed.

(** The [run] command, in the same situation: the pipeline file is written
    before the server is started, and the generator is given no artifact
    path. When the serve call returns the command returns; when it raises
    the command ends with exit code 1; either way the backends have been torn
    down and the pipeline file is there. This is so when every entry of the
    process environment can be set again; with an entry that cannot (one
    under the empty name) the command ends with exit code 1 before anything
    is composed, and changes nothing. *)
Theorem cli_run_saves_then_serves (o : cli_options) (w : World) (ts : list BaseTool) :
  truthy (of_optional (opt_pipeline o)) = false →
  setup_logging "INFO" = None →
  Forall2 (fun name t => ALL_PRESETS !! name = Some (ExamplePreset setup_logging t))
    (preset_list o) ts →
  ts ≠ [] →
  validate_for_tools {| log_level := "INFO"; env_vars := environ w |} (environ w) ts = Ok tt →
  Forall (fun t => initialize_ok t = true) ts →
  let path := cli_config_path abspath o in
  let kwargs :=
    {| command := opt_command o; args := cli_args_list o; cwd := opt_cwd o;
       module_name := opt_module_name o; pipeline_config_path := Some path;
       save_path := None |} in
  (exportable (environ w) = false →
   cli_run setup_logging extractOne mcp_run ALL_TOOLS ALL_PRESETS ALL_MCP_CONFIG_GENERATORS
     abspath o w = (Raise Exit1, w)) ∧
  (exportable (environ w) = true →
  ∃ new w1,
    stacks w1 !! new = Some {| config := length (configs w); tools := ts;
                               mcp := Some (length (runtimes w)); _built := true |} ∧
    configs w1 = configs w ++ [{| log_level := "INFO"; env_vars := environ w |}] ∧
    runtimes w1 = runtimes w ++ [{| mcp_name := "mcpstack"; registered := ts ≫= actions |}] ∧
    ∀ out,
      _generate_config extractOne ALL_MCP_CONFIG_GENERATORS new (opt_config_type o) kwargs w1 =
        (Ok out, w1) →
      cli_run setup_logging extractOne mcp_run ALL_TOOLS ALL_PRESETS ALL_MCP_CONFIG_GENERATORS
        abspath o w =
        (match mcp_run {| mcp_name := "mcpstack"; registered := ts ≫= actions |} with
         | None => Ok tt
         | Some _ => Raise Exit1
         end,
         set_trace (trace w ++ (ts ≫= initialize_events) ++
                    EvServe (length (runtimes w)) :: teardown_events ts)
           (set_files (<[path := {| doc_config := {| doc_log_level := Some "INFO";
                                                     doc_env_vars := Some (environ w) |};
                                    doc_tools := Some (tool_doc <$> ts) |}]> (files w)) w1))).
Proof.
  intros Hpipe Hlog Hre Hts Hval Hinit path kwargs. split.
  { intros Hx. destruct (StackConfig_init_environ_raise _ _ Hlog Hx) as [e He].
    unfold cli_run. rewrite Hpipe. simpl "&&". cbv iota.
    apply (exit_on_error_raise _ _ _ e). unfold bind at 1. by apply bind_raise. }
  intros Hx.
  destruct (cli_compose_build o w ts kwargs Hpipe Hlog Hx Hre Hts Hval Hinit)
    as (new & w1 & Hrun & Hs1 & Hc1 & Hr1 & He1 & Hf1 & Ht1).
  exists new, w1. split; [exact Hs1|]. split; [exact Hc1|]. split; [exact Hr1|].
  intros out Hgen.
  assert (Hbody :
    (let! env := (fun w => (Ok (environ w), w)) in
     let! config := StackConfig_init setup_logging "INFO" (Some env) in
     let! stack := cli_stack setup_logging extractOne ALL_TOOLS ALL_PRESETS o config in
     build extractOne ALL_MCP_CONFIG_GENERATORS stack (opt_config_type o) kwargs ;;;
     save stack path ;;; run mcp_run stack) w =
    (result_of (mcp_run {| mcp_name := "mcpstack"; registered := ts ≫= actions |}),
     set_trace (trace w ++ (ts ≫= initialize_events) ++
                EvServe (length (runtimes w)) :: teardown_events ts)
       (set_files (<[path := {| doc_config := {| doc_log_level := Some "INFO";
                                                 doc_env_vars := Some (environ w) |};
                                doc_tools := Some (tool_doc <$> ts) |}]> (files w)) w1))).
  { rewrite (Hrun (fun stack => save stack path ;;; run mcp_run stack)).
    rewrite (bind_ok _ _ _ _ _ Hgen).
    erewrite bind_ok;
      [|apply save_spec; [exact Hs1|done|simpl; rewrite Hc1; apply lookup_snoc_new]].
    erewrite run_spec; [|simpl; exact Hs1|done|done|simpl; rewrite Hr1; apply lookup_snoc_new].
    simpl. rewrite Hf1, Ht1. unfold set_trace; simpl. by rewrite <- app_assoc. }
  unfold cli_run. rewrite Hpipe. simpl "&&". cbv iota.
  destruct (mcp_run {| mcp_name := "mcpstack"; registered := ts ≫= actions |}) as [e|];
    simpl in Hbody.
  - eapply exit_on_error_raise. exact Hbody.
  - eapply exit_on_error_ok. exact Hbody.
Qed.

(** *** The [pipeline] command *)

(** The command from the merge on, for a pipeline that has no runtime. *)
Lemma cli_pipeline_tail (w0 : World) (stack : loc) (s0 : MCPStackCore) (cfg0 cfg1 : StackConfig)
    (td : ToolConfig) (tool_cls : ToolClass) (t : BaseTool) (fin : loc → M unit) :
  stacks w0 !! stack = Some s0 → mcp s0 = None →
  configs w0 !! config s0 = Some cfg0 →
  merge_env cfg0 (default [] (tc_env_vars td)) "" = (Ok tt, cfg1) →
  from_dict tool_cls (default (JObj []) (tc_tool_params td)) = Ok t →
  Forall (fun t => initialize_ok t = true) (tools s0 ++ [t]) →
  validate_for_tools cfg1 (environ w0) (tools s0 ++ [t]) = Ok tt →
  ∃ new w1,
    (let! s := get_stack stack in
     merge_env_at (config s) (default [] (tc_env_vars td)) "" ;;;
     let! tool := lift (from_dict tool_cls (default (JObj []) (tc_tool_params td))) in
     let! stack := with_tool setup_logging stack tool in
     build extractOne ALL_MCP_CONFIG_GENERATORS stack "fastmcp" build_defaults ;;;
     fin stack) w0 =
    (_generate_config extractOne ALL_MCP_CONFIG_GENERATORS new "fastmcp" build_defaults ;;;
     fin new) w1 ∧
    stacks w1 !! new = Some {| config := config s0; tools := tools s0 ++ [t];
                               mcp := Some (length (runtimes w0)); _built := true |} ∧
    stacks w1 !! stack = Some s0 ∧
    configs w1 = <[config s0 := cfg1]> (configs w0) ∧
    runtimes w1 = runtimes w0 ++
      [{| mcp_name := "mcpstack"; registered := (tools s0 ++ [t]) ≫= actions |}] ∧
    environ w1 = environ w0 ∧ files w1 = files w0 ∧
    trace w1 = trace w0 ++ ((tools s0 ++ [t]) ≫= initialize_events).
Proof.
  intros Hs0 Hm0 Hc0 Hmerge Hfrom Hinit Hval.
  assert (Hlt : stack < length (stacks w0)) by (by eapply lookup_lt_Some).
  assert (Hltc : config s0 < length (configs w0)) by (by eapply lookup_lt_Some).
  set (wm := set_configs (<[config s0 := cfg1]> (configs w0)) w0).
  set (sn := {| config := config s0; tools := tools s0 ++ [t]; mcp := mcp s0;
                _built := false |}).
  set (ww := set_stacks (stacks wm ++ [sn]) wm).
  destruct (build_steps_ok ww (length (stacks w0)) sn cfg1) as
    (w1 & m & r & Hsteps & Hst1 & Hr1 & _ & Hnone & _ & Hc1 & Hf1 & He1 & Ht1).
  { simpl. apply lookup_snoc_new. }
  { simpl. by destruct (tools s0). }
  { simpl. by apply list_lookup_insert_eq. }
  { done. }
  { done. }
  { simpl. rewrite Hm0. intros ? [=]. }
  destruct (Hnone Hm0) as (-> & -> & Hrt1). simpl in *.
  exists (length (stacks w0)), w1. split.
  { rewrite (bind_ok _ _ _ _ _ (get_stack_ok _ _ _ Hs0)).
    erewrite bind_ok; [|rewrite (merge_env_at_spec _ _ _ _ _ Hc0), Hmerge; reflexivity].
    unfold lift at 1, bind at 1. rewrite Hfrom. fold wm.
    erewrite bind_ok; [|by apply (with_tool_spec wm stack s0 t)]. fold sn. fold ww.
    unfold bind at 1. rewrite build_assoc. rewrite <- bind_assoc.
    rewrite (bind_ok _ _ _ _ _ Hsteps). reflexivity. }
  rewrite Hst1. simpl. rewrite insert_snoc_new.
  split; [by rewrite lookup_snoc_new|].
  split; [by apply lookup_snoc_old|].
  by rewrite Hc1, Hrt1, He1, Hf1, Ht1.
Qed.

Lemma truthy_str (s : string) : s ≠ "" → truthy (PyStr s) = true.
Proof. intros Hne. simpl. by destruct (String.eqb_spec s ""). Qed.

(** The [pipeline] command on a pipeline file that exists and whose
    overrides can all be set in the process environment (loading the file
    copies them there): the file is loaded, the variables of the tool configuration are merged into the
    loaded configuration, the tool is rebuilt from the tool parameters and
    appended, the pipeline is built for the format fastmcp, and the file is
    written again: with the merged overrides, the tools it had, in order, and
    the new tool last. The tools that were in the file have been initialised
    twice, by [load] and by [build]; the merged variables are in the file but
    were not exported to the process environment; [--new-pipeline] plays no
    part. *)
Theorem cli_pipeline_appends (w : World) (tool_name p : string) (new_pipeline : option string)
    (td : ToolConfig) (tool_cls : ToolClass) (t : BaseTool) (data : PipelineDoc)
    (ts : list BaseTool) (cfg1 : StackConfig) :
  ALL_TOOLS !! tool_name = Some tool_cls →
  p ≠ "" → files w !! p = Some data →
  setup_logging (default "INFO" (doc_log_level (doc_config data))) = None →
  exportable (default ∅ (doc_env_vars (doc_config data))) = true →
  Forall2 (rebuilds ALL_TOOLS) (default [] (doc_tools data)) ts →
  Forall (fun tool => post_load_ok tool = true) ts →
  merge_env {| log_level := default "INFO" (doc_log_level (doc_config data));
               env_vars := default ∅ (doc_env_vars (doc_config data)) |}
    (default [] (tc_env_vars td)) "" = (Ok tt, cfg1) →
  from_dict tool_cls (default (JObj []) (tc_tool_params td)) = Ok t →
  initialize_ok t = true →
  validate_for_tools cfg1 (default ∅ (doc_env_vars (doc_config data)) ∪ environ w)
    (ts ++ [t]) = Ok tt →
  ∃ new w1,
    stacks w1 !! new = Some {| config := length (configs w); tools := ts ++ [t];
                               mcp := Some (length (runtimes w)); _built := true |} ∧
    configs w1 = configs w ++ [cfg1] ∧
    environ w1 = default ∅ (doc_env_vars (doc_config data)) ∪ environ w ∧
    trace w1 = trace w ++ post_load_events ts ++ ((ts ++ [t]) ≫= initialize_events) ∧
    ∀ out,
      _generate_config extractOne ALL_MCP_CONFIG_GENERATORS new "fastmcp" build_defaults w1 =
        (Ok out, w1) →
      cli_pipeline setup_logging extractOne ALL_TOOLS ALL_MCP_CONFIG_GENERATORS
        tool_name (Some p) new_pipeline (Ok td) w =
        (Ok tt,
         set_files (<[p := {| doc_config := config_to_dict cfg1;
                              doc_tools := Some (tool_doc <$> (ts ++ [t])) |}]> (files w)) w1).
Proof.
  intros Hreg Hp Hfile Hlog Hx Hre Hpost Hmerge Hfrom Hinit Hval.
  destruct (load_spec _ _ _ _ Hfile Hlog Hx Hre Hpost)
    as (st & w' & Hload & Hge & Hst & Hold & Hcf & He & Hf & Hr & Ht).
  set (s0 := {| config := length (configs w); tools := ts; mcp := None; _built := true |}) in *.
  destruct (cli_pipeline_tail w' st s0
              {| log_level := default "INFO" (doc_log_level (doc_config data));
                 env_vars := default ∅ (doc_env_vars (doc_config data)) |}
              cfg1 td tool_cls t
              (fun stack => match or_else (Some p) new_pipeline with
                            | Some p' => save stack p'
                            | None => raise (PyException "BeartypeCallHintParamViolation" "path")
                            end) Hst eq_refl)
    as (new & w1 & Htail & Hs1 & _ & Hc1 & Hr1 & He1 & Hf1 & Ht1).
  { simpl. rewrite Hcf. apply lookup_snoc_new. }
  { exact Hmerge. }
  { exact Hfrom. }
  { simpl. apply Forall_app. split; [|by repeat constructor].
    eapply Forall_impl; [exact Hpost|]. apply post_load_ok_initialize_ok. }
  { simpl. by rewrite He. }
  simpl in *. exists new, w1.
  split; [by rewrite Hr in Hs1|].
  split; [by rewrite Hc1, Hcf, insert_snoc_new|].
  split; [by rewrite He1, He|].
  split; [by rewrite Ht1, Ht, <- app_assoc|].
  intros out Hgen. unfold cli_pipeline. rewrite Hreg. apply exit_on_error_ok.
  unfold lift at 1, bind at 1. unfold bind at 1. simpl default.
  change (of_optional (Some p)) with (PyStr p).
  rewrite (truthy_str _ Hp). rewrite Hfile.
  rewrite bool_decide_eq_true_2 by eauto. simpl "&&". cbv iota.
  rewrite Hload. rewrite Htail. rewrite (bind_ok _ _ _ _ _ Hgen).
  unfold or_else. change (of_optional (Some p)) with (PyStr p). rewrite (truthy_str _ Hp).
  erewrite save_spec; [|exact Hs1|done|].
  - by rewrite Hf1, Hf.
  - simpl. rewrite Hc1, Hcf, insert_snoc_new. apply lookup_snoc_new.
Qed.

(** The [pipeline] command when there is no file to append to, because no
    [--to-pipeline] is given or because the file named does not exist: a
    pipeline is started on a new configuration of level INFO, and the file
    written holds the tool alone, with the variables of the tool
    configuration as its overrides. A path given with [--to-pipeline] is
    where the file is written, even though nothing was read from it. *)
Theorem cli_pipeline_creates (w : World) (tool_name path : string)
    (to_pipeline new_pipeline : option string)
    (td : ToolConfig) (tool_cls : ToolClass) (t : BaseTool) (cfg1 : StackConfig) :
  ALL_TOOLS !! tool_name = Some tool_cls →
  truthy (of_optional to_pipeline) &&
    bool_decide (is_Some (files w !! default "" to_pipeline)) = false →
  or_else to_pipeline new_pipeline = Some path →
  setup_logging "INFO" = None →
  merge_env {| log_level := "INFO"; env_vars := ∅ |} (default [] (tc_env_vars td)) "" =
    (Ok tt, cfg1) →
  from_dict tool_cls (default (JObj []) (tc_tool_params td)) = Ok t →
  initialize_ok t = true →
  validate_for_tools cfg1 (environ w) [t] = Ok tt →
  ∃ new w1,
    stacks w1 !! new = Some {| config := length (configs w); tools := [t];
                               mcp := Some (length (runtimes w)); _built := true |} ∧
    configs w1 = configs w ++ [cfg1] ∧
    environ w1 = environ w ∧
    trace w1 = trace w ++ initialize_events t ∧
    ∀ out,
      _generate_config extractOne ALL_MCP_CONFIG_GENERATORS new "fastmcp" build_defaults w1 =
        (Ok out, w1) →
      cli_pipeline setup_logging extractOne ALL_TOOLS ALL_MCP_CONFIG_GENERATORS
        tool_name to_pipeline new_pipeline (Ok td) w =
        (Ok tt,
         set_files (<[path := {| doc_config := config_to_dict cfg1;
                                 doc_tools := Some [tool_doc t] |}]> (files w)) w1).
Proof.
  intros Hreg Hno Hpath Hlog Hmerge Hfrom Hinit Hval.
  set (s0 := {| config := length (configs w); tools := []; mcp := None; _built := false |}).
  set (w0 := set_stacks (stacks w ++ [s0])
               (set_configs (configs w ++ [{| log_level := "INFO"; env_vars := ∅ |}]) w)).
  destruct (cli_pipeline_tail w0 (length (stacks w)) s0
              {| log_level := "INFO"; env_vars := ∅ |} cfg1 td tool_cls t
              (fun stack => match or_else to_pipeline new_pipeline with
                            | Some p' => save stack p'
                            | None => raise (PyException "BeartypeCallHintParamViolation" "path")
                            end))
    as (new & w1 & Htail & Hs1 & _ & Hc1 & Hr1 & He1 & Hf1 & Ht1).
  { simpl. apply lookup_snoc_new. }
  { done. }
  { simpl. apply lookup_snoc_new. }
  { exact Hmerge. }
  { exact Hfrom. }
  { simpl. by repeat constructor. }
  { exact Hval. }
  simpl in *. exists new, w1.
  split; [exact Hs1|]. split; [by rewrite Hc1, insert_snoc_new|].
  split; [exact He1|]. split; [by rewrite Ht1, app_nil_r|].
  intros out Hgen. unfold cli_pipeline. rewrite Hreg. apply exit_on_error_ok.
  unfold lift at 1, bind at 1. unfold bind at 1. rewrite Hno.
  assert (Hinit0 : MCPStackCore_init setup_logging None None w = (Ok (length (stacks w)), w0)).
  { unfold MCPStackCore_init.
    by rewrite (bind_ok _ _ _ _ _ (StackConfig_init_default _ _ Hlog)). }
  rewrite Hinit0. rewrite Htail. rewrite (bind_ok _ _ _ _ _ Hgen). rewrite Hpath.
  erewrite save_spec; [|exact Hs1|done|].
  - by rewrite Hf1.
  - simpl. rewrite Hc1, insert_snoc_new. apply lookup_snoc_new.
Qed.

End CLIProperties.

(** ** Properties of the generators *)

(** *** The matcher *)

Lemma string_app_cons (c : ascii) (s1 s2 : string) :
  String c s1 +:+ s2 = String c (s1 +:+ s2).
Proof. reflexivity. Qed.

Lemma string_app_nil_l (s : string) : "" +:+ s = s.
Proof. reflexivity. Qed.

Lemma string_app_nil_r (s : string) : s +:+ "" = s.
Proof. induction s as [|c s IH]; [done|]. by rewrite string_app_cons, IH. Qed.

Lemma string_app_assoc (s1 s2 s3 : string) : (s1 +:+ s2) +:+ s3 = s1 +:+ (s2 +:+ s3).
Proof. induction s1 as [|c s1 IH]; [done|]. by rewrite !string_app_cons, IH. Qed.

Lemma string_app_eq_nil (s1 s2 : string) : s1 +:+ s2 = "" → s1 = "" ∧ s2 = "".
Proof. destruct s1; [done|discriminate]. Qed.

Lemma nullable_lang (r : regex) : nullable r = true ↔ lang r "".
Proof.
  induction r as [| |p|r1 IH1 r2 IH2|r1 IH1 r2 IH2|r IH]; simpl.
  - split; [done|]. inversion 1.
  - split; [constructor|done].
  - split; [done|]. inversion 1.
  - rewrite andb_true_iff, IH1, IH2. split.
    + intros [H1 H2]. by apply (lang_seq r1 r2 "" "").
    + intros H. remember "" as s' eqn:Hs'.
      inversion H as [| |? ? s1 s2 H1 H2| | | |]; subst.
      match goal with Heq : _ +:+ _ = "" |- _ => apply string_app_eq_nil in Heq as [-> ->] end.
      done.
  - rewrite orb_true_iff, IH1, IH2. split.
    + intros [H|H]; [by apply lang_alt_l|by apply lang_alt_r].
    + inversion 1; subst; auto.
  - split; [constructor|done].
Qed.

(** A non-empty string of a star starts with a non-empty string of the body. *)
Lemma lang_star_cons_inv (r : regex) (c : ascii) (s : string) :
  lang (Star r) (String c s) →
  ∃ s1 s2, s = s1 +:+ s2 ∧ lang r (String c s1) ∧ lang (Star r) s2.
Proof.
  intros H. remember (Star r) as r' eqn:Hr. remember (String c s) as s' eqn:Hs.
  revert s Hs. induction H as [| | | | | |r0 s1 s2 H1 _ H2 IH2]; intros t Ht; try discriminate.
  injection Hr as ->. destruct s1 as [|c1 s1].
  - rewrite string_app_nil_l in Ht. by apply IH2.
  - rewrite string_app_cons in Ht. injection Ht as -> <-. by exists s1, s2.
Qed.

Lemma deriv_lang (r : regex) (c : ascii) (s : string) :
  lang (deriv c r) s ↔ lang r (String c s).
Proof.
  revert s. induction r as [| |p|r1 IH1 r2 IH2|r1 IH1 r2 IH2|r IH]; intros s; simpl.
  - split; inversion 1.
  - split; inversion 1.
  - destruct (p c) eqn:Hp; split.
    + inversion 1; subst. by constructor.
    + inversion 1; subst. constructor.
    + inversion 1.
    + inversion 1; subst. congruence.
  - assert (Hl : ∀ s, lang (Seq (deriv c r1) r2) s → lang (Seq r1 r2) (String c s)).
    { intros s0. inversion 1 as [| |? ? s1 s2 H1 H2| | | |]; subst.
      apply IH1 in H1. by apply (lang_seq r1 r2 (String c s1) s2). }
    assert (Hr : ∀ s, lang (Seq r1 r2) (String c s) →
                 lang (Seq (deriv c r1) r2) s ∨ (lang r1 "" ∧ lang r2 (String c s))).
    { intros s0 H. remember (String c s0) as s' eqn:Hs'.
      inversion H as [| |? ? s1 s2 H1 H2| | | |]; subst.
      match goal with Heq : _ +:+ _ = String _ _ |- _ => rename Heq into Heq' end.
      destruct s1 as [|c1 s1].
      - right. rewrite string_app_nil_l in Heq'. subst. done.
      - left. rewrite string_app_cons in Heq'. injection Heq' as -> <-.
        apply lang_seq; [by apply IH1|done]. }
    destruct (nullable r1) eqn:Hn.
    + split.
      * inversion 1; subst; [by apply Hl|].
        apply (lang_seq r1 r2 "" (String c s)); [by apply nullable_lang|by apply IH2].
      * intros H. destruct (Hr _ H) as [H'|[_ H']]; [by apply lang_alt_l|].
        apply lang_alt_r. by apply IH2.
    + split; [apply Hl|].
      intros H. destruct (Hr _ H) as [H'|[H' _]]; [done|].
      apply nullable_lang in H'. congruence.
  - split.
    + inversion 1; subst; [apply lang_alt_l; by apply IH1|apply lang_alt_r; by apply IH2].
    + inversion 1; subst; [apply lang_alt_l; by apply IH1|apply lang_alt_r; by apply IH2].
  - split.
    + inversion 1 as [| |? ? s1 s2 H1 H2| | | |]; subst.
      apply IH in H1. by apply (lang_star_cons r (String c s1) s2).
    + intros H. destruct (lang_star_cons_inv _ _ _ H) as (s1 & s2 & -> & H1 & H2).
      apply lang_seq; [by apply IH|done].
Qed.

(** The matcher decides the language. *)
Lemma matches_lang (r : regex) (s : string) : matches r s = true ↔ lang r s.
Proof.
  revert r. induction s as [|c s IH]; intros r; simpl.
  - apply nullable_lang.
  - rewrite IH. apply deriv_lang.
Qed.

(** *** The image-name check *)

Lemma all_chars_app (p : ascii → bool) (s1 s2 : string) :
  all_chars p (s1 +:+ s2) = all_chars p s1 && all_chars p s2.
Proof.
  induction s1 as [|c s1 IH]; [done|].
  rewrite string_app_cons. simpl. by rewrite IH, andb_assoc.
Qed.

Lemma all_chars_impl (p q : ascii → bool) (s : string) :
  (∀ c, p c = true → q c = true) → all_chars p s = true → all_chars q s = true.
Proof.
  intros Hpq. induction s as [|c s IH]; [done|]. simpl.
  intros [Hc Hs]%andb_true_iff. by rewrite (Hpq c Hc), IH.
Qed.

Lemma lang_star_class (p : ascii → bool) (s : string) :
  lang (Star (Class p)) s ↔ all_chars p s = true.
Proof.
  split.
  - intros H. remember (Star (Class p)) as r eqn:Hr.
    induction H as [| | | | | |r0 s1 s2 H1 _ H2 IH2]; try discriminate; [done|].
    injection Hr as ->. inversion H1; subst.
    rewrite string_app_cons, string_app_nil_l. simpl.
    apply andb_true_iff. split; [done|]. by apply IH2.
  - induction s as [|c s IH]; [constructor|]. simpl.
    intros [Hc Hs]%andb_true_iff.
    apply (lang_star_cons (Class p) (String c "") s); [by constructor|by apply IH].
Qed.

Lemma alnum_name_char (c : ascii) : alnum c = true → name_char c = true.
Proof. unfold name_char. by intros ->. Qed.

Lemma lang_image_name (s : string) : lang image_name_pattern s ↔ name_and_tag s.
Proof.
  unfold image_name_pattern. split.
  - intros H.
    inversion H as [| |? ? s0 t0 Lc Lt0| | | |]; subst; clear H.
    inversion Lc as [|? c Pc| | | | |]; subst; clear Lc.
    inversion Lt0 as [| |? ? s1 t1 Lb Lt1| | | |]; subst; clear Lt0.
    inversion Lt1 as [| |? ? s2 t2 La Lt2| | | |]; subst; clear Lt1.
    apply lang_star_class in Lb, La.
    exists c, (s1 +:+ s2), t2.
    split; [by rewrite string_app_cons, string_app_nil_l, string_app_assoc|].
    split; [done|].
    split.
    { rewrite all_chars_app, Lb. simpl.
      exact (all_chars_impl alnum name_char s2 alnum_name_char La). }
    inversion Lt2 as [| | |? ? ? Ll|? ? ? Lr| |]; subst; clear Lt2.
    + right. inversion Ll as [| |? ? s3 t3 Lcolon Lt3| | | |]; subst; clear Ll.
      inversion Lcolon as [|? c3 Pc3| | | | |]; subst; clear Lcolon.
      inversion Lt3 as [| |? ? s4 t4 Lfirst Lrest| | | |]; subst; clear Lt3.
      inversion Lfirst as [|? c4 Pc4| | | | |]; subst; clear Lfirst.
      apply lang_star_class in Lrest.
      exists (String c4 t4). apply Ascii.eqb_eq in Pc3 as <-.
      split; [done|]. split; [done|]. simpl. by rewrite Pc4.
    + left. by inversion Lr.
  - intros (c & body & tail & -> & Hc & Hbody & Htail).
    apply (lang_seq _ _ (String c "") (body +:+ tail)); [by constructor|].
    apply lang_seq; [by apply lang_star_class|].
    apply (lang_seq _ _ "" tail); [constructor|].
    destruct Htail as [->|(tag & -> & Hne & Htag)]; [apply lang_alt_r; constructor|].
    apply lang_alt_l. destruct tag as [|c4 t4]; [done|].
    simpl in Htag. apply andb_true_iff in Htag as [Hc4 Ht4].
    apply (lang_seq _ _ (String ":" "") (String c4 t4)); [by constructor|].
    apply (lang_seq _ _ (String c4 "") t4); [by constructor|by apply lang_star_class].
Qed.

Lemma name_char_plain (c : ascii) :
  name_char c = true →
  Ascii.eqb c ":" = false ∧ Ascii.eqb " " c = false ∧ is_space c = false.
Proof. destruct c as [[] [] [] [] [] [] [] []]; vm_compute; intros; try done. Qed.

Lemma tag_char_plain (c : ascii) :
  tag_char c = true → name_char c = true ∧ Ascii.eqb "/" c = false.
Proof. destruct c as [[] [] [] [] [] [] [] []]; vm_compute; intros; try done. Qed.

Lemma contains_app (c : ascii) (s1 s2 : string) :
  contains c (s1 +:+ s2) = contains c s1 || contains c s2.
Proof.
  induction s1 as [|c1 s1 IH]; [done|].
  rewrite string_app_cons. simpl. by rewrite IH, orb_assoc.
Qed.

Lemma all_chars_contains (p : ascii → bool) (c : ascii) (s : string) :
  (∀ c', p c' = true → Ascii.eqb c c' = false) →
  all_chars p s = true → contains c s = false.
Proof.
  intros Hp. induction s as [|c' s IH]; [done|]. simpl.
  intros [Hc Hs]%andb_true_iff. by rewrite (Hp c' Hc), IH.
Qed.

Lemma chop_newline_spec (s s' : string) :
  chop_newline s = Some s' → s = s' +:+ String "010" "".
Proof.
  revert s'. induction s as [|c s IH]; intros s'; [done|].
  destruct s as [|c1 s1].
  - simpl. destruct (Ascii.eqb_spec c "010"); [|done]. intros [= <-]. by subst.
  - change (chop_newline (String c (String c1 s1)))
      with (String c <$> chop_newline (String c1 s1)).
    destruct (chop_newline (String c1 s1)) as [t|]; [|done].
    intros [= <-]. by rewrite (IH t eq_refl).
Qed.

Lemma slash_after_colon_app (s1 s2 : string) :
  all_chars name_char s1 = true →
  slash_after_colon (s1 +:+ s2) = slash_after_colon s2.
Proof.
  induction s1 as [|c s1 IH]; [done|]. simpl.
  intros [Hc Hs]%andb_true_iff. rewrite ?string_app_cons. simpl.
  destruct (name_char_plain c Hc) as (-> & _ & _). by apply IH.
Qed.

Lemma slash_after_colon_newline (s : string) :
  slash_after_colon (s +:+ String "010" "") = slash_after_colon s.
Proof.
  induction s as [|c s IH]; [done|]. rewrite string_app_cons. simpl.
  rewrite IH, contains_app. simpl. by rewrite orb_false_r.
Qed.

Lemma name_and_tag_plain (s : string) :
  name_and_tag s →
  slash_after_colon s = false ∧ contains " " s = false ∧ lstrip s = s.
Proof.
  intros (c & body & tail & -> & Hc & Hbody & Htail).
  destruct (name_char_plain c (alnum_name_char c Hc)) as (Hcolon & Hsp & Hw).
  assert (Htl : slash_after_colon tail = false ∧ contains " " tail = false).
  { destruct Htail as [->|(tag & -> & _ & Htag)]; [done|]. simpl. split.
    - apply (all_chars_contains tag_char); [|done]. intros c' Hc'.
      by destruct (tag_char_plain c' Hc').
    - apply (all_chars_contains tag_char); [|done]. intros c' Hc'.
      destruct (tag_char_plain c' Hc') as [Hn _]. by destruct (name_char_plain c' Hn) as (_ & ? & _). }
  destruct Htl as [Hsl Hspt]. cbn [slash_after_colon contains lstrip].
  rewrite Hcolon, Hsp, Hw. cbn [orb].
  rewrite slash_after_colon_app, contains_app by done.
  split; [done|]. split; [|done]. rewrite Hspt, orb_false_r.
  apply (all_chars_contains name_char); [|done]. intros c' Hc'.
  by destruct (name_char_plain c' Hc') as (_ & ? & _).
Qed.

Lemma rstrip_contains (c : ascii) (s : string) :
  is_space c = false → contains c s = true → rstrip s ≠ "".
Proof.
  intros Hc. induction s as [|c' s IH]; [done|]. simpl.
  destruct (Ascii.eqb_spec c c') as [<-|Hne]; simpl.
  - intros _. rewrite Hc. by destruct (rstrip s).
  - intros Hin. specialize (IH Hin). by destruct (rstrip s).
Qed.

Lemma lstrip_contains (c : ascii) (s : string) :
  is_space c = false → contains c (lstrip s) = contains c s.
Proof.
  intros Hc. induction s as [|c' s IH]; [done|]. simpl.
  destruct (is_space c') eqn:Hc'; [|done]. rewrite IH.
  destruct (Ascii.eqb_spec c c') as [<-|Hne]; [congruence|done].
Qed.

Lemma strip_contains (c : ascii) (s : string) :
  is_space c = false → contains c s = true → strip s ≠ "".
Proof.
  intros Hc Hin. unfold strip. apply (rstrip_contains c); [done|].
  by rewrite lstrip_contains.
Qed.

Lemma slash_after_colon_long (s : string) :
  slash_after_colon s = true → contains ":" s = true ∧ (1 < String.length s)%nat.
Proof.
  induction s as [|c s IH]; [done|]. simpl.
  destruct (Ascii.eqb_spec c ":") as [->|Hne].
  - intros Hs. split; [done|]. destruct s; [done|]. simpl. lia.
  - intros Hs. destruct (IH Hs) as [Hin Hlen].
    rewrite Hin, orb_true_r. split; [done|]. lia.
Qed.

Lemma blank_spec (s : string) :
  negb (truthy (PyStr s)) || negb (truthy (PyStr (strip s))) = true ↔ strip s = "".
Proof.
  simpl. rewrite !negb_involutive. split.
  - intros [Hs|Hs]%orb_true_iff.
    + by apply String.eqb_eq in Hs as ->.
    + by apply String.eqb_eq.
  - intros ->. simpl. by rewrite orb_true_r.
Qed.

Lemma name_and_tag_strip (s : string) : name_and_tag s → strip s ≠ "".
Proof.
  intros Hs. destruct (name_and_tag_plain s Hs) as (_ & _ & Hl).
  destruct Hs as (c & body & tail & -> & Hc & _).
  destruct (name_char_plain c (alnum_name_char c Hc)) as (_ & _ & Hw).
  apply (strip_contains c); [done|]. simpl. by rewrite Ascii.eqb_refl.
Qed.

Lemma re_match_image_name (s : string) :
  re_match_anchored image_name_pattern s = true ↔
  name_and_tag s ∨ ∃ s', chop_newline s = Some s' ∧ name_and_tag s'.
Proof.
  unfold re_match_anchored. rewrite orb_true_iff, matches_lang, lang_image_name.
  destruct (chop_newline s) as [s'|].
  - rewrite matches_lang, lang_image_name. split.
    + intros [H|H]; [by left|right; by exists s'].
    + intros [H|(s'' & [= <-] & H)]; [by left|by right].
  - split; [intros [H|H]; [by left|done]|].
    intros [H|(s'' & [=] & _)]. by left.
Qed.

(** The image-name check of the Docker generator, on names whose characters
    are code points below 256 (the strings of this development; [strip]
    takes off the white space of Python among them, [String.length] counts
    characters). It accepts exactly the names that are not blank, hold no
    space (U+0020) and either are one character long or have the shape
    [name] or [name:tag], possibly followed by a line feed. So every name of
    that shape is accepted, and so is any single character that is not white
    space; and a name in which a slash comes after the first colon, as when
    the name starts with a registry and its port, is rejected as badly
    formed. *)
Theorem image_name_validation (s : string) :
  (DockerConfigGenerator._validate_image_name s = Ok tt ↔
   strip s ≠ "" ∧ contains " " s = false ∧
   ((String.length s ≤ 1)%nat ∨ name_and_tag s ∨
    ∃ s', chop_newline s = Some s' ∧ name_and_tag s')) ∧
  (name_and_tag s → DockerConfigGenerator._validate_image_name s = Ok tt) ∧
  (slash_after_colon s = true → contains " " s = false →
   DockerConfigGenerator._validate_image_name s =
     Raise (ValidationError ("Invalid Docker image name format: " +:+ s))).
Proof.
  assert (Hiff : DockerConfigGenerator._validate_image_name s = Ok tt ↔
                 strip s ≠ "" ∧ contains " " s = false ∧
                 ((String.length s ≤ 1)%nat ∨ name_and_tag s ∨
                  ∃ s', chop_newline s = Some s' ∧ name_and_tag s')).
  { unfold DockerConfigGenerator._validate_image_name.
    destruct (negb (truthy (PyStr s)) || negb (truthy (PyStr (strip s)))) eqn:Hblank.
    { apply blank_spec in Hblank. split; [done|]. by intros [? _]. }
    assert (Hnb : strip s ≠ "").
    { intros Heq. apply blank_spec in Heq. congruence. }
    destruct (contains " " s) eqn:Hsp; [split; [done|by intros (_ & ? & _)]|].
    destruct (re_match_anchored image_name_pattern s) eqn:Hre; simpl.
    { apply re_match_image_name in Hre. split; [|done]. intros _. auto. }
    destruct (Nat.ltb_spec 1 (String.length s)) as [Hlen|Hlen].
    - split; [done|]. intros (_ & _ & [Hle|Hshape]); [lia|].
      apply re_match_image_name in Hshape. congruence.
    - split; [|done]. intros _. auto. }
  split; [exact Hiff|]. split.
  - intros Hs. apply Hiff. destruct (name_and_tag_plain s Hs) as (_ & Hsp & _).
    split; [by apply name_and_tag_strip|]. auto.
  - intros Hsl Hsp. destruct (slash_after_colon_long s Hsl) as [Hcolon Hlen].
    assert (Hnb : strip s ≠ "") by (by apply (strip_contains ":")).
    assert (Hre : re_match_anchored image_name_pattern s = false).
    { apply not_true_is_false. intros [Hs|(s' & Hchop & Hs)]%re_match_image_name.
      - destruct (name_and_tag_plain s Hs) as (Hno & _). congruence.
      - destruct (name_and_tag_plain s' Hs) as (Hno & _).
        apply chop_newline_spec in Hchop. subst s.
        rewrite slash_after_colon_newline in Hsl. congruence. }
    unfold DockerConfigGenerator._validate_image_name.
    destruct (negb (truthy (PyStr s)) || negb (truthy (PyStr (strip s)))) eqn:Hblank.
    { by apply blank_spec in Hblank. }
    rewrite Hsp, Hre. simpl. by destruct (Nat.ltb_spec 1 (String.length s)); [|lia].
Qed.

(** *** The Docker configuration *)

Lemma dict_get_set_eq (k : string) (v : json) (d : list (string * json)) :
  dict_get k (dict_set k v d) = Some v.
Proof.
  induction d as [|[k' v'] d IH]; simpl.
  - by rewrite String.eqb_refl.
  - destruct (String.eqb_spec k k') as [->|Hne]; simpl.
    + by rewrite String.eqb_refl.
    + by destruct (String.eqb_spec k k').
Qed.

Lemma dict_get_set_ne (k k0 : string) (v : json) (d : list (string * json)) :
  k0 ≠ k → dict_get k0 (dict_set k v d) = dict_get k0 d.
Proof.
  intros Hne. induction d as [|[k' v'] d IH]; simpl.
  - by destruct (String.eqb_spec k0 k).
  - destruct (String.eqb_spec k k') as [->|Hne']; simpl.
    + by destruct (String.eqb_spec k0 k').
    + by rewrite IH.
Qed.

Lemma dict_get_snoc_ne (k k0 : string) (v : json) (d : list (string * json)) :
  k0 ≠ k → dict_get k0 (d ++ [(k, v)]) = dict_get k0 d.
Proof.
  intros Hne. induction d as [|[k' v'] d IH]; simpl.
  - by destruct (String.eqb_spec k0 k).
  - by rewrite IH.
Qed.

Lemma dict_get_snoc_new (k : string) (v : json) (d : list (string * json)) :
  dict_get k d = None → dict_get k (d ++ [(k, v)]) = Some v.
Proof.
  induction d as [|[k' v'] d IH]; simpl.
  - by rewrite String.eqb_refl.
  - destruct (String.eqb_spec k k'); [done|]. apply IH.
Qed.

Lemma extend_each_spec (flag : string) (l docker_args : list string) :
  DockerConfigGenerator.extend_each flag l docker_args =
    docker_args ++ (l ≫= fun x => [flag; x]).
Proof.
  unfold DockerConfigGenerator.extend_each. revert docker_args.
  induction l as [|x l IH]; intros docker_args; simpl.
  - by rewrite app_nil_r.
  - rewrite IH. by rewrite <- app_assoc.
Qed.

(** The outcome of [merge_servers] on a dictionary, by its lookups. *)
Lemma merge_servers_spec (fields : list (string * json)) (c : HostConfig) (merged : json) :
  merge_servers (JObj fields) (servers_json c) = Ok merged →
  ∃ fields' old servers',
    merged = JObj fields' ∧
    dict_get "mcpServers" fields' = Some (JObj servers') ∧
    default (Some (JObj [])) (Some <$> dict_get "mcpServers" fields) = Some (JObj old) ∧
    dict_get (hc_server_name c) servers' = Some (entry_json (hc_entry c)) ∧
    (∀ n, n ≠ hc_server_name c → dict_get n servers' = dict_get n old) ∧
    (∀ k, k ≠ "mcpServers" → dict_get k fields' = dict_get k fields).
Proof.
  unfold merge_servers, servers_json, dict_update. simpl.
  destruct (dict_get "mcpServers" fields) as [v|] eqn:Hget.
  - rewrite Hget. destruct v as [| | | | |old]; try done.
    intros [= <-]. eexists _, old, _. split; [done|].
    split; [apply dict_get_set_eq|]. split; [done|].
    split; [apply dict_get_set_eq|].
    split; [intros n Hn; by apply dict_get_set_ne|].
    intros k Hk. by apply dict_get_set_ne.
  - rewrite (dict_get_snoc_new _ _ _ Hget).
    intros [= <-]. eexists _, [], _. split; [done|].
    split; [apply dict_get_set_eq|]. split; [done|].
    split; [simpl; by rewrite String.eqb_refl|].
    split; [intros n Hn; simpl; by destruct (String.eqb_spec n (hc_server_name c))|].
    intros k Hk. rewrite dict_get_set_ne by done. by apply dict_get_snoc_ne.
Qed.

(** Merging into the configuration file of the desktop application: when
    the file holds a dictionary whose [mcpServers] is a dictionary or is
    missing, the file is written again with the new server entry under its
    name, the other servers and every other key as they were. When the file
    is missing, cannot be opened or holds text that is not JSON, it is taken
    as empty without an error, so what is written holds the new entry alone.
    When reading fails otherwise (bytes that are no text, a
    UnicodeDecodeError; JSON nested too deep, a RecursionError), that
    exception goes up and nothing has changed. When the file cannot be written
    (the path is locked, or is a directory), the ValidationError is raised
    and nothing has changed. *)
Theorem merge_keeps_other_servers (c : HostConfig) (path : string) (h : Host) :
  (∀ fields merged,
     host_files h !! path = Some (JsonText (JObj fields)) →
     merge_servers (JObj fields) (servers_json c) = Ok merged →
     host_locked h !! path = None → path ∉ host_dirs h →
     ∃ fields' old servers',
       DockerConfigGenerator._merge_with_existing_config c path h =
         (Ok tt, set_host_files (<[path := JsonText (JObj fields')]> (host_files h)) h) ∧
       dict_get "mcpServers" fields' = Some (JObj servers') ∧
       default (Some (JObj [])) (Some <$> dict_get "mcpServers" fields) = Some (JObj old) ∧
       dict_get (hc_server_name c) servers' = Some (entry_json (hc_entry c)) ∧
       (∀ n, n ≠ hc_server_name c → dict_get n servers' = dict_get n old) ∧
       (∀ k, k ≠ "mcpServers" → dict_get k fields' = dict_get k fields)) ∧
  (host_files h !! path ∈ [None; Some NotJson; Some Unreadable] →
   host_locked h !! path = None → path ∉ host_dirs h →
   DockerConfigGenerator._merge_with_existing_config c path h =
     (Ok tt, set_host_files (<[path := JsonText (config_json c)]> (host_files h)) h)) ∧
  (∀ f reason,
     host_files h !! path = Some (Fails f reason) →
     DockerConfigGenerator._merge_with_existing_config c path h =
       (Raise (PyException (read_failure_name f) reason), h)) ∧
  (∀ merged,
     (∀ f reason, host_files h !! path ≠ Some (Fails f reason)) →
     merge_servers (match host_files h !! path with
                    | Some (JsonText j) => j
                    | _ => JObj []
                    end) (servers_json c) = Ok merged →
     (∀ text, host_locked h !! path = Some text →
        DockerConfigGenerator._merge_with_existing_config c path h =
          (Raise (ValidationError ("Could not write config file: " +:+ text)), h)) ∧
     (host_locked h !! path = None → path ∈ host_dirs h →
        DockerConfigGenerator._merge_with_existing_config c path h =
          (Raise (ValidationError ("Could not write config file: [Errno 21] Is a directory: '"
                                   +:+ path +:+ "'")), h))).
Proof.
  unfold DockerConfigGenerator._merge_with_existing_config, write_json.
  refine (conj _ (conj _ (conj _ _))).
  - intros fields merged Hfile Hmerge Hlock Hdir. rewrite Hfile, Hmerge, Hlock.
    rewrite bool_decide_eq_false_2 by done.
    destruct (merge_servers_spec _ _ _ Hmerge) as (fields' & old & servers' & -> & Hrest).
    by exists fields', old, servers'.
  - intros Hfile Hlock Hdir.
    destruct (host_files h !! path) as [[j| |f reason|]|].
    + exfalso. repeat (apply elem_of_cons in Hfile as [Hfile|Hfile]; [discriminate|]).
      by apply elem_of_nil in Hfile.
    + simpl. rewrite Hlock. by rewrite bool_decide_eq_false_2 by done.
    + exfalso. repeat (apply elem_of_cons in Hfile as [Hfile|Hfile]; [discriminate|]).
      by apply elem_of_nil in Hfile.
    + simpl. rewrite Hlock. by rewrite bool_decide_eq_false_2 by done.
    + simpl. rewrite Hlock. by rewrite bool_decide_eq_false_2 by done.
  - intros f reason Hfile. by rewrite Hfile.
  - intros merged Htext Hmerge.
    assert (Hread :
      match host_files h !! path with
      | Some (JsonText j) => Ok j
      | Some NotJson => Ok (JObj [])
      | Some (Fails f reason) => Raise (PyException (read_failure_name f) reason)
      | Some Unreadable => Ok (JObj [])
      | None => Ok (JObj [])
      end = Ok (match host_files h !! path with
                | Some (JsonText j) => j
                | _ => JObj []
                end)).
    { destruct (host_files h !! path) as [[j| |f reason|]|]; try done.
      by destruct (Htext f reason). }
    rewrite Hread, Hmerge. split.
    + intros text Hlock. by rewrite Hlock.
    + intros Hlock Hdir. rewrite Hlock. by rewrite bool_decide_eq_true_2 by done.
Qed.

Lemma docker_generate_spec (config : StackConfig) (image_name server_name : string)
    (volumes ports : option (list string)) (network : option string)
    (extra_docker_args : option (list string)) :
  DockerConfigGenerator.generate config image_name server_name volumes ports network
    extra_docker_args =
    match DockerConfigGenerator._validate_image_name image_name with
    | Raise e => Raise e
    | Ok _ =>
        Ok {| hc_server_name := server_name;
              hc_entry :=
                {| se_command := "docker";
                   se_args := ["run"; "-i"; "--rm"] ++
                              (default [] volumes ≫= fun v => ["-v"; v]) ++
                              (default [] ports ≫= fun p => ["-p"; p]) ++
                              match network with
                              | Some n => if String.eqb n "" then [] else ["--network"; n]
                              | None => []
                              end ++
                              default [] extra_docker_args ++ [image_name];
                   se_cwd := None;
                   se_env := env_vars config |} |}
    end.
Proof.
  unfold DockerConfigGenerator.generate.
  destruct (DockerConfigGenerator._validate_image_name image_name); [|done].
  do 3 f_equal.
  assert (Hv : ∀ flag (o : option (list string)) acc,
            match o with
            | Some l => if truthy (PyList l)
                        then DockerConfigGenerator.extend_each flag l acc else acc
            | None => acc
            end = acc ++ (default [] o ≫= fun x => [flag; x])).
  { intros flag [l|] acc; [|simpl; by rewrite app_nil_r].
    destruct l as [|x l]; [simpl; by rewrite app_nil_r|].
    cbn [truthy default from_option id]. by rewrite extend_each_spec. }
  rewrite !Hv.
  assert (He : ∀ acc : list string,
            match extra_docker_args with
            | Some l => if truthy (PyList l) then acc ++ l else acc
            | None => acc
            end = acc ++ default [] extra_docker_args).
  { intros acc. destruct extra_docker_args as [[|x l]|]; simpl; by rewrite ?app_nil_r. }
  rewrite He.
  destruct network as [n|]; simpl.
  - destruct (String.eqb n ""); simpl; by rewrite <- ?app_assoc.
  - by rewrite <- ?app_assoc.
Qed.

(** The arguments of the container command: [run -i --rm], a [-v] before
    each volume, a [-p] before each port, [--network] and the network when
    one is named, the extra arguments as given, and the image name last. An
    empty list or an empty network name adds nothing. The entry's environment
    is the configuration's overrides; nothing is generated for a name the
    check rejects. *)
Theorem docker_generate_arguments (config : StackConfig) (image_name server_name : string)
    (volumes ports : option (list string)) (network : option string)
    (extra_docker_args : option (list string)) (c : HostConfig) :
  DockerConfigGenerator.generate config image_name server_name volumes ports network
    extra_docker_args = Ok c →
  DockerConfigGenerator._validate_image_name image_name = Ok tt ∧
  hc_server_name c = server_name ∧
  se_command (hc_entry c) = "docker" ∧ se_cwd (hc_entry c) = None ∧
  se_env (hc_entry c) = env_vars config ∧
  se_args (hc_entry c) =
    ["run"; "-i"; "--rm"] ++
    (default [] volumes ≫= fun v => ["-v"; v]) ++
    (default [] ports ≫= fun p => ["-p"; p]) ++
    match network with
    | Some n => if String.eqb n "" then [] else ["--network"; n]
    | None => []
    end ++
    default [] extra_docker_args ++ [image_name] ∧
  last (se_args (hc_entry c)) = Some image_name ∧
  length (se_args (hc_entry c)) =
    4 + 2 * length (default [] volumes) + 2 * length (default [] ports) +
    match network with
    | Some n => if String.eqb n "" then 0 else 2
    | None => 0
    end + length (default [] extra_docker_args).
Proof.
  rewrite docker_generate_spec.
  destruct (DockerConfigGenerator._validate_image_name image_name) as [[]|e]; [|done].
  intros [= <-]. cbn [hc_entry hc_server_name se_command se_args se_cwd se_env].
  do 6 (split; [done|]). split.
  - rewrite !app_assoc.
    match goal with |- last (?a :: ?b :: ?c :: ?l ++ [?x]) = _ =>
      change (last ((a :: b :: c :: l) ++ [x]) = Some x) end.
    apply last_snoc.
  - assert (Hb : ∀ flag (l : list string), length (l ≫= fun x => [flag; x]) = 2 * length l).
    { intros flag l. induction l as [|x l IH]; [done|].
      change (length (flag :: x :: (l ≫= fun x => [flag; x])) = 2 * S (length l)).
      cbn [length]. rewrite IH. lia. }
    cbn [length]. rewrite !length_app, !Hb. cbn [length].
    destruct network as [n|]; [destruct (String.eqb n "")|]; cbn [length]; lia.
Qed.

(** The generator registered for the Docker format returns a configuration
    whose environment has MCPSTACK_CONFIG_PATH set to the pipeline path it
    was given, and writes another one: what goes to the file, at [save_path]
    or merged into the desktop application's configuration, is generated
    again, and its environment is the configuration's overrides as they are.
    So unless the overrides hold the variable, the entry written to the file
    has no MCPSTACK_CONFIG_PATH. A file is written on every call that
    returns, except when there is neither a [save_path] nor a directory of
    the desktop application. *)
Theorem docker_mcp_returns_path_saves_none (config : StackConfig) (kwargs : build_kwargs)
    (image_name server_name : string) (volumes ports : option (list string))
    (network : option string) (extra_docker_args : option (list string))
    (h h' : Host) (c : HostConfig) :
  DockerMCPConfigGenerator.generate config kwargs image_name server_name volumes ports
    network extra_docker_args h = (Ok c, h') →
  ∃ c0,
    DockerConfigGenerator.generate config image_name server_name volumes ports network
      extra_docker_args = Ok c0 ∧
    se_env (hc_entry c0) = env_vars config ∧
    (∀ p, pipeline_config_path kwargs = Some p → p ≠ "" →
       se_env (hc_entry c) = <["MCPSTACK_CONFIG_PATH" := p]> (env_vars config)) ∧
    (∀ p, save_path kwargs = Some p → p ≠ "" →
       h' = set_host_files (<[p := JsonText (config_json c0)]> (host_files h)) h) ∧
    (truthy (of_optional (save_path kwargs)) = false →
       match _get_claude_config_path h with
       | None => h' = h
       | Some path =>
           ∃ fields servers,
             h' = set_host_files (<[path := JsonText (JObj fields)]> (host_files h)) h ∧
             dict_get "mcpServers" fields = Some (JObj servers) ∧
             dict_get server_name servers = Some (entry_json (hc_entry c0))
       end).
Proof.
  unfold DockerMCPConfigGenerator.generate.
  destruct (DockerConfigGenerator.generate config image_name server_name volumes ports
              network extra_docker_args) as [c0|e] eqn:Hgen; [|done].
  assert (Hc0 : hc_server_name c0 = server_name ∧ se_env (hc_entry c0) = env_vars config).
  { rewrite docker_generate_spec in Hgen.
    destruct (DockerConfigGenerator._validate_image_name image_name); [|done].
    by injection Hgen as <-. }
  destruct Hc0 as [Hname Henv].
  assert (Hsave : ∀ sp, (if truthy (of_optional (save_path kwargs))
             then DockerConfigGenerator.save config image_name server_name (save_path kwargs)
                    volumes ports network extra_docker_args h
             else DockerConfigGenerator.save config image_name server_name None
                    volumes ports network extra_docker_args h) = sp →
            sp = (if truthy (of_optional (save_path kwargs))
                  then write_json (default "" (save_path kwargs)) (config_json c0) h
                  else match _get_claude_config_path h with
                       | Some path =>
                           DockerConfigGenerator._merge_with_existing_config c0 path h
                       | None => (Ok tt, h)
                       end)).
  { intros sp <-. unfold DockerConfigGenerator.save. rewrite Hgen.
    by destruct (truthy (of_optional (save_path kwargs))) eqn:Hsp. }
  destruct (if truthy (of_optional (save_path kwargs))
            then DockerConfigGenerator.save config image_name server_name (save_path kwargs)
                   volumes ports network extra_docker_args h
            else DockerConfigGenerator.save config image_name server_name None
                   volumes ports network extra_docker_args h) as [r hs] eqn:Hs.
  specialize (Hsave _ eq_refl). destruct r as [[]|e]; [|done].
  intros [= <- <-]. exists c0. split; [done|]. split; [done|].
  split.
  { intros p Hp Hne. rewrite Hp. change (of_optional (Some p)) with (PyStr p).
    rewrite (truthy_str _ Hne). simpl. by rewrite Henv. }
  split.
  { intros p Hp Hne. rewrite Hp in Hsave. change (of_optional (Some p)) with (PyStr p) in Hsave.
    rewrite (truthy_str _ Hne) in Hsave. simpl in Hsave. unfold write_json in Hsave.
    destruct (host_locked h !! p); [done|].
    destruct (bool_decide (p ∈ host_dirs h)); [done|]. by injection Hsave as ->. }
  intros Hno. rewrite Hno in Hsave.
  destruct (_get_claude_config_path h) as [path|]; [|by injection Hsave as ->].
  unfold DockerConfigGenerator._merge_with_existing_config in Hsave.
  destruct (match host_files h !! path with
            | Some (JsonText j) => Ok j
            | Some NotJson => Ok (JObj [])
            | Some (Fails f reason) => Raise (PyException (read_failure_name f) reason)
            | Some Unreadable => Ok (JObj [])
            | None => Ok (JObj [])
            end) as [existing|e]; [|done].
  destruct (merge_servers existing (servers_json c0)) as [merged|e] eqn:Hmerge; [|done].
  unfold write_json in Hsave. destruct (host_locked h !! path); [done|].
  destruct (bool_decide (path ∈ host_dirs h)); [done|].
  injection Hsave as ->.
  assert (Hobj : ∃ fields, existing = JObj fields).
  { destruct existing; try discriminate Hmerge. eauto. }
  destruct Hobj as [fields Hobj]. rewrite Hobj in Hmerge.
  destruct (merge_servers_spec _ _ _ Hmerge)
    as (fields' & old & servers' & -> & Hget & _ & Hentry & _).
  exists fields', servers'. rewrite Hname in Hentry. done.
Qed.

(** *** The generator for the desktop application *)

Lemma get_env_var_string (config : StackConfig) (environ : gmap string string)
    (key default : string) :
  ClaudeConfigGenerator.returns_str (get_env_var config environ key (PyStr default) false) =
    Ok match env_vars config !! key with
       | Some v => v
       | None => match environ !! key with Some v => v | None => default end
       end.
Proof.
  unfold get_env_var, os_getenv.
  destruct (env_vars config !! key) as [v|]; simpl; [by rewrite py_or_str|].
  destruct (environ !! key) as [v|]; simpl; by rewrite py_or_str.
Qed.

Lemma get_args_default (config : StackConfig) (environ : gmap string string)
    (module_name : string) :
  ClaudeConfigGenerator._get_args None config environ module_name = Ok ["-m"; module_name].
Proof.
  unfold ClaudeConfigGenerator._get_args, get_env_var, os_getenv.
  destruct (env_vars config !! "MCPSTACK_ARGS") as [v|]; simpl; [by rewrite py_or_str|].
  destruct (environ !! "MCPSTACK_ARGS") as [v|]; simpl; [by rewrite py_or_str|done].
Qed.

Lemma lstrip_sep_app (v x : string) :
  lstrip_sep v ≠ "" → lstrip_sep (v +:+ x) = lstrip_sep v +:+ x.
Proof.
  induction v as [|c v IH]; [done|]. rewrite string_app_cons. simpl.
  destruct (Ascii.eqb c "/"); [exact IH|]. intros _. by rewrite string_app_cons.
Qed.

Lemma split_cons (sep : ascii) (s : string) : ∃ x l, split sep s = x :: l.
Proof.
  induction s as [|c s (x & l & IH)]; [by exists "", []|]. simpl.
  destruct (Ascii.eqb c sep); [by eexists _, _|]. rewrite IH. by eexists _, _.
Qed.

Lemma split_snoc (sep : ascii) (s : string) :
  split sep (s +:+ String sep "") = split sep s ++ [""].
Proof.
  induction s as [|c s IH].
  - rewrite string_app_nil_l. simpl. by rewrite Ascii.eqb_refl.
  - rewrite string_app_cons. simpl. rewrite IH.
    destruct (Ascii.eqb c sep); [done|].
    by destruct (split_cons sep s) as (x & l & ->).
Qed.

Lemma string_length_app (a b : string) :
  String.length (a +:+ b) = String.length a + String.length b.
Proof.
  induction a as [|c a IH]; [by rewrite string_app_nil_l|].
  rewrite string_app_cons. simpl. by rewrite IH.
Qed.

(** A separator at the end of a path that does not consist of separators
    only is dropped by [Path]. *)
Lemma parse_path_trailing_sep (v : string) :
  lstrip_sep v ≠ "" → parse_path (v +:+ "/") = parse_path v.
Proof.
  intros Hv. unfold parse_path, splitroot.
  rewrite (lstrip_sep_app _ _ Hv), !string_length_app.
  replace (String.length v + String.length "/" -
           (String.length (lstrip_sep v) + String.length "/"))
    with (String.length v - String.length (lstrip_sep v)) by lia.
  set (n := String.length v - String.length (lstrip_sep v)).
  assert (Hfilter : ∀ rel, List.filter not_dot (split "/" (rel +:+ "/")) =
                           List.filter not_dot (split "/" rel)).
  { intros rel. rewrite split_snoc, List.filter_app. simpl. by rewrite app_nil_r. }
  destruct (n =? 0); [by rewrite Hfilter|].
  destruct (n =? 2); by rewrite Hfilter.
Qed.

(** How the generator fills in what the caller leaves out. The arguments
    default to [-m] and the module name, whatever MCPSTACK_ARGS is set to, in
    the overrides or in the environment: its value is a string and only a
    list is taken. The command is the interpreter of the active virtual
    environment when there is one, before MCPSTACK_COMMAND is looked at: the
    path that [pathlib] makes of VIRTUAL_ENV, bin and python, which is the
    same with and without a separator at the end of VIRTUAL_ENV. Without
    such an interpreter it is MCPSTACK_COMMAND from the overrides, else from
    the environment, else the first of python and python3 found on PATH,
    else python. *)
Theorem claude_defaults (config : StackConfig) (environ : gmap string string) (h : Host)
    (module_name : string) :
  ClaudeConfigGenerator._get_args None config environ module_name = Ok ["-m"; module_name] ∧
  (∀ v, environ !! "VIRTUAL_ENV" = Some v →
     path_exists h (venv_python v) = true →
     ClaudeConfigGenerator._get_command None config environ h = Ok (venv_python v)) ∧
  (∀ v, lstrip_sep v ≠ "" → venv_python (v +:+ "/") = venv_python v) ∧
  ((∀ v, environ !! "VIRTUAL_ENV" = Some v → path_exists h (venv_python v) = false) →
   ClaudeConfigGenerator._get_command None config environ h =
     Ok match env_vars config !! "MCPSTACK_COMMAND", environ !! "MCPSTACK_COMMAND" with
        | Some c, _ => c
        | None, Some c => c
        | None, None =>
            match host_which h "python", host_which h "python3" with
            | Some p, _ => if String.eqb p "" then
                             match host_which h "python3" with
                             | Some p3 => if String.eqb p3 "" then "python" else p3
                             | None => "python"
                             end
                           else p
            | None, Some p3 => if String.eqb p3 "" then "python" else p3
            | None, None => "python"
            end
        end).
Proof.
  refine (conj _ (conj _ (conj _ _))).
  - apply get_args_default.
  - intros v Hv Hex. unfold ClaudeConfigGenerator._get_command. by rewrite Hv, Hex.
  - intros v Hv. unfold venv_python. by rewrite (parse_path_trailing_sep v Hv).
  - intros Hno. unfold ClaudeConfigGenerator._get_command.
    assert (Hvenv : match environ !! "VIRTUAL_ENV" with
                    | Some v => if path_exists h (venv_python v)
                                then Some (venv_python v) else None
                    | None => None
                    end = None).
    { destruct (environ !! "VIRTUAL_ENV") as [v|]; [|done]. by rewrite (Hno v eq_refl). }
    rewrite Hvenv, get_env_var_string. f_equal.
    destruct (env_vars config !! "MCPSTACK_COMMAND"); [done|].
    destruct (environ !! "MCPSTACK_COMMAND"); [done|].
    unfold or_else.
    destruct (host_which h "python") as [p|]; simpl.
    + destruct (String.eqb p ""); simpl; [|done].
      destruct (host_which h "python3") as [p3|]; simpl; [|done].
      by destruct (String.eqb p3 "").
    + destruct (host_which h "python3") as [p3|]; simpl; [|done].
      by destruct (String.eqb p3 "").
Qed.

(** The generator for the desktop application writes what it returns, or
    nothing. When it raises, no file has changed. When it returns, the
    command is on PATH and the working directory exists; the arguments are
    the ones given, or [-m] and the module; the environment is the
    configuration's overrides, with MCPSTACK_CONFIG_PATH set to the pipeline
    path when one is given; and the entry written, alone at [save_path] or
    under the name mcpstack in the desktop application's configuration, is
    the entry returned. *)
Theorem claude_generate_writes_what_it_returns (config : StackConfig)
    (environ : gmap string string) (kwargs : build_kwargs) (h h' : Host)
    (r : result HostConfig) :
  ClaudeConfigGenerator.generate config environ kwargs h = (r, h') →
  (∀ e, r = Raise e → h' = h) ∧
  (∀ c, r = Ok c →
     hc_server_name c = "mcpstack" ∧
     truthy (of_optional (host_which h (se_command (hc_entry c)))) = true ∧
     (∃ d, se_cwd (hc_entry c) = Some d ∧ d ∈ host_dirs h) ∧
     (∃ m, ClaudeConfigGenerator._get_module_name (module_name kwargs) config environ = Ok m ∧
           se_args (hc_entry c) = default ["-m"; m] (args kwargs)) ∧
     se_env (hc_entry c) =
       (if truthy (of_optional (pipeline_config_path kwargs))
        then <["MCPSTACK_CONFIG_PATH" := default "" (pipeline_config_path kwargs)]>
               (env_vars config)
        else env_vars config) ∧
     (∀ p, save_path kwargs = Some p → p ≠ "" →
        h' = set_host_files (<[p := JsonText (config_json c)]> (host_files h)) h) ∧
     (truthy (of_optional (save_path kwargs)) = false →
        match _get_claude_config_path h with
        | None => h' = h
        | Some path =>
            ∃ fields servers,
              h' = set_host_files (<[path := JsonText (JObj fields)]> (host_files h)) h ∧
              dict_get "mcpServers" fields = Some (JObj servers) ∧
              dict_get "mcpstack" servers = Some (entry_json (hc_entry c))
        end)).
Proof.
  unfold ClaudeConfigGenerator.generate.
  destruct (ClaudeConfigGenerator._get_command (command kwargs) config environ h)
    as [_command|e0]; [|intros [= <- <-]; split; [done|by intros c [=]]].
  destruct (ClaudeConfigGenerator._get_module_name (module_name kwargs) config environ)
    as [_module_name|e0] eqn:Hmod; [|intros [= <- <-]; split; [done|by intros c [=]]].
  destruct (ClaudeConfigGenerator._get_args (args kwargs) config environ _module_name)
    as [_args|e0] eqn:Hargs; [|intros [= <- <-]; split; [done|by intros c [=]]].
  destruct (ClaudeConfigGenerator._get_cwd (cwd kwargs) config environ h)
    as [_cwd|e0]; [|intros [= <- <-]; split; [done|by intros c [=]]].
  destruct (truthy (of_optional (host_which h _command))) eqn:Hwhich; simpl;
    [|intros [= <- <-]; split; [done|by intros c [=]]].
  destruct (bool_decide (_cwd ∈ host_dirs h)) eqn:Hdir; simpl;
    [|intros [= <- <-]; split; [done|by intros c [=]]].
  apply bool_decide_eq_true_1 in Hdir.
  set (new_config := {| hc_server_name := "mcpstack"; hc_entry := _ |}).
  assert (Hwrite : ∀ rw hw, ClaudeConfigGenerator.write_config new_config (save_path kwargs) h =
                              (rw, hw) →
            (∀ e, rw = Raise e → hw = h) ∧
            (rw = Ok tt →
             (∀ p, save_path kwargs = Some p → p ≠ "" →
                hw = set_host_files (<[p := JsonText (config_json new_config)]> (host_files h)) h) ∧
             (truthy (of_optional (save_path kwargs)) = false →
                match _get_claude_config_path h with
                | None => hw = h
                | Some path =>
                    ∃ fields servers,
                      hw = set_host_files (<[path := JsonText (JObj fields)]> (host_files h)) h ∧
                      dict_get "mcpServers" fields = Some (JObj servers) ∧
                      dict_get "mcpstack" servers = Some (entry_json (hc_entry new_config))
                end))).
  { intros rw hw. unfold ClaudeConfigGenerator.write_config.
    assert (Hwj : ∀ p j r' h'', write_json p j h = (r', h'') →
              (∀ e, r' = Raise e → h'' = h) ∧
              (r' = Ok tt → h'' = set_host_files (<[p := JsonText j]> (host_files h)) h)).
    { intros p j r' h''. unfold write_json.
      destruct (host_locked h !! p); [intros [= <- <-]; split; [done|intros [=]]|].
      destruct (bool_decide (p ∈ host_dirs h)); intros [= <- <-].
      - split; [done|intros [=]].
      - split; [by intros e [=]|done]. }
    destruct (truthy (of_optional (save_path kwargs))) eqn:Hsp.
    - intros Hw. destruct (Hwj _ _ _ _ Hw) as [Hr Ho]. split; [exact Hr|].
      intros ->. split; [|done]. intros p Hp _. rewrite Hp in Ho. by apply Ho.
    - assert (Hnone : ∀ p, save_path kwargs = Some p → p ≠ "" → False).
      { intros p Hp Hne. rewrite Hp in Hsp. change (of_optional (Some p)) with (PyStr p) in Hsp.
        by rewrite (truthy_str _ Hne) in Hsp. }
      destruct (_get_claude_config_path h) as [path|].
      2:{ intros [= <- <-]. split; [done|]. intros _. split; [|done].
          intros p Hp Hne. by destruct (Hnone p Hp Hne). }
      destruct (match host_files h !! path with
                | Some (JsonText j) => Ok j
                | Some NotJson => Raise (PyException "JSONDecodeError" path)
                | Some (Fails f reason) => Raise (PyException (read_failure_name f) reason)
                | Some Unreadable => Raise (PyException "OSError" path)
                | None =>
                    if bool_decide (path ∈ host_dirs h)
                    then Raise (PyException "OSError"
                                  ("[Errno 21] Is a directory: '" +:+ path +:+ "'"))
                    else Ok (JObj [])
                end) as [existing|e]; [|intros [= <- <-]; split; [done|intros [=]]].
      destruct (merge_servers existing (servers_json new_config)) as [merged|e] eqn:Hmerge;
        [|intros [= <- <-]; split; [done|]; intros [=]].
      intros Hw. destruct (Hwj _ _ _ _ Hw) as [Hr Ho]. split; [exact Hr|].
      intros ->. split.
      { intros p Hp Hne. by destruct (Hnone p Hp Hne). }
      intros _. rewrite (Ho eq_refl).
      destruct existing; try discriminate Hmerge.
      destruct (merge_servers_spec _ _ _ Hmerge)
        as (fields' & old & servers' & -> & Hget & _ & Hentry & _).
      by exists fields', servers'. }
  destruct (ClaudeConfigGenerator.write_config new_config (save_path kwargs) h)
    as [rw hw] eqn:Hw.
  destruct (Hwrite rw hw eq_refl) as [Hraise Hok].
  destruct rw as [[]|e]; intros [= <- <-].
  - split; [by intros e [=]|]. intros c [= <-].
    destruct (Hok eq_refl) as [Hpath Hmerge].
    split; [done|]. split; [done|]. split; [by exists _cwd|].
    split; [|done].
    exists _module_name. split; [done|]. simpl.
    destruct (args kwargs) as [a|]; [simpl in Hargs; by injection Hargs as ->|].
    rewrite get_args_default in Hargs. by injection Hargs as <-.
  - split; [|by intros c [=]]. intros e' _. by apply (Hraise e).
Qed.

(** *** The Dockerfile *)

Lemma append_env_spec (items : list (string * string)) (lines : list string) :
  DockerfileGenerator.append_env items lines =
    lines ++ (DockerfileGenerator.env_line <$> items).
Proof.
  unfold DockerfileGenerator.append_env. revert lines.
  induction items as [|kv items IH]; intros lines; simpl.
  - by rewrite app_nil_r.
  - rewrite IH. by rewrite <- app_assoc.
Qed.


Lemma prefix_app (p x : string) : String.prefix p (p +:+ x) = true.
Proof.
  induction p as [|a p IH]; [by destruct x|].
  rewrite string_app_cons. simpl. by destruct (ascii_dec a a).
Qed.

Lemma filter_env_lines (items : list (string * string)) :
  filter (fun l => String.prefix "ENV " l = true) (DockerfileGenerator.env_line <$> items) =
    DockerfileGenerator.env_line <$> items.
Proof.
  induction items as [|kv items IH]; [done|].
  rewrite fmap_cons, filter_cons_True by apply prefix_app. by rewrite IH.
Qed.

(** The lines of [generate], part by part. *)
Lemma generate_lines_spec (env_vars : list (string * string)) (base_image : string)
    (package_name : option string) (requirements : option (list string))
    (local_package_path : option string) (cmd : option (list string))
    (workdir : string) (expose_port : Z) :
  DockerfileGenerator.generate_lines env_vars base_image package_name requirements
    local_package_path cmd workdir expose_port =
    ["FROM " +:+ base_image; "WORKDIR " +:+ workdir] ++
    (if String.prefix "python:" base_image && DockerfileGenerator.is_in "slim" base_image
     then ["RUN apt-get update && apt-get install -y --no-install-recommends \";
           "    curl \"; "    && rm -rf /var/lib/apt/lists/*"]
     else []) ++
    (if truthy (of_optional local_package_path)
     then ["COPY " +:+ default "" local_package_path +:+ " " +:+ workdir +:+ "/mcpstack";
           "RUN pip install -e " +:+ workdir +:+ "/mcpstack"]
     else if truthy (of_optional package_name)
     then ["RUN pip install " +:+ default "" package_name]
     else []) ++
    (if truthy (PyList (default [] requirements))
     then ["RUN pip install " +:+ String.concat " " (default [] requirements)] else []) ++
    (DockerfileGenerator.env_line <$> env_vars) ++
    ["EXPOSE " +:+ pretty expose_port;
     if truthy (PyList (default [] cmd))
     then "CMD [" +:+ DockerfileGenerator.dq +:+
          String.concat (DockerfileGenerator.dq +:+ ", " +:+ DockerfileGenerator.dq)
            (default [] cmd) +:+ DockerfileGenerator.dq +:+ "]"
     else DockerfileGenerator.default_cmd].
Proof.
  unfold DockerfileGenerator.generate_lines.
  assert (Henv : ∀ lines, match env_vars with
                          | [] => lines
                          | _ => DockerfileGenerator.append_env env_vars lines
                          end = lines ++ (DockerfileGenerator.env_line <$> env_vars)).
  { intros lines. destruct env_vars; [by rewrite app_nil_r|apply append_env_spec]. }
  rewrite Henv.
  destruct (String.prefix "python:" base_image && DockerfileGenerator.is_in "slim" base_image);
    destruct (truthy (of_optional local_package_path));
    destruct (truthy (of_optional package_name));
    destruct requirements as [[|r reqs]|]; destruct cmd as [[|c l]|];
    cbn [truthy default from_option id app]; rewrite <- ?app_assoc; reflexivity.
Qed.

(** *** The lines of the text *)

Lemma pretty_N_go_contains (c : ascii) (x : N) (s : string) :
  is_digit c = false → contains c (pretty_N_go x s) = contains c s.
Proof.
  intros Hc. revert s. induction (N.lt_wf_0 x) as [x _ IH]; intros s.
  assert (x = 0 ∨ 0 < x)%N as [->|Hpos] by lia.
  - by rewrite pretty_N_go_0.
  - rewrite pretty_N_go_step by done. rewrite IH by (by apply N.div_lt). simpl.
    assert (Hd : Ascii.eqb c (pretty_N_char (x `mod` 10)) = false).
    { destruct (Ascii.eqb_spec c (pretty_N_char (x `mod` 10))) as [Heq|]; [|done].
      rewrite Heq in Hc. unfold pretty_N_char in Hc. by repeat case_match. }
    by rewrite Hd.
Qed.

Lemma pretty_Z_contains (c : ascii) (z : Z) :
  is_digit c = false → Ascii.eqb c "-" = false → contains c (pretty z) = false.
Proof.
  intros Hc Hm.
  assert (Hpos : ∀ p : positive, contains c (pretty p) = false).
  { intros p. unfold pretty, pretty_positive, pretty, pretty_N.
    destruct (decide (N.pos p = 0%N)); [done|]. by rewrite pretty_N_go_contains. }
  destruct z as [|p|p]; unfold pretty, pretty_Z.
  - simpl. destruct (Ascii.eqb_spec c "0") as [->|]; [discriminate Hc|done].
  - apply Hpos.
  - rewrite contains_app, Hpos. simpl. by rewrite Hm.
Qed.

Lemma split_plain (sep : ascii) (s : string) : contains sep s = false → split sep s = [s].
Proof.
  induction s as [|c s IH]; [done|]. simpl. rewrite (Ascii.eqb_sym sep c).
  destruct (Ascii.eqb c sep); [done|]. intros Hs. by rewrite (IH Hs).
Qed.

Lemma split_sep (sep : ascii) (s rest : string) :
  contains sep s = false → split sep (s +:+ String sep rest) = s :: split sep rest.
Proof.
  induction s as [|c s IH].
  - intros _. rewrite string_app_nil_l. simpl. by rewrite Ascii.eqb_refl.
  - rewrite string_app_cons. simpl. rewrite (Ascii.eqb_sym sep c).
    destruct (Ascii.eqb c sep); [done|]. intros Hs. by rewrite (IH Hs).
Qed.

(** Joining lines that hold no line feed and splitting the text at the line
    feeds gives the lines back. *)
Lemma split_concat (sep : ascii) (l : list string) :
  l ≠ [] → Forall (fun s => contains sep s = false) l →
  split sep (String.concat (String sep "") l) = l.
Proof.
  intros Hne Hall. induction Hall as [|s l Hs Hall IH]; [done|].
  destruct l as [|s' l]; [by apply split_plain|].
  change (String.concat (String sep "") (s :: s' :: l))
    with (s +:+ String sep "" +:+ String.concat (String sep "") (s' :: l)).
  change (String sep "" +:+ ?x) with (String sep x).
  rewrite (split_sep _ _ _ Hs). by rewrite IH.
Qed.

Lemma dockerfile_lines (sep : ascii) (l : list string) :
  l ≠ [] → Forall (fun s => contains sep s = false) l →
  split sep (String.concat (String sep "") l +:+ String sep "") = l ++ [""].
Proof. intros Hne Hall. by rewrite split_snoc, split_concat. Qed.

Lemma concat_contains (c : ascii) (sep : string) (l : list string) :
  contains c sep = false → Forall (fun s => contains c s = false) l →
  contains c (String.concat sep l) = false.
Proof.
  intros Hsep Hall. induction Hall as [|s l Hs Hall IH]; [done|].
  destruct l as [|s' l]; [done|].
  change (String.concat sep (s :: s' :: l)) with (s +:+ sep +:+ String.concat sep (s' :: l)).
  by rewrite !contains_app, Hs, Hsep, IH.
Qed.

(** The lines of [generate] hold no line feed when the arguments hold
    none. *)
Lemma generate_lines_plain (env_vars : list (string * string)) (base_image : string)
    (package_name : option string) (requirements : option (list string))
    (local_package_path : option string) (cmd : option (list string))
    (workdir : string) (expose_port : Z) :
  Forall (fun s => contains "010" s = false)
    ([base_image; workdir; default "" package_name; default "" local_package_path] ++
     default [] requirements ++ default [] cmd ++ (env_vars ≫= fun kv => [kv.1; kv.2])) →
  Forall (fun s => contains "010" s = false)
    (DockerfileGenerator.generate_lines env_vars base_image package_name requirements
       local_package_path cmd workdir expose_port).
Proof.
  intros Hall. rewrite generate_lines_spec.
  apply Forall_app in Hall as [Hfour Hall].
  apply Forall_app in Hall as [Hreqs Hall].
  apply Forall_app in Hall as [Hcmd Henv].
  apply Forall_cons in Hfour as [Hbase Hfour].
  apply Forall_cons in Hfour as [Hwork Hfour].
  apply Forall_cons in Hfour as [Hpkg Hfour].
  apply Forall_cons in Hfour as [Hlocal _].
  repeat apply Forall_app_2.
  - repeat constructor; by rewrite contains_app, ?Hbase, ?Hwork.
  - destruct (_ && _); repeat constructor.
  - destruct (truthy (of_optional local_package_path)).
    + repeat constructor; by rewrite !contains_app, ?Hlocal, ?Hwork.
    + destruct (truthy (of_optional package_name)); repeat constructor.
      by rewrite contains_app, Hpkg.
  - destruct (truthy (PyList (default [] requirements))); repeat constructor.
    rewrite contains_app. by rewrite (concat_contains "010" " " _ eq_refl Hreqs).
  - apply Forall_fmap. apply Forall_bind in Henv.
    eapply Forall_impl; [exact Henv|]. intros [k v] Hkv. simpl in *.
    apply Forall_cons in Hkv as [Hk Hkv]. apply Forall_cons in Hkv as [Hv _].
    unfold DockerfileGenerator.env_line. simpl. by rewrite !contains_app, Hk, Hv.
  - repeat constructor.
    + rewrite contains_app. by rewrite pretty_Z_contains.
    + destruct (truthy (PyList (default [] cmd))); [|done].
      rewrite !contains_app.
      by rewrite (concat_contains "010" (DockerfileGenerator.dq +:+ ", " +:+
                                         DockerfileGenerator.dq) _ eq_refl Hcmd).
Qed.

(** The Dockerfile that [generate] returns, read line by line (the text
    split at its line feeds), for arguments and overrides that hold no line
    feed: it starts with the FROM line of the base image and the WORKDIR
    line, and ends with the EXPOSE line, one CMD line (the default command
    when none or an empty one is given) and the empty rest after the last
    line feed. Its ENV lines are the configuration's overrides, one line
    each, in the order of the dictionary, and there is no other ENV line.
    Whatever the arguments hold, a local package path that is not empty
    takes precedence: the package name is then not installed, and the
    Dockerfile is the one generated without it. *)
Theorem dockerfile_structure (env_vars : list (string * string)) (base_image : string)
    (package_name : option string) (requirements : option (list string))
    (local_package_path : option string) (cmd : option (list string))
    (workdir : string) (expose_port : Z) :
  let text := DockerfileGenerator.generate env_vars base_image package_name
                requirements local_package_path cmd workdir expose_port in
  (truthy (of_optional local_package_path) = true →
   text = DockerfileGenerator.generate env_vars base_image None requirements
            local_package_path cmd workdir expose_port) ∧
  (Forall (fun s => contains "010" s = false)
     ([base_image; workdir; default "" package_name; default "" local_package_path] ++
      default [] requirements ++ default [] cmd ++ (env_vars ≫= fun kv => [kv.1; kv.2])) →
   ∃ body cmd_line,
     split "010" text =
       ["FROM " +:+ base_image; "WORKDIR " +:+ workdir] ++ body ++
       ["EXPOSE " +:+ pretty expose_port; cmd_line; ""] ∧
     String.prefix "CMD [" cmd_line = true ∧
     (truthy (PyList (default [] cmd)) = false →
      cmd_line = DockerfileGenerator.default_cmd) ∧
     filter (fun l => String.prefix "ENV " l = true) (split "010" text) =
       DockerfileGenerator.env_line <$> env_vars).
Proof.
  intros text. subst text. split.
  { intros Hlocal. unfold DockerfileGenerator.generate. rewrite !generate_lines_spec.
    by rewrite Hlocal. }
  intros Hall. unfold DockerfileGenerator.generate.
  pose proof (generate_lines_plain _ _ _ _ _ _ _ expose_port Hall) as Hplain.
  assert (Hsplit : split "010"
            (String.concat nl (DockerfileGenerator.generate_lines env_vars base_image
               package_name requirements local_package_path cmd workdir expose_port) +:+ nl) =
          DockerfileGenerator.generate_lines env_vars base_image package_name requirements
            local_package_path cmd workdir expose_port ++ [""]).
  { apply (dockerfile_lines "010"); [|exact Hplain].
    rewrite generate_lines_spec. discriminate. }
  rewrite Hsplit. clear Hsplit Hplain Hall. rewrite generate_lines_spec.
  set (P := fun l : string => String.prefix "ENV " l = true).
  set (part1 := if String.prefix "python:" base_image &&
                   DockerfileGenerator.is_in "slim" base_image
                then ["RUN apt-get update && apt-get install -y --no-install-recommends \";
                      "    curl \"; "    && rm -rf /var/lib/apt/lists/*"]
                else []).
  set (part2 := if truthy (of_optional local_package_path)
                then ["COPY " +:+ default "" local_package_path +:+ " " +:+ workdir +:+
                      "/mcpstack"; "RUN pip install -e " +:+ workdir +:+ "/mcpstack"]
                else if truthy (of_optional package_name)
                then ["RUN pip install " +:+ default "" package_name]
                else []).
  set (part3 := if truthy (PyList (default [] requirements))
                then ["RUN pip install " +:+ String.concat " " (default [] requirements)]
                else []).
  set (cmd_line := if truthy (PyList (default [] cmd))
                   then "CMD [" +:+ DockerfileGenerator.dq +:+
                        String.concat (DockerfileGenerator.dq +:+ ", " +:+
                                       DockerfileGenerator.dq) (default [] cmd) +:+
                        DockerfileGenerator.dq +:+ "]"
                   else DockerfileGenerator.default_cmd).
  exists (part1 ++ part2 ++ part3 ++ (DockerfileGenerator.env_line <$> env_vars)), cmd_line.
  split; [by rewrite <- !app_assoc|].
  split; [unfold cmd_line; by destruct (truthy (PyList (default [] cmd)))|].
  split; [unfold cmd_line; by intros ->|].
  rewrite !filter_app, filter_env_lines.
  assert (H1 : filter P ["FROM " +:+ base_image; "WORKDIR " +:+ workdir] = []) by reflexivity.
  assert (H2 : filter P part1 = []) by (unfold part1; by destruct (_ && _)).
  assert (H3 : filter P part2 = []).
  { unfold part2. destruct (truthy (of_optional local_package_path)); [done|].
    by destruct (truthy (of_optional package_name)). }
  assert (H4 : filter P part3 = [])
    by (unfold part3; by destruct (truthy (PyList (default [] requirements)))).
  assert (H5 : filter P ["EXPOSE " +:+ pretty expose_port; cmd_line] = [])
    by (unfold cmd_line; by destruct (truthy (PyList (default [] cmd)))).
  assert (H6 : filter P [""] = []) by reflexivity.
  rewrite H1, H2, H3, H4, H5, H6. simpl. by rewrite !app_nil_r.
Qed.



End Properties.

(** * The properties at the instances *)

(** [build] takes the composed session to the built one. *)
Example build_composed :
  build exact_match generator_registry 1 "fastmcp" no_kwargs w_composed =
    (Ok (JObj [("mcpServers", JObj [("mcpstack", JObj [("env", JObj [])])])]), w_built).
Proof. vm_compute. reflexivity. Qed.

Example to_snake_case_examples :
  to_snake_case "HelloWorld" = "hello_world" ∧ to_snake_case "WebSearch" = "web_search" ∧
  to_snake_case "HTTPTool" = "h_t_t_p_tool".
Proof. repeat split. Qed.

(** ** C1 *)

Lemma with_star_new_pipeline_witness :
  ∃ new w',
    with_tool standard_levels 0 WebSearch w_start = (Ok new, w') ∧
    stacks w_start !! new = None ∧
    stacks w' !! new = Some {| config := 0; tools := [WebSearch]; mcp := None; _built := false |} ∧
    stacks w' !! 0 = Some empty_stack ∧
    (∀ l, l ≠ new → stacks w' !! l = stacks w_start !! l) ∧
    configs w' = configs w_start.
Proof.
  exact (proj1 (with_star_new_pipeline standard_levels exact_match preset_registry
                  w_start 0 empty_stack eq_refl) WebSearch).
Defined.

(** [with_preset] with a [config] keyword: the new pipeline has the
    configuration passed, at location 1, and not the receiver's, at 0. *)
Lemma with_preset_other_configuration :
  config <$> stacks w_start !! 0 = Some 0 ∧
  (with_preset standard_levels exact_match preset_registry 0 "example_preset"
     {| kw_config := Some (Some 1); kw_rest := [] |} w_start).1 = Ok 3 ∧
  config <$> stacks (with_preset standard_levels exact_match preset_registry 0 "example_preset"
                       {| kw_config := Some (Some 1); kw_rest := [] |} w_start).2 !! 3 = Some 1.
Proof. vm_compute. repeat split. Qed.

(** ** C9 *)

Lemma with_preset_unknown_witness :
  with_preset standard_levels exact_match preset_registry 0 "unknown_preset"
    {| kw_config := None; kw_rest := [] |} w_start =
    (Raise (MCPStackError MCPStackPresetError "Unknown preset: unknown_preset." None),
     w_start) ∧
  with_preset standard_levels prefix_match preset_registry 0 "example"
    {| kw_config := None; kw_rest := [] |} w_start =
    (Raise (MCPStackError MCPStackPresetError
              "Unknown preset: example. Did you mean 'example_preset'?" None), w_start).
Proof.
  split.
  - apply (proj2 (proj2 (with_preset_unknown standard_levels exact_match preset_registry
                           w_start 0 "unknown_preset" {| kw_config := None; kw_rest := [] |}
                           eq_refl))).
    intros best score H. vm_compute in H. injection H as <- <-. lia.
  - apply (proj1 (proj2 (with_preset_unknown standard_levels prefix_match preset_registry
                           w_start 0 "example" {| kw_config := None; kw_rest := [] |}
                           eq_refl)) "example_preset" 90%Z).
    + vm_compute. reflexivity.
    + lia.
Defined.

(** The registry holds a preset, and the message for an unknown preset that
    is not close to it does not hold its name. *)
Lemma unknown_preset_names_no_candidate :
  preset_registry !! "unknown_preset" = None ∧
  keys preset_registry = ["example_preset"] ∧
  (with_preset standard_levels exact_match preset_registry 0 "unknown_preset"
     {| kw_config := None; kw_rest := [] |} w_start).1 =
    Raise (MCPStackError MCPStackPresetError "Unknown preset: unknown_preset." None) ∧
  String.index 0 "example_preset" "Unknown preset: unknown_preset." = None.
Proof. vm_compute. repeat split. Qed.

(** ** C2 *)

Lemma build_empty_pipeline_witness :
  build exact_match generator_registry 0 "fastmcp" no_kwargs w_start =
    (Raise (MCPStackError MCPStackValidationError "At least one tool must be added." None),
     w_start).
Proof.
  apply (build_empty_pipeline exact_match generator_registry w_start 0 empty_stack
           "fastmcp" no_kwargs); reflexivity.
Defined.

(** ** [run] before [build] *)

Lemma run_save_before_build_witness :
  run serve_returns 1 w_composed =
    (Raise (MCPStackError MCPStackBuildError "Call .build() before .run()" None), w_composed) ∧
  save 1 "pipeline.json" w_composed =
    (Raise (MCPStackError MCPStackBuildError "Call .build() before .save()" None), w_composed).
Proof.
  apply (run_save_before_build serve_returns w_composed 1 two_tools "pipeline.json");
    reflexivity.
Defined.

(** ** C10 *)

Lemma build_unknown_type_leaves_built_witness :
  ∃ w2 s2 m cfg,
    stacks w2 !! 1 = Some s2 ∧ _built s2 = true ∧ tools s2 = [WebSearch; HelloWorld] ∧
    mcp s2 = Some m ∧ configs w2 !! config s2 = Some cfg ∧
    files w2 = files w_composed ∧
    build exact_match generator_registry 1 "docker" no_kwargs w_composed =
      (Raise (MCPStackError MCPStackValidationError
                ("Unknown config type: docker." +:+
                 suggestion exact_match "docker" (keys generator_registry)) None), w2) ∧
    run serve_returns 1 w2 = try_finally (serve serve_returns m) (_teardown_tools 1) w2 ∧
    (∀ path, save 1 path w2 =
       (Ok tt,
        set_files (<[path := {| doc_config := config_to_dict cfg;
                                doc_tools := Some (tool_doc <$> [WebSearch; HelloWorld]) |}]>
                     (files w2)) w2)).
Proof.
  destruct (build_unknown_type_leaves_built exact_match serve_returns generator_registry
              w_composed (build_steps 1 w_composed).2 1 two_tools "docker" no_kwargs)
    as (w2 & s2 & m & cfg & Hs2 & Hb & Ht & Hm & Hc & Hf & _ & Hnone & Hrun & Hsave).
  - reflexivity.
  - vm_compute. reflexivity.
  - exists w2, s2, m, cfg.
    refine (conj Hs2 (conj Hb (conj Ht (conj Hm (conj Hc (conj Hf (conj _ (conj Hrun Hsave)))))))).
    apply Hnone. vm_compute. reflexivity.
Defined.

(** ** C5 *)

Lemma run_tears_down_witness :
  ∃ w',
    run serve_raises 1 w_built =
      (Raise (PyException "RuntimeError" "connection lost"), w') ∧
    trace w' = trace w_built ++
               [EvServe 0; EvBackendTeardown "WebSearch" "db";
                EvBackendTeardown "WebSearch" "cache";
                EvBackendTeardown "HelloWorld" "greeter"].
Proof.
  destruct (run_tears_down serve_raises w_built 1 0 built_stack
              {| mcp_name := "mcpstack"; registered := ["search"; "fetch"; "say_hello"] |}
              eq_refl eq_refl eq_refl eq_refl) as (w' & Hrun & Htrace & _).
  exists w'. split; [exact Hrun|exact Htrace].
Defined.

(** ** C4 *)

Lemma build_ignores_flag_witness :
  (build exact_match generator_registry 1 "fastmcp" no_kwargs (unbuilt 1 w_built)).1 =
  (build exact_match generator_registry 1 "fastmcp" no_kwargs w_built).1.
Proof.
  apply (build_ignores_flag exact_match generator_registry w_built 1 built_stack
           "fastmcp" no_kwargs); reflexivity.
Defined.

(** [build] on the built pipeline returns the artifact, having initialised
    every tool a second time. *)
Lemma build_on_built_pipeline_succeeds :
  _built <$> stacks w_built !! 1 = Some true ∧
  (build exact_match generator_registry 1 "fastmcp" no_kwargs w_built).1 =
    Ok (JObj [("mcpServers", JObj [("mcpstack", JObj [("env", JObj [])])])]) ∧
  trace (build exact_match generator_registry 1 "fastmcp" no_kwargs w_built).2 =
    trace w_built ++ [EvBackendInitialize "WebSearch" "db"; EvInitialize "WebSearch";
                      EvInitialize "HelloWorld"].
Proof. vm_compute. repeat split. Qed.

(** ** C3 *)

Lemma reloads_registry :
  Forall2 (reloads tool_registry) [WebSearch; HelloWorld] [WebSearch; HelloWorld].
Proof.
  repeat constructor.
  - exists {| from_dict := fun params => Ok (WebSearch_from_dict params) |}. repeat split.
  - exists {| from_dict := fun params => Ok (HelloWorld_from_dict params) |}. repeat split.
Defined.

Lemma save_load_roundtrip_witness :
  ∃ w1,
    save 1 "pipeline.json" w_built = (Ok tt, w1) ∧
    ∀ env, ∃ new w2 s',
      load standard_levels tool_registry "pipeline.json" (set_environ env w1) = (Ok new, w2) ∧
      environ w2 = ∅ ∪ env ∧
      stacks w2 !! new = Some s' ∧
      _built s' = true ∧
      tools s' = [WebSearch; HelloWorld] ∧
      length (tools s') = 2 ∧
      (fun t => to_snake_case (class_name t)) <$> tools s' = ["web_search"; "hello_world"] ∧
      to_dict <$> tools s' = [JObj [("limit", JNum 10)]; JObj []] ∧
      configs w2 !! config s' = Some {| log_level := "INFO"; env_vars := ∅ |} ∧
      trace w2 = trace w_built ++ post_load_events [WebSearch; HelloWorld] ∧
      stacks w2 !! 1 = Some built_stack.
Proof.
  apply (save_load_roundtrip standard_levels tool_registry w_built 1 built_stack
           {| log_level := "INFO"; env_vars := ∅ |} "pipeline.json" [WebSearch; HelloWorld]);
    try reflexivity.
  apply reloads_registry.
Defined.

(** The built pipeline of the session after its configuration has taken the
    override BAD=KEY by [merge_env], which sets it in the override map and
    not in the process environment: [save] writes the document, and [load]
    of that document raises the ValueError of [os.environ], although the
    level is accepted and the tools keep the tool contract. *)
Lemma save_load_illegal_override :
  (merge_env_at 0 [("BAD=KEY", "1")] "" w_built).1 = Ok tt ∧
  stacks w_illegal_override !! 1 = Some built_stack ∧
  _built built_stack = true ∧
  configs w_illegal_override !! config built_stack =
    Some {| log_level := "INFO"; env_vars := {[ "BAD=KEY" := "1" ]} |} ∧
  standard_levels "INFO" = None ∧
  (save 1 "pipeline.json" w_illegal_override).1 = Ok tt ∧
  (load standard_levels tool_registry "pipeline.json"
     (save 1 "pipeline.json" w_illegal_override).2).1 =
    Raise (PyException "ValueError" "illegal environment variable name").
Proof. vm_compute. repeat split. Qed.

(** In an empty process environment validation of the reloaded tools would
    fail on API_KEY, and [load] returns a built pipeline all the same. *)
Example load_skips_validation :
  validate_for_tools {| log_level := "INFO"; env_vars := ∅ |} ∅ [WebSearch; HelloWorld] =
    Raise (MCPStackError MCPStackConfigError
             "WebSearch: MCPStack Error: Missing required env var: API_KEY" None) ∧
  (load standard_levels tool_registry "pipeline.json"
     (set_environ ∅ (save 1 "pipeline.json" w_built).2)).1 = Ok 4.
Proof. vm_compute. repeat split. Qed.

(** ** [with_config] *)

Lemma with_config_new_pipeline_witness :
  ∃ new w',
    with_config standard_levels 1 1 w_built = (Ok new, w') ∧
    stacks w_built !! new = None ∧
    stacks w' !! new = Some {| config := 1; tools := [WebSearch; HelloWorld];
                               mcp := Some 0; _built := false |} ∧
    stacks w' !! 1 = Some built_stack ∧
    (∀ l, l ≠ new → stacks w' !! l = stacks w_built !! l) ∧
    configs w' = configs w_built ∧ runtimes w' = runtimes w_built ∧
    environ w' = environ w_built ∧ trace w' = trace w_built.
Proof.
  exact (with_config_new_pipeline standard_levels w_built 1 1 built_stack eq_refl).
Defined.

(** ** [initialize] and [build] with a backend that fails *)

Lemma initialize_fail_fast_witness :
  initialize Flaky w_start =
    (Raise (PyException "ConnectionError" "refused"),
     set_trace [EvBackendInitialize "Flaky" "cache"; EvBackendInitialize "Flaky" "db"] w_start) ∧
  post_load Flaky w_start =
    (Raise (PyException "ConnectionError" "refused"),
     set_trace [EvPostLoad "Flaky"; EvBackendInitialize "Flaky" "cache";
                EvBackendInitialize "Flaky" "db"] w_start).
Proof.
  exact (initialize_fail_fast Flaky
           [("cache", {| backend_initialize := Some None; backend_teardown := None |})]
           [("queue", {| backend_initialize := Some None; backend_teardown := Some None |})]
           "db" _ _ w_start eq_refl eq_refl eq_refl).
Defined.

Lemma build_stops_at_failing_tool_witness :
  build exact_match generator_registry 1 "fastmcp" no_kwargs w_flaky =
    (Raise (PyException "ConnectionError" "refused"),
     {| environ := environ w_flaky; files := ∅; configs := configs w_flaky;
        runtimes := [{| mcp_name := "mcpstack"; registered := [] |}];
        stacks := [empty_stack;
                   {| config := 0; tools := [WebSearch; Flaky; HelloWorld];
                      mcp := Some 0; _built := false |}];
        trace := [EvBackendInitialize "WebSearch" "db"; EvInitialize "WebSearch";
                  EvBackendInitialize "Flaky" "cache"; EvBackendInitialize "Flaky" "db"] |}).
Proof.
  apply (build_stops_at_failing_tool exact_match generator_registry w_flaky 1 flaky_stack
           {| log_level := "INFO"; env_vars := ∅ |} "fastmcp" no_kwargs
           [WebSearch] [HelloWorld] Flaky (PyException "ConnectionError" "refused")
           [EvBackendInitialize "Flaky" "cache"; EvBackendInitialize "Flaky" "db"]);
    try reflexivity.
  repeat constructor.
Defined.

Lemma build_initializes_then_registers_witness :
  ∃ w1,
    build exact_match generator_registry 1 "fastmcp" no_kwargs w_composed =
      generate env_generator 1 no_kwargs w1 ∧
    stacks w1 = [empty_stack; built_stack] ∧
    runtimes w1 = [{| mcp_name := "mcpstack"; registered := ["search"; "fetch"; "say_hello"] |}] ∧
    trace w1 = [EvBackendInitialize "WebSearch" "db"; EvInitialize "WebSearch";
                EvInitialize "HelloWorld"].
Proof.
  destruct (build_initializes_then_registers exact_match generator_registry w_composed 1
              two_tools {| log_level := "INFO"; env_vars := ∅ |} "fastmcp" no_kwargs
              env_generator eq_refl)
    as (w1 & m & r & Hbuild & Hst & _ & _ & Hnone & _ & _ & _ & _ & Ht).
  - discriminate.
  - reflexivity.
  - reflexivity.
  - repeat constructor.
  - intros m [=].
  - reflexivity.
  - destruct (Hnone eq_refl) as (-> & -> & Hrt).
    exists w1. exact (conj Hbuild (conj Hst (conj Hrt Ht))).
Defined.

(** ** [load] of a hand-written document, and the server entry point *)

Lemma rebuilds_hand_written :
  Forall2 (rebuilds tool_registry) (default [] (doc_tools hand_written)) hand_written_tools.
Proof.
  repeat constructor.
  - exists {| from_dict := fun params => Ok (WebSearch_from_dict params) |}. repeat split.
  - exists {| from_dict := fun params => Ok (HelloWorld_from_dict params) |}. repeat split.
Defined.

Lemma load_builds_from_document_witness :
  ∃ new w',
    load standard_levels tool_registry "server.json" w_server = (Ok new, w') ∧
    0 ≤ new ∧
    stacks w' !! new = Some {| config := 0; tools := hand_written_tools;
                               mcp := None; _built := true |} ∧
    (∀ l, l < 0 → stacks w' !! l = stacks w_server !! l) ∧
    configs w' = [{| log_level := "INFO"; env_vars := {[ "REGION" := "us" ]} |}] ∧
    environ w' = {[ "REGION" := "us" ]} ∪ environ w_server ∧
    files w' = files w_server ∧ runtimes w' = [] ∧
    trace w' = post_load_events hand_written_tools ∧
    stacks w_server !! new = None ∧
    (∀ other k v d r,
       ({[ "REGION" := "us" ]} : gmap string string) !! k = Some v →
       env_vars other !! k = None →
       get_env_var other (environ w') k d r = Ok (PyStr v)).
Proof.
  apply (load_builds_from_document standard_levels tool_registry w_server "server.json"
           hand_written hand_written_tools); try reflexivity.
  - apply rebuilds_hand_written.
  - repeat constructor.
Defined.

Lemma load_then_run_not_initialized_witness :
  ∃ new w',
    load standard_levels tool_registry "server.json" w_server = (Ok new, w') ∧
    run serve_returns new w' =
      (Raise (MCPStackError MCPStackInitializationError "MCP not initialized" None), w') ∧
    trace w' = [EvPostLoad "WebSearch"; EvBackendInitialize "WebSearch" "db";
                EvInitialize "WebSearch"; EvPostLoad "HelloWorld"; EvInitialize "HelloWorld"] ∧
    ∀ path', is_ok (save new path' w').1 = true.
Proof.
  apply (load_then_run_not_initialized standard_levels serve_returns tool_registry w_server
           "server.json" hand_written hand_written_tools); try reflexivity.
  - apply rebuilds_hand_written.
  - repeat constructor.
Defined.

Lemma load_unknown_tool_type_witness :
  ∃ w',
    load standard_levels tool_registry "misspelt.json" w_server =
      (Raise (MCPStackError MCPStackValidationError "Unknown tool type: calculator" None), w') ∧
    trace w' = [] ∧
    environ w' = {[ "REGION" := "us" ]} ∪ environ w_server ∧
    files w' = files w_server ∧ runtimes w' = [] ∧
    (∀ l, l < 0 → stacks w' !! l = stacks w_server !! l).
Proof.
  apply (load_unknown_tool_type standard_levels tool_registry w_server "misspelt.json"
           misspelt [{| type := "hello_world"; params := JObj [] |}]
           [{| type := "web_search"; params := JObj [] |}]
           {| type := "calculator"; params := JNull |} [HelloWorld]); try reflexivity.
  repeat constructor.
  exists {| from_dict := fun params => Ok (HelloWorld_from_dict params) |}. repeat split.
Defined.

Lemma main_loads_builds_runs_witness :
  ∃ new w1,
    main standard_levels exact_match serve_raises tool_registry generator_registry w_server =
      (Raise (PyException "RuntimeError" "connection lost"),
       set_trace
         (post_load_events hand_written_tools ++ (hand_written_tools ≫= initialize_events) ++
          EvServe 0 :: teardown_events hand_written_tools) w1) ∧
    stacks w1 !! new = Some {| config := 0; tools := hand_written_tools;
                               mcp := Some 0; _built := true |} ∧
    runtimes w1 = [{| mcp_name := "mcpstack"; registered := ["search"; "fetch"; "say_hello"] |}].
Proof.
  destruct (main_loads_builds_runs standard_levels exact_match serve_raises tool_registry
              generator_registry w_server "server.json" hand_written hand_written_tools)
    as (new & w1 & Hmain & Hs1 & Hr1 & Ht1 & Hc1 & _ & _ & _ & Hrun).
  - reflexivity.
  - reflexivity.
  - discriminate.
  - reflexivity.
  - reflexivity.
  - reflexivity.
  - apply rebuilds_hand_written.
  - repeat constructor.
  - discriminate.
  - vm_compute. reflexivity.
  - exists new, w1. refine (conj _ (conj Hs1 Hr1)).
    apply (Hrun (JObj [("mcpServers",
                        JObj [("mcpstack", JObj [("env", JObj [("REGION", JStr "us")])])])])).
    unfold _generate_config.
    change (generator_registry !! "fastmcp") with (Some env_generator).
    unfold env_generator. cbn [generate].
    rewrite (bind_ok _ _ _ _ _ (get_stack_ok _ _ _ Hs1)).
    erewrite bind_ok by (apply get_config_ok; rewrite Hc1; reflexivity).
    reflexivity.
Defined.

(** ** The configuration *)

Lemma config_dict_roundtrip_witness :
  ∃ c w',
    config_from_dict standard_levels
      (config_to_dict {| log_level := "DEBUG"; env_vars := {[ "REGION" := "us" ]} |}) w_start =
      (Ok c, w') ∧
    environ w' = {[ "REGION" := "us" ]} ∪ environ w_start ∧
    configs w_start !! c = None ∧
    configs w' !! c = Some {| log_level := "DEBUG"; env_vars := {[ "REGION" := "us" ]} |} ∧
    (∀ old, old ≠ c → configs w' !! old = configs w_start !! old) ∧
    config_from_dict standard_levels {| doc_log_level := None; doc_env_vars := None |} w_start =
      StackConfig_init standard_levels "INFO" (Some ∅) w_start.
Proof.
  exact (config_dict_roundtrip standard_levels w_start
           {| log_level := "DEBUG"; env_vars := {[ "REGION" := "us" ]} |} eq_refl eq_refl).
Defined.

(** A configuration constructed with an override for API_KEY changes what the
    first configuration of the session, which has none, resolves the key to. *)
Example StackConfig_init_leaks :
  get_env_var {| log_level := "INFO"; env_vars := ∅ |} (environ w_start) "API_KEY" PyNone true =
    Ok (PyStr "secret") ∧
  get_env_var {| log_level := "INFO"; env_vars := ∅ |}
    (environ (StackConfig_init standard_levels "INFO" (Some {[ "API_KEY" := "other" ]}) w_start).2)
    "API_KEY" PyNone true = Ok (PyStr "other") ∧
  StackConfig_init standard_levels "VERBOSE" (Some {[ "API_KEY" := "other" ]}) w_start =
    (Raise (MCPStackError MCPStackConfigError "Invalid log level"
              (Some "Unknown level: VERBOSE")), w_start).
Proof. vm_compute. repeat split. Qed.

(** The copying loop on two overrides, in the one order and in the other. *)
Lemma StackConfig_init_exports_witness :
  export_env [("REGION", "eu"); ("API_KEY", "other")] w_start =
    (Ok tt, set_environ ({[ "API_KEY" := "other"; "REGION" := "eu" ]} ∪ environ w_start)
              w_start) ∧
  export_env [("API_KEY", "other"); ("REGION", "eu")] w_start =
    (Ok tt, set_environ ({[ "API_KEY" := "other"; "REGION" := "eu" ]} ∪ environ w_start)
              w_start).
Proof.
  split.
  - generalize (proj2 (StackConfig_init_exports standard_levels w_start "INFO"
                         {[ "API_KEY" := "other"; "REGION" := "eu" ]})
                  [("REGION", "eu"); ("API_KEY", "other")]).
    change (exportable {[ "API_KEY" := "other"; "REGION" := "eu" ]}) with true.
    cbv iota. intros H. apply H. vm_compute. first [reflexivity | apply perm_swap].
  - generalize (proj2 (StackConfig_init_exports standard_levels w_start "INFO"
                         {[ "API_KEY" := "other"; "REGION" := "eu" ]})
                  [("API_KEY", "other"); ("REGION", "eu")]).
    change (exportable {[ "API_KEY" := "other"; "REGION" := "eu" ]}) with true.
    cbv iota. intros H. apply H. vm_compute. first [reflexivity | apply perm_swap].
Defined.

(** A configuration constructed with an override under a name that
    [os.environ] refuses: the constructor raises, and the override that came
    before it in the loop (the map has A before BAD=KEY) is in the process
    environment all the same. With an empty name the exception is the
    OSError of [setenv]. *)
Example StackConfig_init_illegal :
  StackConfig_init standard_levels "INFO" (Some {[ "A" := "1"; "BAD=KEY" := "2" ]}) w_start =
    (Raise (PyException "ValueError" "illegal environment variable name"),
     set_environ {[ "A" := "1"; "API_KEY" := "secret" ]} w_start) ∧
  (StackConfig_init standard_levels "INFO" (Some {[ "" := "1" ]}) w_start).1 =
    Raise (PyException "OSError" "[Errno 22] Invalid argument") ∧
  (StackConfig_init standard_levels "INFO" (Some {[ "A" := String "000" "" ]}) w_start).1 =
    Raise (PyException "ValueError" "embedded null byte").
Proof. vm_compute. repeat split. Qed.

Lemma merge_env_union_witness :
  env_vars regional ⊆ env_vars regional_merged ∧
  env_vars regional_merged =
    (list_to_map (prod_map (prefixed "web_") id <$> [("KEY", "k"); ("REGION", "eu")])
       : gmap string string) ∪ env_vars regional ∧
  ∀ key value environ d b, (key, value) ∈ [("KEY", "k"); ("REGION", "eu")] →
    get_env_var regional_merged environ (prefixed "web_" key) d b = Ok (PyStr value).
Proof.
  destruct (merge_env_union regional regional_merged [("KEY", "k"); ("REGION", "eu")]
              "web_" (Ok tt)) as (Hsub & _ & Hok).
  - vm_compute. reflexivity.
  - destruct (Hok eq_refl) as [Heq Hget]. exact (conj Hsub (conj Heq Hget)).
Defined.

(** ** A tool's own teardown *)

Example teardown_examples :
  teardown Flaky w_start = (Raise (PyException "RuntimeError" "busy"), w_start) ∧
  teardown WebSearch w_start =
    (Ok tt, set_trace [EvBackendTeardown "WebSearch" "db";
                       EvBackendTeardown "WebSearch" "cache"] w_start).
Proof. vm_compute. repeat split. Qed.

(** ** A shared configuration *)

Lemma with_tool_shares_config_witness :
  ∃ new w1 w2 s',
    with_tool standard_levels 1 HelloWorld w_composed = (Ok new, w1) ∧
    stacks w1 !! new = Some s' ∧ new ≠ 1 ∧
    merge_env_at (config s') [("API_KEY", "other")] "" w1 = (Ok tt, w2) ∧
    stacks w2 !! 1 = Some two_tools ∧
    configs w2 !! 0 = Some {| log_level := "INFO"; env_vars := {[ "API_KEY" := "other" ]} |}.
Proof.
  destruct (with_tool_shares_config standard_levels w_composed 1 two_tools
              {| log_level := "INFO"; env_vars := ∅ |} HelloWorld [("API_KEY", "other")] ""
              eq_refl eq_refl)
    as (new & w1 & w2 & s' & Hwith & Hnew & Hne & Hmerge & Hself & Hcfg & _).
  exists new, w1, w2, s'. exact (conj Hwith (conj Hnew (conj Hne (conj Hmerge (conj Hself Hcfg))))).
Defined.

(** ** The commands *)

Lemma example_presets :
  Forall2 (fun name t => preset_registry !! name = Some (ExamplePreset standard_levels t))
    (preset_list default_options) [HelloWorld].
Proof. repeat constructor. Defined.

Lemma env_generator_returns (new : loc) (w1 : World) (kwargs : build_kwargs)
    (s : MCPStackCore) (cfg : StackConfig) :
  stacks w1 !! new = Some s → configs w1 !! config s = Some cfg →
  _generate_config exact_match generator_registry new "fastmcp" kwargs w1 =
    (Ok (JObj [("mcpServers",
                JObj [("mcpstack",
                       JObj [("env", JObj (prod_map id JStr <$> map_to_list (env_vars cfg)))])])]),
     w1).
Proof.
  intros Hs Hc. unfold _generate_config.
  change (generator_registry !! "fastmcp") with (Some env_generator).
  unfold env_generator. cbn [generate].
  rewrite (bind_ok _ _ _ _ _ (get_stack_ok _ _ _ Hs)).
  by rewrite (bind_ok _ _ _ _ _ (get_config_ok _ _ _ Hc)).
Qed.

Lemma cli_build_saves_environment_witness :
  ∃ w1,
    cli_build standard_levels exact_match tool_registry preset_registry generator_registry
      abspath_work default_options w_start =
      (Ok tt, set_files {[ "/work/mcpstack_pipeline.json" := default_document ]} w1) ∧
    environ w1 = {[ "API_KEY" := "secret" ]}.
Proof.
  destruct (cli_build_saves_environment standard_levels exact_match tool_registry
              preset_registry generator_registry abspath_work default_options w_start
              [HelloWorld] eq_refl eq_refl example_presets)
    as [_ Hcase].
  - discriminate.
  - reflexivity.
  - repeat constructor.
  - destruct (Hcase eq_refl) as (new & w1 & Hs1 & Hc1 & He1 & _ & Hok & _).
    exists w1. split; [|exact He1].
    erewrite Hok; [reflexivity|].
    eapply env_generator_returns; [exact Hs1|].
    simpl. rewrite Hc1. reflexivity.
Defined.

(** The two commands in a process whose environment has an entry under the
    empty name. *)
Example cli_unnamed_variable :
  cli_build standard_levels exact_match tool_registry preset_registry generator_registry
    abspath_work default_options w_unnamed = (Raise Exit1, w_unnamed) ∧
  cli_run standard_levels exact_match serve_returns tool_registry preset_registry
    generator_registry abspath_work default_options w_unnamed = (Raise Exit1, w_unnamed).
Proof. vm_compute. repeat split. Qed.

Lemma cli_run_saves_then_serves_witness :
  ∃ w1,
    cli_run standard_levels exact_match serve_raises tool_registry preset_registry
      generator_registry abspath_work default_options w_start =
      (Raise Exit1,
       set_trace [EvInitialize "HelloWorld"; EvServe 0; EvBackendTeardown "HelloWorld" "greeter"]
         (set_files {[ "/work/mcpstack_pipeline.json" := default_document ]} w1)).
Proof.
  destruct (cli_run_saves_then_serves standard_levels exact_match serve_raises tool_registry
              preset_registry generator_registry abspath_work default_options w_start
              [HelloWorld] eq_refl eq_refl example_presets)
    as [_ Hcase].
  - discriminate.
  - reflexivity.
  - repeat constructor.
  - destruct (Hcase eq_refl) as (new & w1 & Hs1 & Hc1 & Hr1 & Hok).
    exists w1. erewrite Hok; [reflexivity|].
    eapply env_generator_returns; [exact Hs1|].
    simpl. rewrite Hc1. reflexivity.
Defined.

Lemma cli_pipeline_appends_witness :
  ∃ w1,
    cli_pipeline standard_levels exact_match tool_registry generator_registry
      "web_search" (Some "server.json") (Some "mcpstack_pipeline.json")
      (Ok web_search_config) w_server =
      (Ok tt,
       set_files
         (<["server.json" :=
              {| doc_config :=
                   {| doc_log_level := Some "INFO";
                      doc_env_vars := Some {[ "REGION" := "us"; "API_KEY" := "k-123" ]} |};
                 doc_tools := Some [{| type := "web_search"; params := JObj [("limit", JNum 5)] |};
                                    {| type := "hello_world"; params := JObj [] |};
                                    {| type := "web_search";
                                       params := JObj [("limit", JNum 3)] |}] |}]>
            (files w_server)) w1) ∧
    environ w1 = {[ "REGION" := "us" ]} ∪ environ w_server.
Proof.
  destruct (cli_pipeline_appends standard_levels exact_match tool_registry generator_registry
              w_server "web_search" "server.json" (Some "mcpstack_pipeline.json")
              web_search_config
              {| from_dict := fun params => Ok (WebSearch_from_dict params) |}
              (WebSearch_from_dict (JObj [("limit", JNum 3)])) hand_written hand_written_tools
              {| log_level := "INFO";
                 env_vars := {[ "REGION" := "us"; "API_KEY" := "k-123" ]} |})
    as (new & w1 & Hs1 & Hc1 & He1 & _ & Hok).
  - reflexivity.
  - discriminate.
  - reflexivity.
  - reflexivity.
  - reflexivity.
  - apply rebuilds_hand_written.
  - repeat constructor.
  - vm_compute. reflexivity.
  - reflexivity.
  - reflexivity.
  - vm_compute. reflexivity.
  - exists w1. split; [|exact He1].
    erewrite Hok; [reflexivity|].
    eapply env_generator_returns; [exact Hs1|].
    simpl. rewrite Hc1. reflexivity.
Defined.

Lemma cli_pipeline_creates_witness :
  ∃ w1,
    cli_pipeline standard_levels exact_match tool_registry generator_registry
      "web_search" (Some "missing.json") (Some "mcpstack_pipeline.json")
      (Ok web_search_config) w_server =
      (Ok tt,
       set_files
         (<["missing.json" :=
              {| doc_config := {| doc_log_level := Some "INFO";
                                  doc_env_vars := Some {[ "API_KEY" := "k-123" ]} |};
                 doc_tools := Some [{| type := "web_search";
                                       params := JObj [("limit", JNum 3)] |}] |}]>
            (files w_server)) w1).
Proof.
  destruct (cli_pipeline_creates standard_levels exact_match tool_registry generator_registry
              w_server "web_search" "missing.json" (Some "missing.json")
              (Some "mcpstack_pipeline.json") web_search_config
              {| from_dict := fun params => Ok (WebSearch_from_dict params) |}
              (WebSearch_from_dict (JObj [("limit", JNum 3)]))
              {| log_level := "INFO"; env_vars := {[ "API_KEY" := "k-123" ]} |})
    as (new & w1 & Hs1 & Hc1 & _ & _ & Hok).
  - reflexivity.
  - reflexivity.
  - reflexivity.
  - reflexivity.
  - vm_compute. reflexivity.
  - reflexivity.
  - reflexivity.
  - vm_compute. reflexivity.
  - exists w1. erewrite Hok; [reflexivity|].
    eapply env_generator_returns; [exact Hs1|].
    simpl. rewrite Hc1. reflexivity.
Defined.

(** ** The Docker generators *)

Example image_names :
  DockerConfigGenerator._validate_image_name "mcpstack:latest" = Ok tt ∧
  DockerConfigGenerator._validate_image_name "ghcr.io/acme/mcpstack:1.2" = Ok tt ∧
  DockerConfigGenerator._validate_image_name "localhost:5000/mcpstack:latest" =
    Raise (ValidationError "Invalid Docker image name format: localhost:5000/mcpstack:latest") ∧
  DockerConfigGenerator._validate_image_name "-mcpstack" =
    Raise (ValidationError "Invalid Docker image name format: -mcpstack") ∧
  DockerConfigGenerator._validate_image_name "-" = Ok tt ∧
  DockerConfigGenerator._validate_image_name (String "009" "") =
    Raise (ValidationError "Docker image name cannot be empty") ∧
  DockerConfigGenerator._validate_image_name "my image" =
    Raise (ValidationError "Docker image name cannot contain spaces: my image") ∧
  DockerConfigGenerator._validate_image_name (String "233" "") = Ok tt ∧
  DockerConfigGenerator._validate_image_name (String "160" "") =
    Raise (ValidationError "Docker image name cannot be empty") ∧
  DockerConfigGenerator._validate_image_name (String "133" (String "028" "")) =
    Raise (ValidationError "Docker image name cannot be empty") ∧
  DockerConfigGenerator._validate_image_name ("mcpstack" +:+ nl) = Ok tt.
Proof. vm_compute. repeat split. Qed.

Lemma image_name_validation_witness :
  DockerConfigGenerator._validate_image_name "mcpstack:latest" = Ok tt ∧
  DockerConfigGenerator._validate_image_name "localhost:5000/mcpstack:latest" =
    Raise (ValidationError "Invalid Docker image name format: localhost:5000/mcpstack:latest").
Proof.
  split.
  - apply (proj1 (proj2 (image_name_validation "mcpstack:latest"))).
    exists "m"%char, "cpstack", ":latest". repeat split. right. by exists "latest".
  - apply (proj2 (proj2 (image_name_validation "localhost:5000/mcpstack:latest")));
      reflexivity.
Defined.

Lemma docker_generate_arguments_witness :
  let c := {| hc_server_name := "search";
              hc_entry := {| se_command := "docker";
                             se_args := ["run"; "-i"; "--rm"; "-v"; "/data:/data"; "-v"; "/tmp:/tmp";
                                         "-p"; "8000:8000"; "--network"; "host"; "--init";
                                         "mcpstack:latest"];
                             se_cwd := None; se_env := {[ "REGION" := "us" ]} |} |} in
  last (se_args (hc_entry c)) = Some "mcpstack:latest" ∧
  length (se_args (hc_entry c)) = 13.
Proof.
  destruct (docker_generate_arguments regional "mcpstack:latest" "search"
              (Some ["/data:/data"; "/tmp:/tmp"]) (Some ["8000:8000"]) (Some "host")
              (Some ["--init"])
              {| hc_server_name := "search";
                 hc_entry := {| se_command := "docker";
                                se_args := ["run"; "-i"; "--rm"; "-v"; "/data:/data"; "-v";
                                            "/tmp:/tmp"; "-p"; "8000:8000"; "--network"; "host";
                                            "--init"; "mcpstack:latest"];
                                se_cwd := None; se_env := {[ "REGION" := "us" ]} |} |})
    as (_ & _ & _ & _ & _ & _ & Hlast & Hlen).
  - vm_compute. reflexivity.
  - exact (conj Hlast Hlen).
Defined.

Lemma merge_keeps_other_servers_witness :
  ∃ fields' servers',
    DockerConfigGenerator._merge_with_existing_config
      {| hc_server_name := "mcpstack"; hc_entry := docker_entry |} desktop_config_path laptop =
      (Ok tt, set_host_files (<[desktop_config_path := JsonText (JObj fields')]>
                                (host_files laptop)) laptop) ∧
    dict_get "mcpServers" fields' = Some (JObj servers') ∧
    dict_get "mcpstack" servers' = Some (entry_json docker_entry) ∧
    dict_get "files" servers' = Some (JObj [("command", JStr "npx")]) ∧
    dict_get "theme" fields' = Some (JStr "dark").
Proof.
  destruct (proj1 (merge_keeps_other_servers
                     {| hc_server_name := "mcpstack"; hc_entry := docker_entry |}
                     desktop_config_path laptop)
                  [("theme", JStr "dark");
                   ("mcpServers", JObj [("files", JObj [("command", JStr "npx")]);
                                        ("mcpstack", JObj [("command", JStr "python")])])]
                  (JObj [("theme", JStr "dark");
                         ("mcpServers", JObj [("files", JObj [("command", JStr "npx")]);
                                              ("mcpstack", entry_json docker_entry)])])
                  eq_refl eq_refl eq_refl)
    as (fields' & old & servers' & Hmerge & Hget & Hold & Hentry & Hothers & Hkeys).
  { apply (bool_decide_eq_false_1 (desktop_config_path ∈ host_dirs laptop)).
    vm_compute. reflexivity. }
  exists fields', servers'. injection Hold as <-.
  refine (conj Hmerge (conj Hget (conj Hentry (conj _ _)))).
  - by rewrite Hothers.
  - by rewrite Hkeys.
Defined.

(** The same merge when the file of the desktop application holds bytes
    that are no text, and when the path is a directory. *)
Example merge_unreadable_files :
  DockerConfigGenerator._merge_with_existing_config
    {| hc_server_name := "mcpstack"; hc_entry := docker_entry |} desktop_config_path
    (set_host_files {[ desktop_config_path := Fails UnicodeDecodeError "invalid start byte" ]}
       laptop) =
    (Raise (PyException "UnicodeDecodeError" "invalid start byte"),
     set_host_files {[ desktop_config_path := Fails UnicodeDecodeError "invalid start byte" ]}
       laptop) ∧
  (DockerConfigGenerator._merge_with_existing_config
     {| hc_server_name := "mcpstack"; hc_entry := docker_entry |} "/work" laptop).1 =
    Raise (ValidationError "Could not write config file: [Errno 21] Is a directory: '/work'") ∧
  (DockerConfigGenerator._merge_with_existing_config
     {| hc_server_name := "mcpstack"; hc_entry := docker_entry |} desktop_config_path
     (set_host_files {[ desktop_config_path := JsonText (JArr [JNum 1]) ]} laptop)).1 =
    Raise (PyException "AttributeError" "'list' object has no attribute 'setdefault'") ∧
  (DockerConfigGenerator._merge_with_existing_config
     {| hc_server_name := "mcpstack"; hc_entry := docker_entry |} desktop_config_path
     (set_host_files {[ desktop_config_path := JsonText (JObj [("mcpServers", JNull)]) ]}
        laptop)).1 =
    Raise (PyException "AttributeError" "'NoneType' object has no attribute 'update'").
Proof. vm_compute. repeat split. Qed.

Lemma docker_mcp_returns_path_saves_none_witness :
  ∃ c h' fields servers,
    DockerMCPConfigGenerator.generate regional default_kwargs "mcpstack:latest" "mcpstack"
      None None None None laptop = (Ok c, h') ∧
    se_env (hc_entry c) =
      <["MCPSTACK_CONFIG_PATH" := "/work/mcpstack_pipeline.json"]> {[ "REGION" := "us" ]} ∧
    host_files h' !! desktop_config_path = Some (JsonText (JObj fields)) ∧
    dict_get "mcpServers" fields = Some (JObj servers) ∧
    dict_get "mcpstack" servers =
      Some (JObj [("command", JStr "docker");
                  ("args", JArr [JStr "run"; JStr "-i"; JStr "--rm"; JStr "mcpstack:latest"]);
                  ("env", JObj [("REGION", JStr "us")])]).
Proof.
  set (r := DockerMCPConfigGenerator.generate regional default_kwargs "mcpstack:latest"
              "mcpstack" None None None None laptop).
  destruct (docker_mcp_returns_path_saves_none regional default_kwargs "mcpstack:latest"
              "mcpstack" None None None None laptop r.2
              (set_config_path "/work/mcpstack_pipeline.json"
                 {| hc_server_name := "mcpstack"; hc_entry := docker_entry |}))
    as (c0 & Hgen & _ & Hpath & _ & Hfile).
  - vm_compute. reflexivity.
  - specialize (Hfile eq_refl).
    change (_get_claude_config_path laptop) with (Some desktop_config_path) in Hfile.
    destruct Hfile as (fields & servers & Hh' & Hget & Hentry).
    injection Hgen as <-.
    eexists _, r.2, fields, servers. split; [vm_compute; reflexivity|].
    split; [by apply Hpath|]. rewrite Hh'. split; [apply lookup_insert_eq|].
    split; [exact Hget|exact Hentry].
Defined.

(** ** The generator for the desktop application *)

Lemma claude_defaults_witness :
  ClaudeConfigGenerator._get_args None regional {[ "MCPSTACK_ARGS" := "-m,other.server" ]}
    "MCPStack.core.server" = Ok ["-m"; "MCPStack.core.server"] ∧
  ClaudeConfigGenerator._get_command None regional
    {[ "VIRTUAL_ENV" := "/work/"; "MCPSTACK_COMMAND" := "pypy" ]}
    (set_host_files {[ "/work/bin/python" := NotJson ]} laptop) = Ok "/work/bin/python" ∧
  venv_python "/work/" = venv_python "/work" ∧
  ClaudeConfigGenerator._get_command None regional
    {[ "VIRTUAL_ENV" := "/work"; "MCPSTACK_COMMAND" := "pypy" ]} laptop = Ok "pypy".
Proof.
  destruct (claude_defaults regional {[ "MCPSTACK_ARGS" := "-m,other.server" ]} laptop
              "MCPStack.core.server") as (Hargs & _ & Hslash & _).
  destruct (claude_defaults regional
              {[ "VIRTUAL_ENV" := "/work/"; "MCPSTACK_COMMAND" := "pypy" ]}
              (set_host_files {[ "/work/bin/python" := NotJson ]} laptop)
              "MCPStack.core.server") as (_ & Hvenv & _).
  destruct (claude_defaults regional {[ "VIRTUAL_ENV" := "/work"; "MCPSTACK_COMMAND" := "pypy" ]}
              laptop "MCPStack.core.server") as (_ & _ & _ & Hcmd).
  refine (conj Hargs (conj (Hvenv "/work/" eq_refl eq_refl) (conj (Hslash "/work" _) _))).
  - vm_compute. discriminate.
  - rewrite Hcmd; [reflexivity|].
    intros v [= <-]. reflexivity.
Defined.

(** What [pathlib] makes of some values of VIRTUAL_ENV and of a home
    directory. *)
Example paths :
  venv_python "/work/venv/" = "/work/venv/bin/python" ∧
  venv_python "" = "bin/python" ∧
  venv_python "." = "bin/python" ∧
  venv_python "/" = "/bin/python" ∧
  venv_python "//a//b/" = "//a/b/bin/python" ∧
  venv_python "///a" = "/a/bin/python" ∧
  venv_python "a/./b" = "a/b/bin/python" ∧
  venv_python "a/../b" = "a/../b/bin/python" ∧
  Path_str (parse_path "") = "." ∧
  Path_str (Path_div (parse_path "/home/ada") "/etc") = "/etc" ∧
  Path_str <$> claude_config_paths (parse_path "/home/ada/") =
    ["/home/ada/Library/Application Support/Claude/claude_desktop_config.json";
     "/home/ada/AppData/Roaming/Claude/claude_desktop_config.json";
     "/home/ada/.config/Claude/claude_desktop_config.json"] ∧
  _get_claude_config_path laptop = Some desktop_config_path.
Proof. vm_compute. repeat split. Qed.

Lemma claude_generate_writes_what_it_returns_witness :
  ∃ h' fields servers,
    ClaudeConfigGenerator.generate regional {[ "MCPSTACK_ARGS" := "-m,other.server" ]}
      default_kwargs laptop =
      (Ok {| hc_server_name := "mcpstack"; hc_entry := claude_entry |}, h') ∧
    host_files h' !! desktop_config_path = Some (JsonText (JObj fields)) ∧
    dict_get "mcpServers" fields = Some (JObj servers) ∧
    dict_get "mcpstack" servers = Some (entry_json claude_entry).
Proof.
  set (r := ClaudeConfigGenerator.generate regional {[ "MCPSTACK_ARGS" := "-m,other.server" ]}
              default_kwargs laptop).
  destruct (claude_generate_writes_what_it_returns regional
              {[ "MCPSTACK_ARGS" := "-m,other.server" ]} default_kwargs laptop r.2
              (Ok {| hc_server_name := "mcpstack"; hc_entry := claude_entry |}))
    as [_ Hok].
  - vm_compute. reflexivity.
  - destruct (Hok _ eq_refl) as (_ & _ & _ & _ & _ & _ & Hfile).
    specialize (Hfile eq_refl).
    change (_get_claude_config_path laptop) with (Some desktop_config_path) in Hfile.
    destruct Hfile as (fields & servers & Hh' & Hget & Hentry).
    exists r.2, fields, servers. split; [vm_compute; reflexivity|].
    rewrite Hh'. split; [apply lookup_insert_eq|]. split; [exact Hget|exact Hentry].
Defined.

(** ** The Dockerfile *)

Lemma dockerfile_structure_witness :
  filter (fun l => String.prefix "ENV " l = true)
    (split "010"
       (DockerfileGenerator.generate [("REGION", "us"); ("API_KEY", "k-123")]
          "python:3.13-slim" (Some "mcpstack") (Some ["httpx"]) (Some "./src") None
          "/app" 8000)) =
    ["ENV REGION=us"; "ENV API_KEY=k-123"] ∧
  DockerfileGenerator.generate [("REGION", "us"); ("API_KEY", "k-123")]
    "python:3.13-slim" (Some "mcpstack") (Some ["httpx"]) (Some "./src") None "/app" 8000 =
  DockerfileGenerator.generate [("REGION", "us"); ("API_KEY", "k-123")]
    "python:3.13-slim" None (Some ["httpx"]) (Some "./src") None "/app" 8000.
Proof.
  destruct (dockerfile_structure [("REGION", "us"); ("API_KEY", "k-123")]
              "python:3.13-slim" (Some "mcpstack") (Some ["httpx"]) (Some "./src") None
              "/app" 8000) as [Hlocal Hlines].
  destruct Hlines as (body & cmd_line & _ & _ & _ & Henv).
  { repeat constructor. }
  exact (conj Henv (Hlocal eq_refl)).
Defined.

(** An override whose value holds a line feed puts a line of its own into
    the Dockerfile. *)
Example dockerfile_line_feed :
  filter (fun l => String.prefix "ENV " l = true)
    (split "010"
       (DockerfileGenerator.generate [("REGION", "us" +:+ nl +:+ "ENV PATH=/tmp")]
          "python:3.13-slim" None None None None "/app" 8000)) =
    ["ENV REGION=us"; "ENV PATH=/tmp"].
Proof. vm_compute. reflexivity. Qed.

Example dockerfile_text :
  DockerfileGenerator.generate_lines [("REGION", "us")] "python:3.13-slim" (Some "mcpstack")
    None None (Some ["python"; "-m"; "MCPStack.core.server"]) "/app" 8000 =
    ["FROM python:3.13-slim"; "WORKDIR /app";
     "RUN apt-get update && apt-get install -y --no-install-recommends \";
     "    curl \"; "    && rm -rf /var/lib/apt/lists/*";
     "RUN pip install mcpstack"; "ENV REGION=us"; "EXPOSE 8000";
     "CMD [" +:+ DockerfileGenerator.dq +:+ "python" +:+ DockerfileGenerator.dq +:+ ", " +:+
     DockerfileGenerator.dq +:+ "-m" +:+ DockerfileGenerator.dq +:+ ", " +:+
     DockerfileGenerator.dq +:+ "MCPStack.core.server" +:+ DockerfileGenerator.dq +:+ "]"].
Proof. vm_compute. reflexivity. Qed.


(** ** Composition *)

Lemma with_tools_composes_witness :
  ∃ n2 n3 w5,
    (let! n1 := with_tools standard_levels 0 [WebSearch] in
     let! n2 := with_tools standard_levels n1 [HelloWorld] in
     let! n3 := with_tools standard_levels 0 [WebSearch; HelloWorld] in
     let! n4 := with_tool standard_levels 0 Flaky in
     let! n5 := with_tools standard_levels 0 [Flaky] in
     ret (n2, n3)) w_start = (Ok (n2, n3), w5) ∧
    stacks w5 !! n2 = Some two_tools ∧ stacks w5 !! n3 = Some two_tools ∧ n3 ≠ n2.
Proof.
  destruct (with_tools_composes standard_levels w_start 0 empty_stack [WebSearch] [HelloWorld]
              Flaky eq_refl)
    as (n1 & w1 & n2 & w2 & n3 & w3 & n4 & w4 & n5 & w5 &
        H1 & H2 & H3 & H4 & H5 & Hn2 & Hn3 & Hne & _).
  exists n2, n3, w5.
  rewrite (bind_ok _ _ _ _ _ H1), (bind_ok _ _ _ _ _ H2), (bind_ok _ _ _ _ _ H3),
    (bind_ok _ _ _ _ _ H4), (bind_ok _ _ _ _ _ H5).
  split; [reflexivity|]. split; [exact Hn2|]. split; [by rewrite Hn3|exact Hne].
Defined.
